(** * FactoryOS seed script: a shallow embedding of [scripts/seed-factory-data.py]

    The script is a straight line of HTTP calls against a running API.  It is
    embedded here as a program in a small state-and-exception monad over an
    abstract environment (the HTTP server and the wall clock), with the
    Python values it handles modelled as JSON terms.

    The file has three parts: the model of the script, stage by stage; the
    vocabulary of the statements (states, replies, shapes of replies,
    servers to run the script against, and traces of requests); and the
    lemmas and theorems, first the properties of the specification, then
    further properties of the script.

    Conventions.
    - A Python [str] is a [string]; characters are the [ascii] characters of
      the Standard Library, so [lower] and slicing act character by
      character on them.  The body of an HTTP reply is carried as text:
      [.decode()] is taken to succeed.
    - A JSON number is an integer ([JInt]); fractional numbers are not
      modelled.
    - A dictionary literal of the script with a fixed set of keys (a user, a
      machine, a plan, a production log, a downtime event) is a record, and
      its [_json] function gives the payload handed to [api].
    - Text that Python builds with [str()] of a run-time value is kept as a
      list of pieces and never rendered, except where the script itself
      inspects the resulting string.
    - [ok], [fail] and [header] print one line each; the colours and the
      rules around a header are left out. *)

From Stdlib Require Import ZArith String Ascii List Bool Lia.
From stdpp Require Import base option list gmap strings.

Set Warnings "-register-all".
Local Open Scope string_scope.
Local Open Scope Z_scope.
Local Open Scope list_scope.

(** ** Python values *)

Module Py.

(** What [json.loads] returns. An object keeps its members in order; [get]
    reads the first member with the key. *)
Inductive json : Type :=
| JNull
| JBool (b : bool)
| JInt (z : Z)
| JStr (s : string)
| JList (items : list json)
| JObj (members : list (string * json)).

(** The exceptions the script can meet. *)
Inductive exn : Type :=
| URLError (reason : string)
| JSONDecodeError
| AttributeError
| TypeError
| KeyError (key : string)
| ValueError
| OverflowError.

(** A Python expression evaluates to a value or raises. *)
Inductive res (A : Type) : Type :=
| Val (a : A)
| Exn (e : exn).
Arguments Val {A} a.
Arguments Exn {A} e.

(** Truth value of an object, as [if x:] and [or] test it. *)
Definition truthy (v : json) : bool :=
  match v with
  | JNull => false
  | JBool b => b
  | JInt z => negb (z =? 0)
  | JStr s => negb (String.eqb s "")
  | JList items => match items with [] => false | _ => true end
  | JObj members => match members with [] => false | _ => true end
  end.

Fixpoint members_get (members : list (string * json)) (k : string) : option json :=
  match members with
  | [] => None
  | (k', v) :: rest => if String.eqb k' k then Some v else members_get rest k
  end.

(** [d.get(k, default)]: only a [dict] has the method. *)
Definition get (d : json) (k : string) (default : json) : res json :=
  match d with
  | JObj members => Val (from_option id default (members_get members k))
  | _ => Exn AttributeError
  end.

(** [d[k]] with a string key. *)
Definition subscript (d : json) (k : string) : res json :=
  match d with
  | JObj members =>
      match members_get members k with
      | Some v => Val v
      | None => Exn (KeyError k)
      end
  | _ => Exn TypeError
  end.

(** [len(x)]. *)
Definition len (v : json) : res Z :=
  match v with
  | JStr s => Val (Z.of_nat (String.length s))
  | JList items => Val (Z.of_nat (length items))
  | JObj members => Val (Z.of_nat (length members))
  | _ => Exn TypeError
  end.

Fixpoint chars (s : string) : list json :=
  match s with
  | EmptyString => []
  | String c rest => JStr (String c EmptyString) :: chars rest
  end.

(** The items a [for] loop or a generator visits. *)
Definition iter (v : json) : res (list json) :=
  match v with
  | JList items => Val items
  | JStr s => Val (chars s)
  | JObj members => Val (map (fun kv => JStr (fst kv)) members)
  | _ => Exn TypeError
  end.

(** [needle in hay] on two strings. *)
Fixpoint contains (needle hay : string) : bool :=
  if String.prefix needle hay then true
  else match hay with
       | EmptyString => false
       | String _ rest => contains needle rest
       end.

Definition is_str (s : string) (v : json) : bool :=
  match v with
  | JStr s' => String.eqb s s'
  | _ => false
  end.

(** [needle in x] for a string [needle] and any object [x]. *)
Definition str_in (needle : string) (x : json) : res bool :=
  match x with
  | JStr s => Val (contains needle s)
  | JList items => Val (existsb (is_str needle) items)
  | JObj members => Val (existsb (fun kv => String.eqb needle (fst kv)) members)
  | _ => Exn TypeError
  end.

Definition lower_ascii (c : ascii) : ascii :=
  let n := nat_of_ascii c in
  if (Nat.leb 65 n && Nat.leb n 90)%bool then ascii_of_nat (n + 32)%nat else c.

Fixpoint lower (s : string) : string :=
  match s with
  | EmptyString => EmptyString
  | String c rest => String (lower_ascii c) (lower rest)
  end.

(** [x.lower()]: only a [str] has the method. *)
Definition lower_of (x : json) : res json :=
  match x with
  | JStr s => Val (JStr (lower s))
  | _ => Exn AttributeError
  end.

(** [s[:n]]. *)
Definition slice_to (n : nat) (s : string) : string := String.substring 0 n s.

(** [str(n)] of an integer. *)
Fixpoint digits (fuel : nat) (n : Z) (acc : string) : string :=
  match fuel with
  | O => acc
  | S fuel' =>
      let acc' := String (ascii_of_nat (48 + Z.to_nat (n mod 10))%nat) acc in
      if n / 10 =? 0 then acc' else digits fuel' (n / 10) acc'
  end.

Definition decimal (n : Z) : string :=
  if n <? 0 then String "-" (digits (S (Z.to_nat (Z.log2 (- n)))) (- n) "")
  else digits (S (Z.to_nat (Z.log2 n))) n "".

(** Text built by an f-string: literal parts, and run-time values that Python
    renders with [str()]. *)
Inductive piece : Type :=
| Lit (s : string)
| Shown (v : json)
| ShownExn (e : exn).

Definition text : Type := list piece.

(** [format(x, "<width>s")] as an f-string applies it: a [str] is padded on
    the right; an [int] rejects the [s] code, any other object rejects a
    format specification. *)
Fixpoint spaces (n : nat) : string :=
  match n with
  | O => EmptyString
  | S n' => String " " (spaces n')
  end.

(** [sep.join(items)]: every item must be a [str]. *)
Fixpoint join (sep : string) (items : list json) : res string :=
  match items with
  | [] => Val ""
  | x :: rest =>
      match x with
      | JStr s =>
          match rest with
          | [] => Val s
          | _ :: _ =>
              match join sep rest with
              | Val t => Val (s +:+ sep +:+ t)
              | Exn e => Exn e
              end
          end
      | _ => Exn TypeError
      end
  end.

Definition format_s (width : nat) (x : json) : res string :=
  match x with
  | JStr s => Val (s +:+ spaces (width - String.length s)%nat)
  | JInt _ | JBool _ => Exn ValueError
  | _ => Exn TypeError
  end.

End Py.

(** ** Dates and times

    [datetime.now()] returns a naive local date and time.  It is kept as
    the pair Python's arithmetic works on: the proleptic Gregorian ordinal
    of the day (1 is 0001-01-01) and the microseconds since midnight. *)

Module Calendar.
Import Py.

Record datetime : Type := { ordinal : Z; usec : Z }.

Definition day_usec : Z := 86400000000.
Definition MAXORDINAL : Z := 3652059.

(** [t - timedelta(days, hours, minutes)]; the result must be a day between
    0001-01-01 and 9999-12-31. *)
Definition minus (t : datetime) (days hours minutes : Z) : res datetime :=
  let total := usec t - (hours * 3600 + minutes * 60) * 1000000 in
  let d := ordinal t - days + total / day_usec in
  if ((0 <? d) && (d <=? MAXORDINAL))%bool
  then Val {| ordinal := d; usec := total mod day_usec |}
  else Exn OverflowError.

Definition DAYS_IN_MONTH (month : Z) : Z :=
  nth (Z.to_nat month) [-1; 31; 28; 31; 30; 31; 30; 31; 31; 30; 31; 30; 31] 0.

Definition DAYS_BEFORE_MONTH (month : Z) : Z :=
  nth (Z.to_nat month) [-1; 0; 31; 59; 90; 120; 151; 181; 212; 243; 273; 304; 334] 0.

Definition b2z (b : bool) : Z := if b then 1 else 0.

(** Month and day of the [n]-th day of a year, counted from 0: the estimate
    [(n + 50) >> 5] of the month is right or one too large. *)
Definition month_day (n : Z) (leapyear : bool) : Z * Z :=
  let month := Z.shiftr (n + 50) 5 in
  let preceding := DAYS_BEFORE_MONTH month + b2z ((2 <? month) && leapyear) in
  if n <? preceding then
    let month' := month - 1 in
    let preceding' :=
      preceding - (DAYS_IN_MONTH month' + b2z ((month' =? 2) && leapyear)) in
    (month', n - preceding' + 1)
  else (month, n - preceding + 1).

(** Year, month and day of an ordinal, by the library's [_ord2ymd]. *)
Definition ord2ymd (n : Z) : Z * Z * Z :=
  let n := n - 1 in
  let n400 := n / 146097 in
  let n := n mod 146097 in
  let n100 := n / 36524 in
  let n := n mod 36524 in
  let n4 := n / 1461 in
  let n := n mod 1461 in
  let n1 := n / 365 in
  let n := n mod 365 in
  let year := n400 * 400 + 1 + n100 * 100 + n4 * 4 + n1 in
  if ((n1 =? 4) || (n100 =? 4))%bool then (year - 1, 12, 31)
  else
    let leapyear := ((n1 =? 3) && (negb (n4 =? 24) || (n100 =? 3)))%bool in
    let '(month, day) := month_day n leapyear in
    (year, month, day).

(** A number in decimal, padded with zeros on the left to [width]. *)
Fixpoint zeros (n : nat) : string :=
  match n with
  | O => EmptyString
  | S n' => String "0" (zeros n')
  end.

Definition zpad (width : nat) (n : Z) : string :=
  let d := decimal n in zeros (width - String.length d)%nat +:+ d.

(** [t.strftime("%Y-%m-%d")], the year written with four digits. *)
Definition strftime_ymd (t : datetime) : string :=
  let '(y, m, d) := ord2ymd (ordinal t) in
  zpad 4 y +:+ "-" +:+ zpad 2 m +:+ "-" +:+ zpad 2 d.

(** [t.isoformat()]: the microseconds are written only when they are not 0. *)
Definition isoformat (t : datetime) : string :=
  let secs := usec t / 1000000 in
  let us := usec t mod 1000000 in
  strftime_ymd t +:+ "T" +:+ zpad 2 (secs / 3600) +:+ ":"
    +:+ zpad 2 (secs / 60 mod 60) +:+ ":" +:+ zpad 2 (secs mod 60)
    +:+ (if us =? 0 then "" else "." +:+ zpad 6 us).

(** A digit, and the shape YYYY-MM-DD. *)
Definition is_digit (c : ascii) : bool :=
  let n := nat_of_ascii c in (Nat.leb 48 n && Nat.leb n 57)%bool.

Definition is_dash (c : ascii) : bool := Ascii.eqb c "-".

Definition ymd_shape (s : string) : bool :=
  match list_ascii_of_string s with
  | [y1; y2; y3; y4; h1; m1; m2; h2; d1; d2] =>
      forallb is_digit [y1; y2; y3; y4; m1; m2; d1; d2] && is_dash h1 && is_dash h2
  | _ => false
  end.

End Calendar.

Import Py Calendar.

(** ** The environment: the HTTP server and the clock *)

(** A request as [urllib.request.Request] receives it (the Content-Type
    header is the same in every request and is left out). *)
Record request : Type := {
  method : string;
  url : text;
  body : option json;          (* the value [json.dumps] serialises *)
  authorization : option text  (* the Authorization header *)
}.

(** What [urlopen] and reading the reply can do. *)
Inductive http_result : Type :=
| Replied (j : json)                     (* a reply whose body [json.loads] parses to [j] *)
| Unparsable                             (* a reply whose body [json.loads] rejects *)
| HTTPError (code : Z) (fp : option string)  (* an error status, with its body if any *)
| Failed (e : exn).                      (* any other exception of [urlopen] *)

Record environment : Type := {
  World : Type;
  urlopen : request -> World -> http_result * World;
  clock : World -> datetime * World
}.

(** A line on the console, by the helper that printed it. *)
Inductive line : Type :=
| Ok_line (msg : text)
| Fail_line (msg : text)
| Header_line (msg : text)
| Print_line (msg : text).

(** How a computation ends: with a value, by [sys.exit], or by an exception
    nothing caught. *)
Inductive outcome (A : Type) : Type :=
| Ret (a : A)
| Exit (code : Z)
| Raise (e : exn).
Arguments Ret {A} a.
Arguments Exit {A} code.
Arguments Raise {A} e.

(** The exit status of the process. *)
Definition exit_status {A} (o : outcome A) : Z :=
  match o with
  | Ret _ => 0
  | Exit code => code
  | Raise _ => 1
  end.

Section Monad.

Context {E : environment}.

(** The state of a run: the world, and a record of the requests handed to
    [urlopen] and of the lines printed, oldest first. *)
Record state : Type := {
  world : World E;
  sent : list request;
  console : list line
}.

Definition M (A : Type) : Type := state -> outcome A * state.

Definition ret {A} (a : A) : M A := fun st => (Ret a, st).

Definition bind {A B} (m : M A) (k : A -> M B) : M B :=
  fun st =>
    match m st with
    | (Ret a, st') => k a st'
    | (Exit code, st') => (Exit code, st')
    | (Raise e, st') => (Raise e, st')
    end.

Definition raise {A} (e : exn) : M A := fun st => (Raise e, st).

(** [sys.exit(code)]. *)
Definition exit {A} (code : Z) : M A := fun st => (Exit code, st).

Definition lift {A} (r : res A) : M A :=
  match r with
  | Val a => ret a
  | Exn e => raise e
  end.

(** [try: body / except Exception as e: handler]; [sys.exit] is not an
    [Exception] and passes through. *)
Definition try_except {A} (body : M A) (handler : exn -> M A) : M A :=
  fun st =>
    match body st with
    | (Raise e, st') => handler e st'
    | r => r
    end.

Definition emit (l : line) : M unit :=
  fun st => (Ret tt, {| world := world st; sent := sent st; console := console st ++ [l] |}).

Definition send (req : request) : M http_result :=
  fun st =>
    let '(r, w) := urlopen E req (world st) in
    (Ret r, {| world := w; sent := sent st ++ [req]; console := console st |}).

(** [datetime.now()]. *)
Definition now : M datetime :=
  fun st =>
    let '(t, w) := clock E (world st) in
    (Ret t, {| world := w; sent := sent st; console := console st |}).

End Monad.

Arguments state E : clear implicits.
Arguments M E A : clear implicits.

Declare Scope script_scope.
Delimit Scope script_scope with script.
Notation "x <- m ;; k" := (bind m (fun x => k))
  (at level 100, m at next level, right associativity) : script_scope.
Notation "m ;; k" := (bind m (fun _ => k))
  (at level 100, right associativity) : script_scope.
Local Open Scope script_scope.

(** [for x in items: body]. *)
Fixpoint for_each {E A} (items : list A) (body : A -> M E unit) : M E unit :=
  match items with
  | [] => ret tt
  | x :: rest => body x ;; for_each rest body
  end.

(** A loop that updates the variables [vars]. *)
Fixpoint for_fold {E A V} (items : list A) (vars : V) (body : V -> A -> M E V) : M E V :=
  match items with
  | [] => ret vars
  | x :: rest => vars' <- body vars x ;; for_fold rest vars' body
  end.

(** Evaluate [f] on every item, left to right. *)
Fixpoint map_res {A B} (f : A -> res B) (items : list A) : res (list B) :=
  match items with
  | [] => Val []
  | x :: rest =>
      match f x with
      | Exn e => Exn e
      | Val y =>
          match map_res f rest with
          | Exn e => Exn e
          | Val ys => Val (y :: ys)
          end
      end
  end.

(** ** The script *)

Section Script.

Context {E : environment}.

Definition BASE : string := "http://localhost:4000".

(** The request [api] builds: the body is sent only for data that is true,
    the Authorization header only for a token that is true. *)
Definition request_of (method : string) (path : text) (data : option json) (token : json)
  : request :=
  {| method := method;
     url := Lit BASE :: path;
     body := match data with
             | Some d => if truthy d then Some d else None
             | None => None
             end;
     authorization := if truthy token then Some [Lit "Bearer "; Shown token] else None |}.

(** The [try] block of [api]: the parsed reply, or for an [HTTPError] the
    dictionary made from its code and the first 200 characters of its body;
    any other exception is not caught. *)
Definition answer (r : http_result) : res json :=
  match r with
  | Replied j => Val j
  | Unparsable => Exn JSONDecodeError
  | HTTPError code fp =>
      let body_text := match fp with Some b => b | None => "" end in
      Val (JObj [("success", JBool false);
                 ("error", JStr ("HTTP " +:+ decimal code +:+ ": " +:+ slice_to 200 body_text))])
  | Failed e => Exn e
  end.

(** [api(method, path, data=None, token=None)]. *)
Definition api (method : string) (path : text) (data : option json) (token : json)
  : M E json :=
  r <- send (request_of method path data token) ;;
  lift (answer r).

Definition ok (msg : text) : M E unit := emit (Ok_line msg).
Definition fail (msg : text) : M E unit := emit (Fail_line msg).
Definition header (msg : text) : M E unit := emit (Header_line msg).
Definition print (msg : text) : M E unit := emit (Print_line msg).

(** *** 0. Health check *)

Definition health_check : M E unit :=
  header [Lit "0. HEALTH CHECK"] ;;
  try_except
    (health <- api "GET" [Lit "/api/health"] None JNull ;;
     success <- lift (get health "success" JNull) ;;
     if truthy success then
       service <- lift (get health "service" (JStr "unknown")) ;;
       ok [Lit "API is healthy – "; Shown service]
     else
       fail [Lit "API health check failed"] ;;
       exit 1)
    (fun e =>
       fail [Lit ("Cannot reach API on " +:+ BASE +:+ ": "); ShownExn e] ;;
       exit 1).

(** *** 1. Login as admin; the result is [TOKEN]. *)

Definition login : M E json :=
  header [Lit "1. LOGIN AS ADMIN"] ;;
  login_resp <- api "POST" [Lit "/api/v1/auth/login"]
                  (Some (JObj [("username", JStr "admin"); ("password", JStr "admin123")]))
                  JNull ;;
  token <- lift (get login_resp "token" JNull) ;;
  if negb (truthy token) then
    fail [Lit "Login failed: "; Shown login_resp] ;;
    exit 1
  else
    TOKEN <- lift (subscript login_resp "token") ;;
    n <- lift (len TOKEN) ;;
    ok [Lit "Logged in as admin (token: "; Shown (JInt n); Lit " chars)"] ;;
    ret TOKEN.

(** *** 2. Create users *)

Record user : Type := {
  username : string;
  password : string;
  full_name : string;
  role : string
}.

Definition user_json (u : user) : json :=
  JObj [("username", JStr (username u)); ("password", JStr (password u));
        ("full_name", JStr (full_name u)); ("role", JStr (role u))].

Definition users : list user := [
  {| username := "rajesh.kumar"; password := "Pass@123"; full_name := "Rajesh Kumar"; role := "SUPERVISOR" |};
  {| username := "priya.sharma"; password := "Pass@123"; full_name := "Priya Sharma"; role := "SUPERVISOR" |};
  {| username := "amit.patel";   password := "Pass@123"; full_name := "Amit Patel";   role := "OPERATOR" |};
  {| username := "sunita.devi";  password := "Pass@123"; full_name := "Sunita Devi";  role := "OPERATOR" |};
  {| username := "vikram.singh"; password := "Pass@123"; full_name := "Vikram Singh"; role := "OPERATOR" |};
  {| username := "neha.gupta";   password := "Pass@123"; full_name := "Neha Gupta";   role := "OPERATOR" |};
  {| username := "ravi.verma";   password := "Pass@123"; full_name := "Ravi Verma";   role := "OPERATOR" |};
  {| username := "deepa.rani";   password := "Pass@123"; full_name := "Deepa Rani";   role := "OPERATOR" |}
].

(** [resp.get("success") or "already exists" in resp.get("error", "")] *)
Definition user_accepted (resp : json) : res bool :=
  match get resp "success" JNull with
  | Exn e => Exn e
  | Val success =>
      if truthy success then Val true
      else match get resp "error" (JStr "") with
           | Exn e => Exn e
           | Val error => str_in "already exists" error
           end
  end.

Definition create_user (TOKEN : json) (u : user) : M E unit :=
  resp <- api "POST" [Lit "/api/v1/auth/register"] (Some (user_json u)) TOKEN ;;
  accepted <- lift (user_accepted resp) ;;
  if (accepted : bool) then
    ok [Lit ("Created " +:+ lower (role u) +:+ ": " +:+ full_name u)]
  else
    error <- lift (get resp "error" (JStr "unknown")) ;;
    fail [Lit (full_name u +:+ ": "); Shown error].

Definition create_users (TOKEN : json) : M E unit :=
  header [Lit "2. CREATE USERS"] ;;
  for_each users (create_user TOKEN).

(** *** 3. Create machines *)

Record machine : Type := {
  machine_code : string;
  machine_name : string;
  department : string;
  machine_type : string;
  status : string
}.

Definition machine_json (m : machine) : json :=
  JObj [("machine_code", JStr (machine_code m)); ("machine_name", JStr (machine_name m));
        ("department", JStr (department m)); ("machine_type", JStr (machine_type m));
        ("status", JStr (status m))].

Definition machines : list machine := [
  {| machine_code := "CNC-001";   machine_name := "CNC Lathe Alpha";     department := "Machining"; machine_type := "CNC Lathe";        status := "ACTIVE" |};
  {| machine_code := "CNC-002";   machine_name := "CNC Mill Beta";       department := "Machining"; machine_type := "CNC Mill";         status := "ACTIVE" |};
  {| machine_code := "INJ-001";   machine_name := "Injection Molder A";  department := "Molding";   machine_type := "Injection Molder"; status := "ACTIVE" |};
  {| machine_code := "INJ-002";   machine_name := "Injection Molder B";  department := "Molding";   machine_type := "Injection Molder"; status := "ACTIVE" |};
  {| machine_code := "PRESS-001"; machine_name := "Hydraulic Press 50T"; department := "Pressing";  machine_type := "Hydraulic Press";  status := "ACTIVE" |};
  {| machine_code := "WELD-001";  machine_name := "Robotic Welder R1";   department := "Welding";   machine_type := "Robotic Welder";   status := "ACTIVE" |};
  {| machine_code := "PACK-001";  machine_name := "Packaging Line 1";    department := "Packaging"; machine_type := "Packaging";        status := "ACTIVE" |};
  {| machine_code := "GRIND-001"; machine_name := "Surface Grinder G1";  department := "Machining"; machine_type := "Surface Grinder";  status := "MAINTENANCE" |}
].

(** ["<needle>" in resp.get("error", "").lower()] *)
Definition error_mentions (needle : string) (resp : json) : res bool :=
  match get resp "error" (JStr "") with
  | Exn e => Exn e
  | Val error =>
      match lower_of error with
      | Exn e => Exn e
      | Val lowered => str_in needle lowered
      end
  end.

(** [resp.get("success") or "already exists" in ....lower()
     or "duplicate" in ....lower()] *)
Definition machine_accepted (resp : json) : res bool :=
  match get resp "success" JNull with
  | Exn e => Exn e
  | Val success =>
      if truthy success then Val true
      else match error_mentions "already exists" resp with
           | Exn e => Exn e
           | Val true => Val true
           | Val false => error_mentions "duplicate" resp
           end
  end.

Definition create_machine (TOKEN : json) (m : machine) : M E unit :=
  resp <- api "POST" [Lit "/api/v1/machines"] (Some (machine_json m)) TOKEN ;;
  accepted <- lift (machine_accepted resp) ;;
  if (accepted : bool) then
    ok [Lit ("Created: " +:+ machine_code m +:+ " (" +:+ machine_name m +:+ ")")]
  else
    error <- lift (get resp "error" resp) ;;
    fail [Lit (machine_code m +:+ ": "); Shown error].

Definition create_machines (TOKEN : json) : M E unit :=
  header [Lit "3. CREATE MACHINES"] ;;
  for_each machines (create_machine TOKEN).

(** *** 4. Verify shifts *)

Definition verify_shifts (TOKEN : json) : M E unit :=
  header [Lit "4. VERIFY SHIFTS"] ;;
  shifts_resp <- api "GET" [Lit "/api/v1/shifts"] None TOKEN ;;
  shifts <- lift (get shifts_resp "shifts" (JList [])) ;;
  n <- lift (len shifts) ;;
  items <- lift (iter shifts) ;;
  names <- lift (map_res (fun s => subscript s "shift_name") items) ;;
  joined <- lift (join ", " names) ;;
  ok [Lit "Shifts available: "; Shown (JInt n); Lit (" (" +:+ joined +:+ ")")].

(** *** 5. Create production plans *)

(** [machine_map[m["machine_code"]] = m["machine_id"]]: the value is read
    first, then the key.  A list or an object cannot be a key; a key that is
    not a string enters the dictionary but is never found by a lookup with a
    machine code, so the map keeps the string keys only. *)
Definition machine_map_set (machine_map : gmap string json) (m : json)
  : res (gmap string json) :=
  match subscript m "machine_id" with
  | Exn e => Exn e
  | Val id =>
      match subscript m "machine_code" with
      | Exn e => Exn e
      | Val (JStr code) => Val (<[code := id]> machine_map)
      | Val (JList _) | Val (JObj _) => Exn TypeError
      | Val _ => Val machine_map
      end
  end.

Fixpoint machine_map_of (listing : list json) (machine_map : gmap string json)
  : res (gmap string json) :=
  match listing with
  | [] => Val machine_map
  | m :: rest =>
      match machine_map_set machine_map m with
      | Exn e => Exn e
      | Val machine_map' => machine_map_of rest machine_map'
      end
  end.

Definition read_machine_map (TOKEN : json) : M E (gmap string json) :=
  machines_resp <- api "GET" [Lit "/api/v1/machines"] None TOKEN ;;
  listing <- lift (get machines_resp "machines" (JList [])) ;;
  items <- lift (iter listing) ;;
  lift (machine_map_of items ∅).

(** [today], [yesterday] and [two_days_ago], each from its own reading of
    the clock. *)
Definition read_dates : M E (string * string * string) :=
  t0 <- now ;;
  let today := strftime_ymd t0 in
  t1 <- now ;;
  d1 <- lift (minus t1 1 0 0) ;;
  let yesterday := strftime_ymd d1 in
  t2 <- now ;;
  d2 <- lift (minus t2 2 0 0) ;;
  let two_days_ago := strftime_ymd d2 in
  ret (today, yesterday, two_days_ago).

(** The date variable a plan is written with. *)
Inductive day : Type := Today | Yesterday | Two_days_ago.

(** An entry of the [plans] literal before it is evaluated: the machine code
    looked up in [machine_map], the identifier used when it is absent, and
    the constants. *)
Record plan_entry : Type := {
  entry_machine : string;
  entry_fallback : Z;
  entry_shift : Z;
  entry_product_name : string;
  entry_product_code : string;
  entry_target : Z;
  entry_day : day
}.

Definition plan_entries : list plan_entry := [
  (* Today - Morning shift *)
  {| entry_machine := "CNC-001";   entry_fallback := 1; entry_shift := 1; entry_product_name := "Shaft Bearing Housing"; entry_product_code := "SBH-1001"; entry_target := 500;  entry_day := Today |};
  {| entry_machine := "CNC-002";   entry_fallback := 2; entry_shift := 1; entry_product_name := "Gear Box Cover";        entry_product_code := "GBC-2002"; entry_target := 300;  entry_day := Today |};
  {| entry_machine := "INJ-001";   entry_fallback := 3; entry_shift := 1; entry_product_name := "Plastic Housing Cap";   entry_product_code := "PHC-3001"; entry_target := 1000; entry_day := Today |};
  {| entry_machine := "INJ-002";   entry_fallback := 4; entry_shift := 1; entry_product_name := "Connector Shell";       entry_product_code := "CS-4001";  entry_target := 800;  entry_day := Today |};
  {| entry_machine := "PRESS-001"; entry_fallback := 5; entry_shift := 1; entry_product_name := "Metal Bracket A";       entry_product_code := "MBA-5001"; entry_target := 600;  entry_day := Today |};
  {| entry_machine := "WELD-001";  entry_fallback := 6; entry_shift := 1; entry_product_name := "Frame Assembly";        entry_product_code := "FA-6001";  entry_target := 200;  entry_day := Today |};
  {| entry_machine := "PACK-001";  entry_fallback := 7; entry_shift := 1; entry_product_name := "Final Pack Unit";       entry_product_code := "FPU-7001"; entry_target := 400;  entry_day := Today |};
  (* Today - Afternoon shift *)
  {| entry_machine := "CNC-001";   entry_fallback := 1; entry_shift := 2; entry_product_name := "Shaft Bearing Housing"; entry_product_code := "SBH-1001"; entry_target := 450;  entry_day := Today |};
  {| entry_machine := "INJ-001";   entry_fallback := 3; entry_shift := 2; entry_product_name := "Valve Body";            entry_product_code := "VB-3002";  entry_target := 750;  entry_day := Today |};
  (* Yesterday (completed) *)
  {| entry_machine := "CNC-001";   entry_fallback := 1; entry_shift := 1; entry_product_name := "Shaft Bearing Housing"; entry_product_code := "SBH-1001"; entry_target := 500;  entry_day := Yesterday |};
  {| entry_machine := "CNC-002";   entry_fallback := 2; entry_shift := 1; entry_product_name := "Gear Box Cover";        entry_product_code := "GBC-2002"; entry_target := 300;  entry_day := Yesterday |};
  {| entry_machine := "INJ-001";   entry_fallback := 3; entry_shift := 1; entry_product_name := "Plastic Housing Cap";   entry_product_code := "PHC-3001"; entry_target := 1000; entry_day := Yesterday |};
  (* 2 days ago (completed) *)
  {| entry_machine := "CNC-001";   entry_fallback := 1; entry_shift := 1; entry_product_name := "Shaft Bearing Housing"; entry_product_code := "SBH-1001"; entry_target := 500;  entry_day := Two_days_ago |};
  {| entry_machine := "PRESS-001"; entry_fallback := 5; entry_shift := 1; entry_product_name := "Metal Bracket A";       entry_product_code := "MBA-5001"; entry_target := 600;  entry_day := Two_days_ago |}
].

(** A plan as sent. *)
Record plan : Type := {
  machine_id : json;
  shift_id : Z;
  product_name : string;
  product_code : string;
  target_quantity : Z;
  plan_date : string
}.

Definition plan_json (p : plan) : json :=
  JObj [("machine_id", machine_id p); ("shift_id", JInt (shift_id p));
        ("product_name", JStr (product_name p)); ("product_code", JStr (product_code p));
        ("target_quantity", JInt (target_quantity p)); ("plan_date", JStr (plan_date p))].

Definition date_of (dates : string * string * string) (d : day) : string :=
  let '(today, yesterday, two_days_ago) := dates in
  match d with
  | Today => today
  | Yesterday => yesterday
  | Two_days_ago => two_days_ago
  end.

(** [machine_map.get(code, fallback)] *)
Definition machine_map_get (machine_map : gmap string json) (code : string) (fallback : Z)
  : json :=
  default (JInt fallback) (machine_map !! code).

Definition plan_of (machine_map : gmap string json) (dates : string * string * string)
    (e : plan_entry) : plan :=
  {| machine_id := machine_map_get machine_map (entry_machine e) (entry_fallback e);
     shift_id := entry_shift e;
     product_name := entry_product_name e;
     product_code := entry_product_code e;
     target_quantity := entry_target e;
     plan_date := date_of dates (entry_day e) |}.

Definition plans (machine_map : gmap string json) (dates : string * string * string)
  : list plan :=
  map (plan_of machine_map dates) plan_entries.

(** [enumerate(items)] *)
Definition enumerate {A} (items : list A) : list (nat * A) :=
  zip (seq 0 (length items)) items.

Definition create_plan (TOKEN : json) (plan_ids : gmap nat json) (ip : nat * plan)
  : M E (gmap nat json) :=
  let '(i, p) := ip in
  resp <- api "POST" [Lit "/api/v1/plans"] (Some (plan_json p)) TOKEN ;;
  success <- lift (get resp "success" JNull) ;;
  if truthy success then
    plan_obj <- lift (get resp "plan" (JObj [])) ;;
    plan_id <- lift (get plan_obj "plan_id" (JInt (Z.of_nat i + 1))) ;;
    ok [Lit "Plan "; Shown plan_id; Lit (": " +:+ product_name p +:+ " (");
        Shown (JInt (target_quantity p)); Lit (" pcs, " +:+ plan_date p +:+ ")")] ;;
    ret (<[i := plan_id]> plan_ids)
  else
    error <- lift (get resp "error" resp) ;;
    fail [Lit "Plan "; Shown (JInt (Z.of_nat i)); Lit ": "; Shown error] ;;
    ret plan_ids.

Definition create_plans (TOKEN : json) (plans : list plan) : M E (gmap nat json) :=
  for_fold (enumerate plans) ∅ (create_plan TOKEN).

(** *** 6. Set plan statuses *)

(** [plan_ids.get(i)] *)
Definition plan_ids_get (plan_ids : gmap nat json) (i : nat) : json :=
  default JNull (plan_ids !! i).

(** The body of both loops: [pid = plan_ids.get(i)], and the PATCH when
    [pid] is true. *)
Definition patch_plan (TOKEN : json) (plan_ids : gmap nat json) (new_status : string)
    (i : nat) : M E unit :=
  let pid := plan_ids_get plan_ids i in
  if truthy pid then
    api "PATCH" [Lit "/api/v1/plans/"; Shown pid]
      (Some (JObj [("status", JStr new_status)])) TOKEN ;;
    ret tt
  else ret tt.

Definition set_plan_statuses (TOKEN : json) (plan_ids : gmap nat json) : M E unit :=
  header [Lit "6. SET PLAN STATUSES"] ;;
  (* range(7) *)
  for_each (seq 0 7) (patch_plan TOKEN plan_ids "IN_PROGRESS") ;;
  ok [Lit "Plans 1-7 (today morning) → IN_PROGRESS"] ;;
  (* range(9, 14) *)
  for_each (seq 9 5) (patch_plan TOKEN plan_ids "COMPLETED") ;;
  ok [Lit "Plans 10-14 (yesterday + 2 days ago) → COMPLETED"].

(** *** 7. Log production data *)

(** An entry of the [production_logs] literal before it is evaluated: the
    plan index looked up in [plan_ids], the machine code and its fallback,
    and the constants ([shift_id] is 1 throughout). *)
Record log_entry : Type := {
  entry_plan : nat;
  entry_code : string;
  entry_id : Z;
  entry_produced : Z;
  entry_ok : Z;
  entry_rejected : Z;
  entry_slot : string
}.

Definition log_entries : list log_entry := [
  (* Today: CNC-001 (plan 0) *)
  {| entry_plan := 0; entry_code := "CNC-001"; entry_id := 1; entry_produced := 120; entry_ok := 118; entry_rejected := 2; entry_slot := "06:00-07:00" |};
  {| entry_plan := 0; entry_code := "CNC-001"; entry_id := 1; entry_produced := 110; entry_ok := 107; entry_rejected := 3; entry_slot := "07:00-08:00" |};
  {| entry_plan := 0; entry_code := "CNC-001"; entry_id := 1; entry_produced := 90;  entry_ok := 88;  entry_rejected := 2; entry_slot := "08:00-09:00" |};
  (* Today: CNC-002 (plan 1) *)
  {| entry_plan := 1; entry_code := "CNC-002"; entry_id := 2; entry_produced := 95; entry_ok := 92; entry_rejected := 3; entry_slot := "06:00-07:00" |};
  {| entry_plan := 1; entry_code := "CNC-002"; entry_id := 2; entry_produced := 85; entry_ok := 82; entry_rejected := 3; entry_slot := "07:00-08:00" |};
  (* Today: INJ-001 (plan 2) *)
  {| entry_plan := 2; entry_code := "INJ-001"; entry_id := 3; entry_produced := 200; entry_ok := 195; entry_rejected := 5; entry_slot := "06:00-07:00" |};
  {| entry_plan := 2; entry_code := "INJ-001"; entry_id := 3; entry_produced := 220; entry_ok := 215; entry_rejected := 5; entry_slot := "07:00-08:00" |};
  {| entry_plan := 2; entry_code := "INJ-001"; entry_id := 3; entry_produced := 230; entry_ok := 225; entry_rejected := 5; entry_slot := "08:00-09:00" |};
  (* Today: INJ-002 (plan 3) *)
  {| entry_plan := 3; entry_code := "INJ-002"; entry_id := 4; entry_produced := 180; entry_ok := 176; entry_rejected := 4; entry_slot := "06:00-07:00" |};
  {| entry_plan := 3; entry_code := "INJ-002"; entry_id := 4; entry_produced := 170; entry_ok := 166; entry_rejected := 4; entry_slot := "07:00-08:00" |};
  {| entry_plan := 3; entry_code := "INJ-002"; entry_id := 4; entry_produced := 170; entry_ok := 166; entry_rejected := 4; entry_slot := "08:00-09:00" |};
  (* Today: PRESS-001 (plan 4) *)
  {| entry_plan := 4; entry_code := "PRESS-001"; entry_id := 5; entry_produced := 150; entry_ok := 148; entry_rejected := 2; entry_slot := "06:00-07:00" |};
  {| entry_plan := 4; entry_code := "PRESS-001"; entry_id := 5; entry_produced := 140; entry_ok := 137; entry_rejected := 3; entry_slot := "07:00-08:00" |};
  {| entry_plan := 4; entry_code := "PRESS-001"; entry_id := 5; entry_produced := 110; entry_ok := 108; entry_rejected := 2; entry_slot := "08:00-09:00" |};
  (* Today: WELD-001 (plan 5) *)
  {| entry_plan := 5; entry_code := "WELD-001"; entry_id := 6; entry_produced := 60; entry_ok := 58; entry_rejected := 2; entry_slot := "06:00-07:00" |};
  {| entry_plan := 5; entry_code := "WELD-001"; entry_id := 6; entry_produced := 60; entry_ok := 59; entry_rejected := 1; entry_slot := "07:00-08:00" |};
  (* Today: PACK-001 (plan 6) *)
  {| entry_plan := 6; entry_code := "PACK-001"; entry_id := 7; entry_produced := 100; entry_ok := 99; entry_rejected := 1; entry_slot := "06:00-07:00" |};
  {| entry_plan := 6; entry_code := "PACK-001"; entry_id := 7; entry_produced := 95;  entry_ok := 95; entry_rejected := 0; entry_slot := "07:00-08:00" |};
  {| entry_plan := 6; entry_code := "PACK-001"; entry_id := 7; entry_produced := 85;  entry_ok := 85; entry_rejected := 0; entry_slot := "08:00-09:00" |};
  (* Yesterday: CNC-001 (plan 9) *)
  {| entry_plan := 9; entry_code := "CNC-001"; entry_id := 1; entry_produced := 250; entry_ok := 245; entry_rejected := 5; entry_slot := "06:00-10:00" |};
  {| entry_plan := 9; entry_code := "CNC-001"; entry_id := 1; entry_produced := 240; entry_ok := 233; entry_rejected := 7; entry_slot := "10:00-14:00" |};
  (* Yesterday: CNC-002 (plan 10) *)
  {| entry_plan := 10; entry_code := "CNC-002"; entry_id := 2; entry_produced := 295; entry_ok := 288; entry_rejected := 7; entry_slot := "06:00-14:00" |};
  (* Yesterday: INJ-001 (plan 11) *)
  {| entry_plan := 11; entry_code := "INJ-001"; entry_id := 3; entry_produced := 500; entry_ok := 488; entry_rejected := 12; entry_slot := "06:00-10:00" |};
  {| entry_plan := 11; entry_code := "INJ-001"; entry_id := 3; entry_produced := 480; entry_ok := 467; entry_rejected := 13; entry_slot := "10:00-14:00" |};
  (* 2 days ago: CNC-001 (plan 12) *)
  {| entry_plan := 12; entry_code := "CNC-001"; entry_id := 1; entry_produced := 260; entry_ok := 256; entry_rejected := 4; entry_slot := "06:00-10:00" |};
  {| entry_plan := 12; entry_code := "CNC-001"; entry_id := 1; entry_produced := 250; entry_ok := 248; entry_rejected := 2; entry_slot := "10:00-14:00" |};
  (* 2 days ago: PRESS-001 (plan 13) *)
  {| entry_plan := 13; entry_code := "PRESS-001"; entry_id := 5; entry_produced := 300; entry_ok := 295; entry_rejected := 5; entry_slot := "06:00-10:00" |};
  {| entry_plan := 13; entry_code := "PRESS-001"; entry_id := 5; entry_produced := 280; entry_ok := 275; entry_rejected := 5; entry_slot := "10:00-14:00" |}
].

(** A production log as sent. *)
Record production_log : Type := {
  plan_id : json;
  log_machine_id : json;
  log_shift_id : Z;
  quantity_produced : Z;
  quantity_ok : Z;
  quantity_rejected : Z;
  hour_slot : string
}.

Definition production_log_json (l : production_log) : json :=
  JObj [("plan_id", plan_id l); ("machine_id", log_machine_id l);
        ("shift_id", JInt (log_shift_id l));
        ("quantity_produced", JInt (quantity_produced l));
        ("quantity_ok", JInt (quantity_ok l));
        ("quantity_rejected", JInt (quantity_rejected l));
        ("hour_slot", JStr (hour_slot l))].

Definition log_of (plan_ids : gmap nat json) (machine_map : gmap string json)
    (e : log_entry) : production_log :=
  {| plan_id := plan_ids_get plan_ids (entry_plan e);
     log_machine_id := machine_map_get machine_map (entry_code e) (entry_id e);
     log_shift_id := 1;
     quantity_produced := entry_produced e;
     quantity_ok := entry_ok e;
     quantity_rejected := entry_rejected e;
     hour_slot := entry_slot e |}.

Definition production_logs (plan_ids : gmap nat json) (machine_map : gmap string json)
  : list production_log :=
  map (log_of plan_ids machine_map) log_entries.

(** One turn of the loop on the pair [(success_count, fail_count)]. *)
Definition post_log (TOKEN : json) (counts : Z * Z) (log : production_log)
  : M E (Z * Z) :=
  let '(success_count, fail_count) := counts in
  resp <- api "POST" [Lit "/api/v1/production-logs"] (Some (production_log_json log)) TOKEN ;;
  success <- lift (get resp "success" JNull) ;;
  if truthy success then ret (success_count + 1, fail_count)
  else ret (success_count, fail_count + 1).

Definition post_logs (TOKEN : json) (logs : list production_log) : M E (Z * Z) :=
  for_fold logs (0, 0) (post_log TOKEN).

Definition log_production (TOKEN : json) (logs : list production_log) : M E unit :=
  header [Lit "7. LOG PRODUCTION DATA"] ;;
  counts <- post_logs TOKEN logs ;;
  ok [Lit "Production logs: "; Shown (JInt (fst counts)); Lit " created, ";
      Shown (JInt (snd counts)); Lit " failed"].

(** *** 8. Log downtime events *)

Record downtime_event : Type := {
  dt_machine_id : json;
  reason : string;
  category : string;
  started_at : string;
  ended_at : option string
}.

Definition downtime_event_json (dt : downtime_event) : json :=
  JObj ([("machine_id", dt_machine_id dt); ("reason", JStr (reason dt));
         ("category", JStr (category dt)); ("started_at", JStr (started_at dt))]
        ++ match ended_at dt with
           | Some t => [("ended_at", JStr t)]
           | None => []
           end).

(** [now = datetime.now()] and the [downtime_events] literal. *)
Definition read_downtime_events (machine_map : gmap string json)
  : M E (list downtime_event) :=
  now <- now ;;
  s1 <- lift (minus now 0 8 0) ;;
  s2 <- lift (minus now 0 4 0) ;;
  e2 <- lift (minus now 0 2 0) ;;
  s3 <- lift (minus now 0 6 0) ;;
  e3 <- lift (minus now 0 5 0) ;;
  s4 <- lift (minus now 0 3 0) ;;
  e4 <- lift (minus now 0 2 30) ;;
  ret [
    {| dt_machine_id := machine_map_get machine_map "GRIND-001" 8;
       reason := "Scheduled preventive maintenance - bearing replacement";
       category := "MAINTENANCE";
       started_at := isoformat s1; ended_at := None |};
    {| dt_machine_id := machine_map_get machine_map "CNC-002" 2;
       reason := "Tool breakage - carbide insert shattered";
       category := "BREAKDOWN";
       started_at := isoformat s2; ended_at := Some (isoformat e2) |};
    {| dt_machine_id := machine_map_get machine_map "INJ-002" 4;
       reason := "Material feed jam - hopper blockage";
       category := "MATERIAL";
       started_at := isoformat s3; ended_at := Some (isoformat e3) |};
    {| dt_machine_id := machine_map_get machine_map "WELD-001" 6;
       reason := "Calibration drift detected - recalibration performed";
       category := "QUALITY";
       started_at := isoformat s4; ended_at := Some (isoformat e4) |}
  ].

Definition post_downtime (TOKEN : json) (dt : downtime_event) : M E unit :=
  resp <- api "POST" [Lit "/api/v1/downtime"] (Some (downtime_event_json dt)) TOKEN ;;
  success <- lift (get resp "success" JNull) ;;
  if truthy success then
    let ended :=
      match ended_at dt with
      | Some t => if negb (truthy (JStr t)) then "ongoing" else "resolved"
      | None => "ongoing"
      end in
    ok [Lit ("Downtime: " +:+ slice_to 40 (reason dt) +:+ "... (" +:+ ended +:+ ")")]
  else
    error <- lift (get resp "error" resp) ;;
    fail [Lit "Downtime: "; Shown error].

Definition log_downtime (TOKEN : json) (machine_map : gmap string json) : M E unit :=
  header [Lit "8. LOG DOWNTIME EVENTS"] ;;
  downtime_events <- read_downtime_events machine_map ;;
  for_each downtime_events (post_downtime TOKEN).

(** *** 9. Verification *)

Fixpoint times (n : nat) (s : string) : string :=
  match n with
  | O => EmptyString
  | S n' => s +:+ times n' s
  end.

(** The rows of the dashboard table: label, key, and what follows the value. *)
Definition dashboard_rows : list (string * string * string) := [
  ("  Total Machines:    ", "totalMachines", "");
  ("  Active Machines:   ", "activeMachines", "");
  ("  Today Plans:       ", "todayPlans", "");
  ("  Today Produced:    ", "todayProduced", "");
  ("  Today Target:      ", "todayTarget", "");
  ("  Today OK:          ", "todayOk", "");
  ("  Today Rejected:    ", "todayRejected", "");
  ("  Rejection Rate:    ", "rejectionRate", "%");
  ("  Efficiency:        ", "efficiency", "%");
  ("  Downtime (min):    ", "todayDowntimeMin", "")
].

Definition dashboard_row (d : json) (row : string * string * string) : M E unit :=
  let '(label, key, suffix) := row in
  v <- lift (get d key (JStr "N/A")) ;;
  print [Lit label; Shown v; Lit suffix].

Definition verify_dashboard (TOKEN : json) : M E unit :=
  header [Lit "9. DASHBOARD VERIFICATION"] ;;
  dash <- api "GET" [Lit "/api/v1/dashboard"] None TOKEN ;;
  d <- lift (get dash "dashboard" (JObj [])) ;;
  print [Lit ("  " +:+ times 40 "─")] ;;
  for_each dashboard_rows (dashboard_row d) ;;
  print [Lit ("  " +:+ times 40 "─")].

(** [len(resp.get(key, []))] entries, printed by [ok]. *)
Definition count_entries (resp : json) (key : string) (label suffix : string) : M E unit :=
  entries <- lift (get resp key (JList [])) ;;
  n <- lift (len entries) ;;
  ok [Lit label; Shown (JInt n); Lit suffix].

Definition verify_reports (TOKEN : json) : M E unit :=
  header [Lit "10. REPORTS VERIFICATION"] ;;
  reports_daily <- api "GET" [Lit "/api/v1/reports/daily"] None TOKEN ;;
  success <- lift (get reports_daily "success" JNull) ;;
  report <- (if truthy success then ret success
             else lift (get reports_daily "report" JNull)) ;;
  (if truthy report then
     count_entries reports_daily "report" "Daily report: " " entries"
   else
     error <- lift (get reports_daily "error" (JStr "N/A")) ;;
     fail [Lit "Daily report: "; Shown error]) ;;
  downtime_resp <- api "GET" [Lit "/api/v1/downtime"] None TOKEN ;;
  count_entries downtime_resp "logs" "Downtime logs: " " entries" ;;
  users_resp <- api "GET" [Lit "/api/v1/auth/users"] None TOKEN ;;
  count_entries users_resp "users" "Users: " " total".

(** *** 11. Feature flags *)

Definition feature_row (f : json) : M E unit :=
  _ <- lift (get f "api" JNull) ;;   (* [status], computed and not used *)
  id <- lift (subscript f "id") ;;
  id_s <- lift (format_s 12 id) ;;
  api_v <- lift (get f "api" JNull) ;;
  api_s <- lift (format_s 8 api_v) ;;
  ui_v <- lift (get f "ui" JNull) ;;
  ui_s <- lift (format_s 8 ui_v) ;;
  label <- lift (get f "label" (JStr "")) ;;
  print [Lit ("  " +:+ id_s +:+ "  api=" +:+ api_s +:+ "  ui=" +:+ ui_s +:+ "  "); Shown label].

Definition feature_flags (TOKEN : json) : M E unit :=
  header [Lit "11. FEATURE FLAGS"] ;;
  features_resp <- api "GET" [Lit "/api/v1/admin/features"] None TOKEN ;;
  features <- lift (get features_resp "features" (JList [])) ;;
  items <- lift (iter features) ;;
  for_each items feature_row.

(** The closing banner (the colour codes and the blank lines are left out). *)
Definition farewell : M E unit :=
  print [Lit (times 50 "═")] ;;
  print [Lit "  ✅ SEED DATA COMPLETE – FactoryOS is ready!"] ;;
  print [Lit (times 50 "═")] ;;
  print [Lit "  Login: http://localhost:8081"] ;;
  print [Lit "  Credentials: admin / admin123"] ;;
  print [Lit "  API: http://localhost:4000/api/v1/..."] ;;
  print [].

(** *** The whole script *)

Definition run : M E unit :=
  health_check ;;
  TOKEN <- login ;;
  create_users TOKEN ;;
  create_machines TOKEN ;;
  verify_shifts TOKEN ;;
  header [Lit "5. CREATE PRODUCTION PLANS"] ;;
  machine_map <- read_machine_map TOKEN ;;
  dates <- read_dates ;;
  plan_ids <- create_plans TOKEN (plans machine_map dates) ;;
  set_plan_statuses TOKEN plan_ids ;;
  log_production TOKEN (production_logs plan_ids machine_map) ;;
  log_downtime TOKEN machine_map ;;
  verify_dashboard TOKEN ;;
  verify_reports TOKEN ;;
  feature_flags TOKEN ;;
  farewell.

Definition start (w : World E) : state E :=
  {| world := w; sent := []; console := [] |}.

End Script.

(** * Vocabulary: states, replies, shapes and scenarios

    The definitions the statements below are written with. *)

Section Vocabulary.

Context {E : environment}.

(** ** States, replies and what a computation returns *)

(** The state after a request was handed to [urlopen], and after a line was
    printed. *)
Definition after_send (st : state E) (req : request) : state E :=
  {| world := snd (urlopen E req (world st));
     sent := sent st ++ [req];
     console := console st |}.

Definition after_line (st : state E) (l : line) : state E :=
  {| world := world st; sent := sent st; console := console st ++ [l] |}.

(** What [api] makes of the server's answer to [req] in state [st]. *)
Definition reply (st : state E) (req : request) : res json :=
  answer (fst (urlopen E req (world st))).

Definition outcome_of {A} (r : res A) : outcome A :=
  match r with
  | Val a => Ret a
  | Exn e => Raise e
  end.

(** [m] run from [st] returns a value, and [Q] holds of it and of the state
    it leaves. *)
Definition returns {A} (m : M E A) (st : state E) (Q : A -> state E -> Prop) : Prop :=
  exists a st', m st = (Ret a, st') /\ Q a st'.

(** The console only grows. *)
Definition extends (st st' : state E) : Prop :=
  exists more, console st' = console st ++ more.

(** ** Replies to a creation request *)

Definition user_request (TOKEN : json) (u : user) : request :=
  request_of "POST" [Lit "/api/v1/auth/register"] (Some (user_json u)) TOKEN.

Definition machine_request (TOKEN : json) (m : machine) : request :=
  request_of "POST" [Lit "/api/v1/machines"] (Some (machine_json m)) TOKEN.

(** Whether a reply reports success, and its error message when the reply is
    an object whose ["error"] is a string or is absent. *)
Definition success_of (resp : json) : bool :=
  match get resp "success" JNull with
  | Val v => truthy v
  | Exn _ => false
  end.

Definition error_text (resp : json) : option string :=
  match resp with
  | JObj members =>
      match members_get members "error" with
      | None => Some ""
      | Some (JStr s) => Some s
      | Some _ => None
      end
  | _ => None
  end.

(** [resp.get("error", fallback)] of an object. *)
Definition error_or (fallback : json) (resp : json) : json :=
  match get resp "error" fallback with
  | Val v => v
  | Exn _ => fallback
  end.

Definition user_line (u : user) (resp : json) (accepted : bool) : line :=
  if accepted
  then Ok_line [Lit ("Created " +:+ lower (role u) +:+ ": " +:+ full_name u)]
  else Fail_line [Lit (full_name u +:+ ": "); Shown (error_or (JStr "unknown") resp)].

Definition machine_line (m : machine) (resp : json) (accepted : bool) : line :=
  if accepted
  then Ok_line [Lit ("Created: " +:+ machine_code m +:+ " (" +:+ machine_name m +:+ ")")]
  else Fail_line [Lit (machine_code m +:+ ": "); Shown (error_or resp resp)].

(** ** Replies of the shape the script relies on

    For each endpoint, the replies on which no step of the script raises.
    A member the script reads with a default may be absent. *)

Definition is_obj (j : json) : bool :=
  match j with JObj _ => true | _ => false end.

Definition is_text (j : json) : bool :=
  match j with JStr _ => true | _ => false end.

(** The objects [len] accepts. *)
Definition sized (j : json) : bool :=
  match j with JStr _ | JList _ | JObj _ => true | _ => false end.

(** [j] is an object, and its member [k], when present, satisfies [shape]. *)
Definition field (k : string) (shape : json -> bool) (j : json) : bool :=
  match j with
  | JObj members =>
      match members_get members k with
      | Some v => shape v
      | None => true
      end
  | _ => false
  end.

Definition list_of (shape : json -> bool) (j : json) : bool :=
  match j with
  | JList items => forallb shape items
  | _ => false
  end.

(** A creation reply: success, or an error message that is a string. *)
Definition creation_ok (j : json) : bool :=
  is_obj j && (success_of j || field "error" is_text j).

Definition shift_ok (s : json) : bool :=
  match subscript s "shift_name" with
  | Val (JStr _) => true
  | _ => false
  end.

Definition listable (m : json) : bool :=
  match subscript m "machine_id", subscript m "machine_code" with
  | Val _, Val (JList _) | Val _, Val (JObj _) => false
  | Val _, Val _ => true
  | _, _ => false
  end.

Definition plan_ok (j : json) : bool :=
  is_obj j && (negb (success_of j) || field "plan" is_obj j).

Definition feature_ok (f : json) : bool :=
  match subscript f "id", get f "api" JNull, get f "ui" JNull with
  | Val (JStr _), Val (JStr _), Val (JStr _) => true
  | _, _, _ => false
  end.

(** The endpoints the script calls with a fixed path, and the shape expected
    of each reply. *)
Definition endpoints : list (string * string * (json -> bool)) := [
  ("POST", "/api/v1/auth/register", creation_ok);
  ("POST", "/api/v1/machines", creation_ok);
  ("GET", "/api/v1/shifts", field "shifts" (list_of shift_ok));
  ("GET", "/api/v1/machines", field "machines" (list_of listable));
  ("POST", "/api/v1/plans", plan_ok);
  ("POST", "/api/v1/production-logs", is_obj);
  ("POST", "/api/v1/downtime", is_obj);
  ("GET", "/api/v1/dashboard", field "dashboard" is_obj);
  ("GET", "/api/v1/reports/daily", field "report" sized);
  ("GET", "/api/v1/downtime", field "logs" sized);
  ("GET", "/api/v1/auth/users", field "users" sized);
  ("GET", "/api/v1/admin/features", field "features" (list_of feature_ok))
].

Fixpoint shape_for (table : list (string * string * (json -> bool)))
    (m p : string) : json -> bool :=
  match table with
  | [] => fun _ => true
  | (m', p', shape) :: rest =>
      if (String.eqb m m' && String.eqb p p')%bool then shape else shape_for rest m p
  end.

(** Any reply will do for a status patch: the script does not look at it. *)
Definition expected (req : request) (j : json) : bool :=
  match url req with
  | [Lit _; Lit path] => shape_for endpoints (method req) path j
  | _ => true
  end.

(** A reading of the clock from which two days and eight hours can be taken
    away. *)
Definition sane (t : datetime) : Prop :=
  3 <= ordinal t <= MAXORDINAL /\ 0 <= usec t < day_usec.

Definition after_clock (st : state E) : state E :=
  {| world := snd (clock E (world st)); sent := sent st; console := console st |}.

Definition health_request : request :=
  request_of "GET" [Lit "/api/health"] None JNull.

Definition login_request : request :=
  request_of "POST" [Lit "/api/v1/auth/login"]
    (Some (JObj [("username", JStr "admin"); ("password", JStr "admin123")])) JNull.

(** Whether a login reply carries a token that is true. *)
Definition token_in (login_resp : json) : bool :=
  match get login_resp "token" JNull with
  | Val token => truthy token
  | Exn _ => false
  end.

(** ** Scenarios: servers to run the script against *)

(** A server answers a request by the handler of its method and path; a
    handler sees how many requests came before and the request itself. *)
Definition handler : Type := nat -> request -> http_result.

Fixpoint handler_for (table : list (string * string * handler)) (m p : string)
  : option handler :=
  match table with
  | [] => None
  | (m', p', h) :: rest =>
      if (String.eqb m m' && String.eqb p p')%bool then Some h else handler_for rest m p
  end.

Definition served (table : list (string * string * handler)) (other : http_result)
  : handler :=
  fun n req =>
    match url req with
    | [Lit _; Lit path] =>
        match handler_for table (method req) path with
        | Some h => h n req
        | None => other
        end
    | _ => other
    end.

(** The world of a scenario counts the requests and the readings of the
    clock; requests without the Authorization header go to [public], the
    others to [private]. *)
Definition scenario (public private : handler) (readings : nat -> datetime) : environment :=
  {| World := nat * nat;
     urlopen req w :=
       (match authorization req with
        | None => public (fst w) req
        | Some _ => private (fst w) req
        end, (S (fst w), snd w));
     clock w := (readings (snd w), (fst w, S (snd w))) |}.

Definition always (r : http_result) : handler := fun _ _ => r.

Definition yes : json := JObj [("success", JBool true)].

(** A gateway that is healthy and logs the admin in. *)
Definition open_door : handler :=
  served [("GET", "/api/health",
           always (Replied (JObj [("success", JBool true); ("service", JStr "api-gateway")])));
          ("POST", "/api/v1/auth/login",
           always (Replied (JObj [("success", JBool true); ("token", JStr "secret")])))]
         (Replied yes).

(** A gateway that is healthy and rejects the credentials. *)
Definition closed_door : handler :=
  served [("GET", "/api/health",
           always (Replied (JObj [("success", JBool true); ("service", JStr "api-gateway")])));
          ("POST", "/api/v1/auth/login",
           always (HTTPError 401 (Some "Invalid credentials")))]
         (Replied yes).

(** Noon of 10 March 2024, at every reading. *)
Definition noon : nat -> datetime :=
  fun _ => {| ordinal := 738955; usec := 43200000000 |}.

(** The login is refused. *)
Definition refused : environment := scenario closed_door (always (Replied yes)) noon.

(** After the login every request fails with an HTTP error status. *)
Definition failing : environment :=
  scenario open_door (always (HTTPError 500 (Some "Internal Server Error"))) noon.



(** Every scenario starts with no request sent and no reading taken. *)
Definition boot : nat * nat := (0%nat, 0%nat).

(** A server that answers 503 to everything. *)
Definition down : environment :=
  scenario (always (HTTPError 503 (Some "Service Unavailable")))
           (always (HTTPError 503 (Some "Service Unavailable"))) noon.

(** Whether the gateway answers the health check and reports success. *)
Definition healthy (w : World E) : bool :=
  match reply (start w) health_request with
  | Val health => success_of health
  | Exn _ => false
  end.

(** The line printed for a machine that counts as created. *)
Definition created_line (m : machine) : line :=
  Ok_line [Lit ("Created: " +:+ machine_code m +:+ " (" +:+ machine_name m +:+ ")")].

(** The machine code a creation request carries. *)
Definition posted_code (req : request) : string :=
  match body req with
  | Some j =>
      match get j "machine_code" JNull with
      | Val (JStr code) => code
      | _ => ""
      end
  | None => ""
  end.

Definition already_there (m : machine) : bool :=
  (String.eqb (machine_code m) "CNC-001" || String.eqb (machine_code m) "INJ-001")%bool.

Definition listed (code : string) (id : Z) : json :=
  JObj [("machine_id", JInt id); ("machine_code", JStr code)].

(** The server behind the login: CNC-001 and INJ-001 exist already, the
    listing gives the machines the identifiers 11 to 18, and plan number [i]
    of the run (request 20 + [i]) gets the identifier 101 + [i]. *)
Definition factory_table : list (string * string * handler) := [
  ("POST", "/api/v1/machines",
   fun _ req =>
     if (String.eqb (posted_code req) "CNC-001" || String.eqb (posted_code req) "INJ-001")%bool
     then HTTPError 409 (Some "Machine code already exists")
     else Replied yes);
  ("GET", "/api/v1/shifts",
   always (Replied (JObj [("success", JBool true);
                          ("shifts", JList [JObj [("shift_id", JInt 1); ("shift_name", JStr "Morning")];
                                            JObj [("shift_id", JInt 2); ("shift_name", JStr "Afternoon")]])])));
  ("GET", "/api/v1/machines",
   always (Replied (JObj [("success", JBool true);
                          ("machines", JList [listed "CNC-001" 11; listed "CNC-002" 12;
                                              listed "INJ-001" 13; listed "INJ-002" 14;
                                              listed "PRESS-001" 15; listed "WELD-001" 16;
                                              listed "PACK-001" 17; listed "GRIND-001" 18])])));
  ("POST", "/api/v1/plans",
   fun n _ => Replied (JObj [("success", JBool true);
                             ("plan", JObj [("plan_id", JInt (Z.of_nat n + 81))])]))
].

Definition factory : environment :=
  scenario open_door (served factory_table (Replied yes)) noon.

(** Whether a printed line mentions a word, in its literal parts or in a
    string it shows. *)
Definition line_text (l : line) : text :=
  match l with
  | Ok_line msg | Fail_line msg | Header_line msg | Print_line msg => msg
  end.

Definition is_fail (l : line) : bool :=
  match l with Fail_line _ => true | _ => false end.

Definition piece_mentions (needle : string) (p : piece) : bool :=
  match p with
  | Lit s | Shown (JStr s) => contains needle s
  | _ => false
  end.

Definition mentions (needle : string) (l : line) : bool :=
  existsb (piece_mentions needle) (line_text l).

Definition patch_request (TOKEN pid : json) (new_status : string) : request :=
  request_of "PATCH" [Lit "/api/v1/plans/"; Shown pid]
    (Some (JObj [("status", JStr new_status)])) TOKEN.

(** The patches of one loop: one for each index whose identifier is true. *)
Definition patches_for (TOKEN : json) (plan_ids : gmap nat json) (new_status : string)
    (indices : list nat) : list request :=
  flat_map (fun i =>
              if truthy (plan_ids_get plan_ids i)
              then [patch_request TOKEN (plan_ids_get plan_ids i) new_status]
              else [])
           indices.

(** The status a plan entry is given, by the date and the shift it is
    written with: the plans of today's morning shift are set in progress,
    the plans of the past days completed, the plans of today's afternoon
    shift are left as created. *)
Definition status_for (e : plan_entry) : option string :=
  match entry_day e with
  | Today => if entry_shift e =? 1 then Some "IN_PROGRESS" else None
  | Yesterday | Two_days_ago => Some "COMPLETED"
  end.

(** The status by the date alone, as the specification reads the step. *)
Definition status_by_date (e : plan_entry) : string :=
  match entry_day e with
  | Today => "IN_PROGRESS"
  | Yesterday | Two_days_ago => "COMPLETED"
  end.

Definition patches_by (status : plan_entry -> option string) (TOKEN : json)
    (plan_ids : gmap nat json) : list request :=
  flat_map (fun ie =>
              match status (snd ie) with
              | Some new_status => patches_for TOKEN plan_ids new_status [fst ie]
              | None => []
              end)
           (enumerate plan_entries).

(** The identifier a status patch goes to with the status it sets, and the
    identifier a plan was created with. *)
Definition patched (req : request) : option (json * json) :=
  match url req, body req with
  | [Lit _; Lit "/api/v1/plans/"; Shown pid], Some (JObj [("status", new_status)]) =>
      if String.eqb (method req) "PATCH" then Some (pid, new_status) else None
  | _, _ => None
  end.

Definition plan_created (l : line) : option json :=
  match l with
  | Ok_line (Lit "Plan " :: Shown pid :: _) => Some pid
  | _ => None
  end.

(** The identifier the listing gives for a machine code: that of the last
    entry with the code. *)
Fixpoint resolve (listing : list json) (code : string) : option json :=
  match listing with
  | [] => None
  | m :: rest =>
      match resolve rest code with
      | Some id => Some id
      | None =>
          match subscript m "machine_code", subscript m "machine_id" with
          | Val (JStr c), Val id => if String.eqb c code then Some id else None
          | _, _ => None
          end
      end
  end.

(** The entries of the listing in an answer to the listing call. *)
Definition listed_machines (r : http_result) : res (list json) :=
  match answer r with
  | Exn e => Exn e
  | Val machines_resp =>
      match get machines_resp "machines" (JList []) with
      | Exn e => Exn e
      | Val listing => iter listing
      end
  end.

Definition listing_request (TOKEN : json) : request :=
  request_of "GET" [Lit "/api/v1/machines"] None TOKEN.

Definition log_request (TOKEN : json) (log : production_log) : request :=
  request_of "POST" [Lit "/api/v1/production-logs"] (Some (production_log_json log)) TOKEN.

Definition plan_request (TOKEN : json) (p : plan) : request :=
  request_of "POST" [Lit "/api/v1/plans"] (Some (plan_json p)) TOKEN.

(** A clock that passes midnight between the first reading and the second:
    2024-03-10 23:59:59.999999, then 2024-03-11 00:00:00.000001. *)
Definition around_midnight : nat -> datetime :=
  fun n =>
    match n with
    | O => {| ordinal := 738955; usec := 86399999999 |}
    | S _ => {| ordinal := 738956; usec := 1 |}
    end.

Definition midnight : environment :=
  scenario open_door (served factory_table (Replied yes)) around_midnight.

(** The date a plan is posted with. *)
Definition posted_date (req : request) : option json :=
  match url req, body req with
  | [Lit _; Lit "/api/v1/plans"], Some (JObj members) => members_get members "plan_date"
  | _, _ => None
  end.

(** A string of [n] digits. *)
Definition digits_only (n : nat) (s : string) : bool :=
  (Nat.eqb (String.length s) n && forallb is_digit (list_ascii_of_string s))%bool.

(** Month and day are in range for every day of a year. *)
Definition month_day_ok (md : Z * Z) : bool :=
  ((1 <=? fst md) && (fst md <=? 12) && (1 <=? snd md) && (snd md <=? 31))%bool.

(** ** The trace of requests

    The stage of the script a request belongs to, by its method and path:
    the number in the header the script prints before the stage. *)
Definition stage_table : list (string * string * nat) := [
  ("GET", "/api/health", 0%nat);
  ("POST", "/api/v1/auth/login", 1%nat);
  ("POST", "/api/v1/auth/register", 2%nat);
  ("POST", "/api/v1/machines", 3%nat);
  ("GET", "/api/v1/shifts", 4%nat);
  ("GET", "/api/v1/machines", 5%nat);
  ("POST", "/api/v1/plans", 5%nat);
  ("POST", "/api/v1/production-logs", 7%nat);
  ("POST", "/api/v1/downtime", 8%nat);
  ("GET", "/api/v1/dashboard", 9%nat);
  ("GET", "/api/v1/reports/daily", 10%nat);
  ("GET", "/api/v1/downtime", 10%nat);
  ("GET", "/api/v1/auth/users", 10%nat);
  ("GET", "/api/v1/admin/features", 11%nat)
].

Fixpoint stage_for (table : list (string * string * nat)) (m p : string) : nat :=
  match table with
  | [] => 12%nat
  | (m', p', k) :: rest =>
      if (String.eqb m m' && String.eqb p p')%bool then k else stage_for rest m p
  end.

(** A status patch belongs to stage 6; a request to none of the endpoints of
    the script gets the number 12. *)
Definition stage_of (req : request) : nat :=
  match url req with
  | [Lit _; Lit path] => stage_for stage_table (method req) path
  | [Lit _; Lit prefix; Shown _] =>
      if (String.eqb (method req) "PATCH" && String.eqb prefix "/api/v1/plans/")%bool
      then 6%nat else 12%nat
  | _ => 12%nat
  end.

(** The Authorization header made of a token. *)
Definition bearer (TOKEN : json) : option text := Some [Lit "Bearer "; Shown TOKEN].

(** A request as the script sends it: to [BASE], to one of its endpoints,
    without Authorization header up to the login and with the token
    afterwards, and with a JSON object as body unless it is a GET. *)
Definition request_ok (TOKEN : json) (req : request) : Prop :=
  (exists path, url req = Lit BASE :: path) /\
  (stage_of req <= 11)%nat /\
  authorization req = (if (stage_of req <=? 1)%nat then None else bearer TOKEN) /\
  (match body req with
   | None => method req = "GET"
   | Some d => is_obj d = true /\ (method req = "POST" \/ method req = "PATCH")
   end).

(** Numbers that never go down. *)
Fixpoint ascending (l : list nat) : Prop :=
  match l with
  | [] => True
  | x :: rest => Forall (le x) rest /\ ascending rest
  end.

(** A trace of at most [n] requests, all as they should be, in the order of
    the stages, none of a stage after [k]. *)
Definition trace_ok (TOKEN : json) (k n : nat) (l : list request) : Prop :=
  Forall (request_ok TOKEN) l /\
  ascending (map stage_of l) /\
  Forall (fun req => (stage_of req <= k)%nat) l /\
  (length l <= n)%nat.

(** [sys.exit] is called with 1 only. *)
Definition exit_ok {A} (o : outcome A) : Prop :=
  match o with
  | Exit code => code = 1
  | _ => True
  end.

(** However [m] ends, it takes a trace of the stages up to [lo] to a trace of
    the stages up to [hi], by adding at most [c] requests at its end. *)
Definition sends {A} (TOKEN : json) (lo hi c : nat) (m : M E A) : Prop :=
  forall st n,
    trace_ok TOKEN lo n (sent st) ->
    trace_ok TOKEN hi (n + c) (sent (snd (m st))) /\
    exit_ok (fst (m st)) /\
    exists more, sent (snd (m st)) = sent st ++ more.

(** ** The requests of a run that reaches the end *)

Definition fetch_request (TOKEN : json) (path : string) : request :=
  request_of "GET" [Lit path] None TOKEN.

Definition downtime_request (TOKEN : json) (dt : downtime_event) : request :=
  request_of "POST" [Lit "/api/v1/downtime"] (Some (downtime_event_json dt)) TOKEN.

(** Everything the script has to send, in the order of the source, given the
    token, the machine map, the dates, the plan identifiers and the downtime
    events it computed on the way. *)
Definition seeded (TOKEN : json) (machine_map : gmap string json)
    (dates : string * string * string) (plan_ids : gmap nat json)
    (events : list downtime_event) : list request :=
  [health_request; login_request]
  ++ map (user_request TOKEN) users
  ++ map (machine_request TOKEN) machines
  ++ [fetch_request TOKEN "/api/v1/shifts"; listing_request TOKEN]
  ++ map (plan_request TOKEN) (plans machine_map dates)
  ++ patches_for TOKEN plan_ids "IN_PROGRESS" (seq 0 7)
  ++ patches_for TOKEN plan_ids "COMPLETED" (seq 9 5)
  ++ map (log_request TOKEN) (production_logs plan_ids machine_map)
  ++ map (downtime_request TOKEN) events
  ++ map (fetch_request TOKEN)
       ["/api/v1/dashboard"; "/api/v1/reports/daily"; "/api/v1/downtime";
        "/api/v1/auth/users"; "/api/v1/admin/features"].

(** [m] sends nothing, however it ends. *)
Definition quiet {A} (m : M E A) : Prop :=
  forall st, sent (snd (m st)) = sent st.

(** When [m] returns, it has sent the requests [l], in this order. *)
Definition posts {A} (m : M E A) (l : list request) : Prop :=
  forall st a st', m st = (Ret a, st') -> sent st' = sent st ++ l.

(** [m] only adds lines to the console, however it ends. *)
Definition speaks {A} (m : M E A) : Prop :=
  forall st, extends st (snd (m st)).

(** The plan identifier a production log is posted with. *)
Definition logged (req : request) : option json :=
  match url req, body req with
  | [Lit _; Lit "/api/v1/production-logs"], Some (JObj (("plan_id", pid) :: _)) => Some pid
  | _, _ => None
  end.

(** The identifier was shown by an ok line of the plan step. *)
Definition reported (pid : json) (st : state E) : Prop :=
  In (Some pid) (map plan_created (console st)).

End Vocabulary.

(** * Reasoning about runs *)

Section Reasoning.

Context {E : environment}.

Lemma lift_eq {A} (r : res A) (st : state E) : lift r st = (outcome_of r, st).
Proof. destruct r; reflexivity. Qed.

Lemma send_eq (req : request) (st : state E) :
  send req st = (Ret (fst (urlopen E req (world st))), after_send st req).
Proof.
  unfold send, after_send. destruct (urlopen E req (world st)); reflexivity.
Qed.

Lemma api_eq method path data token (st : state E) :
  let req := request_of method path data token in
  api method path data token st = (outcome_of (reply st req), after_send st req).
Proof.
  cbv zeta. unfold api, bind. rewrite send_eq. apply lift_eq.
Qed.

Lemma returns_ret {A} (a : A) st (Q : A -> state E -> Prop) :
  Q a st -> returns (ret a) st Q.
Proof. intros HQ. exists a, st. split; [reflexivity | exact HQ]. Qed.

Lemma returns_bind {A B} (m : M E A) (k : A -> M E B) st (Q : B -> state E -> Prop) :
  returns m st (fun a st' => returns (k a) st' Q) -> returns (bind m k) st Q.
Proof.
  intros (a & st' & Hm & b & st'' & Hk & HQ).
  exists b, st''. split; [| exact HQ].
  unfold bind. rewrite Hm. exact Hk.
Qed.

Lemma returns_weaken {A} (m : M E A) st (P Q : A -> state E -> Prop) :
  returns m st P -> (forall a st', P a st' -> Q a st') -> returns m st Q.
Proof. intros (a & st' & Hm & HP) HPQ. exists a, st'. auto. Qed.

Lemma returns_lift {A} (r : res A) (a : A) st (Q : A -> state E -> Prop) :
  r = Val a -> Q a st -> returns (lift r) st Q.
Proof. intros -> HQ. exists a, st. split; [reflexivity | exact HQ]. Qed.

Lemma returns_emit (l : line) st (Q : unit -> state E -> Prop) :
  Q tt (after_line st l) -> returns (emit l) st Q.
Proof. intros HQ. exists tt, (after_line st l). split; [reflexivity | exact HQ]. Qed.

Lemma returns_api method path data token (j : json) st (Q : json -> state E -> Prop) :
  reply st (request_of method path data token) = Val j ->
  Q j (after_send st (request_of method path data token)) ->
  returns (api method path data token) st Q.
Proof.
  intros Hr HQ. eexists _, _. split; [| exact HQ].
  rewrite api_eq. cbv zeta. rewrite Hr. reflexivity.
Qed.

Lemma returns_now st (Q : datetime -> state E -> Prop) :
  Q (fst (clock E (world st)))
    {| world := snd (clock E (world st)); sent := sent st; console := console st |} ->
  returns now st Q.
Proof.
  intros HQ. eexists _, _. split; [| exact HQ].
  unfold now. destruct (clock E (world st)); reflexivity.
Qed.

(** A loop returns when every turn does, and keeps what every turn keeps. *)
Lemma returns_for_each {A} (items : list A) (body : A -> M E unit)
    (I : state E -> Prop) st :
  I st ->
  (forall x st, In x items -> I st -> returns (body x) st (fun _ st' => I st')) ->
  returns (for_each items body) st (fun _ st' => I st').
Proof.
  revert st. induction items as [| x rest IH]; intros st HI Hbody; simpl.
  - apply returns_ret. exact HI.
  - apply returns_bind.
    eapply returns_weaken; [apply (Hbody x st); [left; reflexivity | exact HI] |].
    intros u st' HI'. apply IH; [exact HI' |].
    intros y st'' Hy. apply Hbody. right. exact Hy.
Qed.

Lemma returns_for_fold {A V} (items : list A) (body : V -> A -> M E V)
    (I : V -> state E -> Prop) vars st :
  I vars st ->
  (forall v x st, In x items -> I v st -> returns (body v x) st I) ->
  returns (for_fold items vars body) st I.
Proof.
  revert vars st. induction items as [| x rest IH]; intros vars st HI Hbody; simpl.
  - apply returns_ret. exact HI.
  - apply returns_bind.
    eapply returns_weaken; [apply (Hbody vars x st); [left; reflexivity | exact HI] |].
    intros v' st' HI'. apply IH; [exact HI' |].
    intros v y st'' Hy. apply Hbody. right. exact Hy.
Qed.

Lemma extends_refl (st : state E) : extends st st.
Proof. exists []. symmetry. apply app_nil_r. Qed.

Lemma extends_trans (st1 st2 st3 : state E) :
  extends st1 st2 -> extends st2 st3 -> extends st1 st3.
Proof.
  intros [m1 H1] [m2 H2]. exists (m1 ++ m2). rewrite H2, H1. symmetry. apply app_assoc.
Qed.

Lemma extends_line (st : state E) l : extends st (after_line st l).
Proof. exists [l]. reflexivity. Qed.

Lemma extends_send (st : state E) req : extends st (after_send st req).
Proof. exists []. symmetry. apply app_nil_r. Qed.

(** Equations for running one step. *)
Lemma bind_emit {B} (l : line) (k : unit -> M E B) (st : state E) :
  bind (emit l) k st = k tt (after_line st l).
Proof. reflexivity. Qed.

Lemma bind_lift {A B} (r : res A) (k : A -> M E B) (st : state E) :
  bind (lift r) k st =
    match r with
    | Val a => k a st
    | Exn e => (Raise e, st)
    end.
Proof. destruct r; reflexivity. Qed.

Lemma bind_api {B} method path data token (k : json -> M E B) (st : state E) :
  bind (api method path data token) k st =
    match reply st (request_of method path data token) with
    | Val j => k j (after_send st (request_of method path data token))
    | Exn e => (Raise e, after_send st (request_of method path data token))
    end.
Proof.
  unfold bind at 1. rewrite api_eq. cbv zeta.
  destruct (reply st (request_of method path data token)); reflexivity.
Qed.

Lemma reply_after_line (st : state E) (l : line) (req : request) :
  reply (after_line st l) req = reply st req.
Proof. reflexivity. Qed.

(** ** Strings *)







(** ** Creating users and machines *)

Lemma user_accepted_text (resp : json) (err : string) :
  error_text resp = Some err ->
  user_accepted resp = Val (success_of resp || contains "already exists" err).
Proof.
  unfold error_text, user_accepted, success_of.
  destruct resp as [| | | | | members]; try discriminate. simpl.
  intros H. destruct (truthy _); [reflexivity |]. simpl.
  destruct (members_get members "error") as [[| | | s | |] |];
    try discriminate; injection H as <-; reflexivity.
Qed.

Lemma error_mentions_text (needle : string) (resp : json) (err : string) :
  error_text resp = Some err ->
  error_mentions needle resp = Val (contains needle (lower err)).
Proof.
  unfold error_text, error_mentions.
  destruct resp as [| | | | | members]; try discriminate. simpl.
  destruct (members_get members "error") as [[| | | s | |] |];
    try discriminate; intros H; injection H as <-; reflexivity.
Qed.

Lemma machine_accepted_text (resp : json) (err : string) :
  error_text resp = Some err ->
  machine_accepted resp =
    Val (success_of resp || contains "already exists" (lower err)
         || contains "duplicate" (lower err)).
Proof.
  intros H. unfold machine_accepted, success_of.
  rewrite !(error_mentions_text _ _ _ H).
  destruct resp as [| | | | | members]; try discriminate. simpl.
  destruct (truthy _); [reflexivity |]. simpl.
  destruct (contains "already exists" (lower err)); reflexivity.
Qed.

Lemma get_error_or (fallback resp : json) (err : string) :
  error_text resp = Some err -> get resp "error" fallback = Val (error_or fallback resp).
Proof.
  unfold error_text, error_or. destruct resp; try discriminate. reflexivity.
Qed.

Lemma create_user_eq TOKEN (u : user) (st : state E) (resp : json) (accepted : bool) :
  reply st (user_request TOKEN u) = Val resp ->
  user_accepted resp = Val accepted ->
  (accepted = false -> exists v, get resp "error" (JStr "unknown") = Val v) ->
  create_user TOKEN u st =
    (Ret tt, after_line (after_send st (user_request TOKEN u)) (user_line u resp accepted)).
Proof.
  intros Hr Ha Hget. unfold create_user, bind. rewrite api_eq. cbv zeta.
  fold (user_request TOKEN u). rewrite Hr. simpl. rewrite Ha. simpl.
  destruct accepted; [reflexivity |].
  destruct (Hget eq_refl) as [v Hv]. unfold user_line, error_or. rewrite Hv. reflexivity.
Qed.

Lemma create_machine_eq TOKEN (m : machine) (st : state E) (resp : json) (accepted : bool) :
  reply st (machine_request TOKEN m) = Val resp ->
  machine_accepted resp = Val accepted ->
  (accepted = false -> exists v, get resp "error" resp = Val v) ->
  create_machine TOKEN m st =
    (Ret tt, after_line (after_send st (machine_request TOKEN m)) (machine_line m resp accepted)).
Proof.
  intros Hr Ha Hget. unfold create_machine, bind. rewrite api_eq. cbv zeta.
  fold (machine_request TOKEN m). rewrite Hr. simpl. rewrite Ha. simpl.
  destruct accepted; [reflexivity |].
  destruct (Hget eq_refl) as [v Hv]. unfold machine_line, error_or. rewrite Hv. reflexivity.
Qed.

End Reasoning.

(** ** Steps of a run *)

Section Steps.

Context {E : environment}.

Lemma extends_after_line (st0 st : state E) l :
  extends st0 st -> extends st0 (after_line st l).
Proof. intros H. eapply extends_trans; [exact H | apply extends_line]. Qed.

Lemma extends_after_send (st0 st : state E) req :
  extends st0 st -> extends st0 (after_send st req).
Proof. intros H. eapply extends_trans; [exact H | apply extends_send]. Qed.

Lemma extends_after_clock (st0 st : state E) :
  extends st0 st -> extends st0 (after_clock st).
Proof. intros [more H]. exists more. exact H. Qed.

Lemma returns_clock (st : state E) (Q : datetime -> state E -> Prop) :
  Q (fst (clock E (world st))) (after_clock st) -> returns now st Q.
Proof. apply returns_now. Qed.

(** Sequencing when only the growth of the console is tracked. *)
Lemma returns_then {A B} (m : M E A) (k : A -> M E B) (st0 st : state E)
    (Q : B -> state E -> Prop) :
  returns m st (fun _ st' => extends st0 st') ->
  (forall a st', extends st0 st' -> returns (k a) st' Q) ->
  returns (bind m k) st Q.
Proof.
  intros Hm Hk. apply returns_bind. eapply returns_weaken; [exact Hm |].
  intros a st' Hext. apply Hk. exact Hext.
Qed.

(** Reading a member that is present with the expected shape, or absent. *)
Lemma field_get (k : string) (shape : json -> bool) (j fallback : json) :
  field k shape j = true ->
  exists v, get j k fallback = Val v /\ (shape v = true \/ v = fallback).
Proof.
  unfold field, get. destruct j as [| | | | | members]; try discriminate.
  destruct (members_get members k) as [v |]; intros H.
  - exists v. split; [reflexivity | left; exact H].
  - exists fallback. split; [reflexivity | right; reflexivity].
Qed.

Lemma obj_get (j : json) (k : string) (fallback : json) :
  is_obj j = true -> exists v, get j k fallback = Val v.
Proof. destruct j; try discriminate. intros _. eexists. reflexivity. Qed.

Lemma creation_ok_user (j : json) :
  creation_ok j = true -> exists b, user_accepted j = Val b.
Proof.
  unfold creation_ok, success_of, user_accepted, field.
  destruct j as [| | | | | members]; try discriminate. simpl.
  destruct (truthy _); [intros _; eexists; reflexivity |]. simpl.
  destruct (members_get members "error") as [[| | | s | |] |];
    try discriminate; intros _; eexists; reflexivity.
Qed.

Lemma creation_ok_machine (j : json) :
  creation_ok j = true -> exists b, machine_accepted j = Val b.
Proof.
  unfold creation_ok, success_of, machine_accepted, error_mentions, field.
  destruct j as [| | | | | members]; try discriminate. simpl.
  destruct (truthy _); [intros _; eexists; reflexivity |]. simpl.
  destruct (members_get members "error") as [[| | | s | |] |];
    try discriminate; intros _; simpl;
    try match goal with
        | |- context [contains "already exists" ?s] =>
            destruct (contains "already exists" s)
        end; eexists; reflexivity.
Qed.

Lemma creation_ok_obj (j : json) : creation_ok j = true -> is_obj j = true.
Proof. unfold creation_ok. destruct (is_obj j); [reflexivity | discriminate]. Qed.

End Steps.

(** Stepping through a computation that returns. *)
Ltac step :=
  lazymatch goal with
  | |- returns (bind _ _) _ _ => apply returns_bind
  | |- returns (ret _) _ _ => apply returns_ret
  | |- returns (emit _) _ _ => apply returns_emit
  | |- returns (ok _) _ _ => apply returns_emit
  | |- returns (fail _) _ _ => apply returns_emit
  | |- returns (header _) _ _ => apply returns_emit
  | |- returns (print _) _ _ => apply returns_emit
  | |- returns now _ _ => apply returns_clock
  end.

Ltac grown :=
  match goal with
  | H : extends ?a ?b |- extends ?a ?b => exact H
  | |- extends ?a ?a => apply extends_refl
  | |- extends _ (after_line _ _) => apply extends_after_line; grown
  | |- extends _ (after_send _ _) => apply extends_after_send; grown
  | |- extends _ (after_clock _) => apply extends_after_clock; grown
  end.

(** ** A server that answers as expected

    Every request that carries the token is answered, by a reply of the
    expected shape or by an HTTP error status; the clock is sane.  Then no
    stage after the login raises. *)

Section Conforming.

Context {E : environment}.
Variable TOKEN : json.
Hypothesis token_true : truthy TOKEN = true.
Hypothesis conforming :
  forall req w, authorization req <> None ->
    exists j, answer (fst (urlopen E req w)) = Val j /\ expected req j = true.
Hypothesis clock_sane : forall w, sane (fst (clock E w)).

Lemma reply_expected method path data (st : state E) :
  exists j,
    reply st (request_of method path data TOKEN) = Val j /\
    expected (request_of method path data TOKEN) j = true.
Proof.
  apply conforming. unfold request_of. simpl. rewrite token_true. discriminate.
Qed.

Ltac call j Hj :=
  apply returns_bind;
  lazymatch goal with
  | |- returns (api ?m ?p ?d TOKEN) ?st _ =>
      let Hr := fresh "Hr" in
      destruct (reply_expected m p d st) as (j & Hr & Hj);
      eapply returns_api; [exact Hr |]; clear Hr
  end.

Ltac read v Hv lem :=
  apply returns_bind;
  let H := fresh "H" in
  destruct lem as (v & H & Hv);
  eapply returns_lift; [exact H |]; clear H.

Lemma create_user_ok (u : user) (st0 st : state E) :
  extends st0 st ->
  returns (create_user TOKEN u) st (fun _ st' => extends st0 st').
Proof.
  intros Hext.
  destruct (reply_expected "POST" [Lit "/api/v1/auth/register"] (Some (user_json u)) st)
    as (j & Hr & Hj).
  change (creation_ok j = true) in Hj.
  destruct (creation_ok_user j Hj) as [b Hb].
  eexists tt, _. split.
  - apply (create_user_eq TOKEN u st j b Hr Hb).
    intros _. apply obj_get, creation_ok_obj, Hj.
  - grown.
Qed.

Lemma create_users_ok (st : state E) :
  returns (create_users TOKEN) st (fun _ st' => extends st st').
Proof.
  unfold create_users. step. step.
  apply (returns_for_each users (create_user TOKEN) (extends st)); [grown |].
  intros u st' _ Hext. apply create_user_ok, Hext.
Qed.

Lemma create_machine_ok (m : machine) (st0 st : state E) :
  extends st0 st ->
  returns (create_machine TOKEN m) st (fun _ st' => extends st0 st').
Proof.
  intros Hext.
  destruct (reply_expected "POST" [Lit "/api/v1/machines"] (Some (machine_json m)) st)
    as (j & Hr & Hj).
  change (creation_ok j = true) in Hj.
  destruct (creation_ok_machine j Hj) as [b Hb].
  eexists tt, _. split.
  - apply (create_machine_eq TOKEN m st j b Hr Hb).
    intros _. apply obj_get, creation_ok_obj, Hj.
  - grown.
Qed.

Lemma create_machines_ok (st : state E) :
  returns (create_machines TOKEN) st (fun _ st' => extends st st').
Proof.
  unfold create_machines. step. step.
  apply (returns_for_each machines (create_machine TOKEN) (extends st)); [grown |].
  intros m st' _ Hext. apply create_machine_ok, Hext.
Qed.

(** *** Shifts *)

Lemma shift_names (items : list json) :
  forallb shift_ok items = true ->
  exists names,
    map_res (fun s => subscript s "shift_name") items = Val names /\
    forallb is_text names = true.
Proof.
  induction items as [| s items IH]; simpl.
  - intros _. exists []. split; reflexivity.
  - intros H. apply andb_prop in H as [Hs Hrest].
    destruct (IH Hrest) as (names & Hnames & Htext).
    unfold shift_ok in Hs.
    destruct (subscript s "shift_name") as [[| | | name | |] |]; try discriminate.
    rewrite Hnames. exists (JStr name :: names). split; [reflexivity | exact Htext].
Qed.

Lemma join_text (sep : string) (names : list json) :
  forallb is_text names = true -> exists s, join sep names = Val s.
Proof.
  induction names as [| x names IH]; simpl.
  - intros _. eexists. reflexivity.
  - intros H. apply andb_prop in H as [Hx Hrest].
    destruct x; try discriminate.
    destruct (IH Hrest) as [t Ht]. rewrite Ht.
    destruct names; eexists; reflexivity.
Qed.

Lemma verify_shifts_ok (st : state E) :
  returns (verify_shifts TOKEN) st
    (fun _ st' => extends (after_line st (Header_line [Lit "4. VERIFY SHIFTS"])) st').
Proof.
  unfold verify_shifts. step. step.
  call j Hj. change (field "shifts" (list_of shift_ok) j = true) in Hj.
  read shifts Hshifts (field_get "shifts" _ j (JList []) Hj).
  assert (exists items, shifts = JList items /\ forallb shift_ok items = true)
    as (items & -> & Hitems).
  { destruct Hshifts as [H | ->].
    - destruct shifts; try discriminate. eexists. split; [reflexivity | exact H].
    - exists []. split; reflexivity. }
  step. eapply returns_lift; [reflexivity |].
  step. eapply returns_lift; [reflexivity |].
  read names Hnames (shift_names items Hitems).
  apply returns_bind. destruct (join_text ", " names Hnames) as [joined Hjoined].
  eapply returns_lift; [exact Hjoined |].
  step. grown.
Qed.

(** *** The machine map and the dates *)

Lemma machine_map_of_listable (items : list json) (machine_map : gmap string json) :
  forallb listable items = true ->
  exists machine_map', machine_map_of items machine_map = Val machine_map'.
Proof.
  revert machine_map. induction items as [| m items IH]; intros machine_map; simpl.
  - intros _. eexists. reflexivity.
  - intros H. apply andb_prop in H as [Hm Hrest].
    unfold listable in Hm. unfold machine_map_set.
    destruct (subscript m "machine_id") as [id |]; [| discriminate].
    destruct (subscript m "machine_code") as [[| | | code | |] |];
      try discriminate; apply IH, Hrest.
Qed.

Lemma read_machine_map_ok (st0 st : state E) :
  extends st0 st ->
  returns (read_machine_map TOKEN) st (fun _ st' => extends st0 st').
Proof.
  intros Hext. unfold read_machine_map.
  call j Hj. change (field "machines" (list_of listable) j = true) in Hj.
  read listing Hlisting (field_get "machines" _ j (JList []) Hj).
  assert (exists items, listing = JList items /\ forallb listable items = true)
    as (items & -> & Hitems).
  { destruct Hlisting as [H | ->].
    - destruct listing; try discriminate. eexists. split; [reflexivity | exact H].
    - exists []. split; reflexivity. }
  step. eapply returns_lift; [reflexivity |].
  destruct (machine_map_of_listable items ∅ Hitems) as [machine_map Hmap].
  eapply returns_lift; [exact Hmap |]. grown.
Qed.

Lemma minus_days (t : datetime) (days : Z) :
  sane t -> 0 <= days <= 2 -> exists t', minus t days 0 0 = Val t'.
Proof.
  unfold sane, minus, day_usec, MAXORDINAL. intros [Ho Hu] Hd.
  replace (usec t - (0 * 3600 + 0 * 60) * 1000000) with (usec t) by lia.
  rewrite (Z.div_small (usec t) 86400000000) by lia.
  replace ((0 <? ordinal t - days + 0) && (ordinal t - days + 0 <=? 3652059))%bool
    with true; [eexists; reflexivity |].
  symmetry. apply andb_true_intro. split; [apply Z.ltb_lt | apply Z.leb_le]; lia.
Qed.

Lemma minus_hours (t : datetime) (hours minutes : Z) :
  sane t -> 0 <= hours * 3600 + minutes * 60 <= 86400 ->
  exists t', minus t 0 hours minutes = Val t'.
Proof.
  unfold sane, minus, day_usec, MAXORDINAL. intros [Ho Hu] Hd.
  set (total := usec t - (hours * 3600 + minutes * 60) * 1000000).
  assert (-1 <= total / 86400000000 <= 0) as Hq.
  { split.
    - apply Z.div_le_lower_bound; lia.
    - apply Z.lt_succ_r, Z.div_lt_upper_bound; lia. }
  replace ((0 <? ordinal t - 0 + total / 86400000000)
           && (ordinal t - 0 + total / 86400000000 <=? 3652059))%bool
    with true; [eexists; reflexivity |].
  symmetry. apply andb_true_intro. split; [apply Z.ltb_lt | apply Z.leb_le]; lia.
Qed.

Lemma read_dates_ok (st0 st : state E) :
  extends st0 st ->
  returns read_dates st (fun _ st' => extends st0 st').
Proof.
  intros Hext. unfold read_dates.
  step. step. cbv zeta.
  step. step.
  apply returns_bind.
  destruct (minus_days (fst (clock E (world (after_clock st)))) 1
              (clock_sane _) ltac:(lia)) as [d1 Hd1].
  eapply returns_lift; [exact Hd1 |].
  step. step.
  apply returns_bind.
  destruct (minus_days (fst (clock E (world (after_clock (after_clock st))))) 2
              (clock_sane _) ltac:(lia)) as [d2 Hd2].
  eapply returns_lift; [exact Hd2 |].
  step. grown.
Qed.

(** *** Plans, statuses and production logs *)

Lemma create_plan_ok (plan_ids : gmap nat json) (ip : nat * plan) (st0 st : state E) :
  extends st0 st ->
  returns (create_plan TOKEN plan_ids ip) st (fun _ st' => extends st0 st').
Proof.
  intros Hext. destruct ip as [i p]. unfold create_plan.
  call j Hj. change (plan_ok j = true) in Hj.
  unfold plan_ok in Hj. apply andb_prop in Hj as [Hobj Hplan].
  apply returns_bind. destruct (obj_get j "success" JNull Hobj) as [success Hsuccess].
  eapply returns_lift; [exact Hsuccess |].
  unfold success_of in Hplan. rewrite Hsuccess in Hplan.
  destruct (truthy success); simpl in Hplan.
  - read plan_obj Hplan_obj (field_get "plan" _ j (JObj []) Hplan).
    assert (is_obj plan_obj = true) as Hplan_is by (destruct Hplan_obj as [H | ->]; auto).
    apply returns_bind.
    destruct (obj_get plan_obj "plan_id" (JInt (Z.of_nat i + 1)) Hplan_is) as [plan_id Hid].
    eapply returns_lift; [exact Hid |].
    step. step. step. grown.
  - apply returns_bind. destruct (obj_get j "error" j Hobj) as [error Herror].
    eapply returns_lift; [exact Herror |].
    step. step. step. grown.
Qed.

Lemma create_plans_ok (plans : list plan) (st0 st : state E) :
  extends st0 st ->
  returns (create_plans TOKEN plans) st (fun _ st' => extends st0 st').
Proof.
  intros Hext. unfold create_plans.
  apply (returns_for_fold _ _ (fun _ st' => extends st0 st')); [exact Hext |].
  intros plan_ids ip st' _ Hext'. apply create_plan_ok, Hext'.
Qed.

Lemma patch_plan_ok (plan_ids : gmap nat json) (new_status : string) (i : nat)
    (st0 st : state E) :
  extends st0 st ->
  returns (patch_plan TOKEN plan_ids new_status i) st (fun _ st' => extends st0 st').
Proof.
  intros Hext. unfold patch_plan. cbv zeta.
  destruct (truthy (plan_ids_get plan_ids i)).
  - call j Hj. step. grown.
  - step. grown.
Qed.

Lemma set_plan_statuses_ok (plan_ids : gmap nat json) (st0 st : state E) :
  extends st0 st ->
  returns (set_plan_statuses TOKEN plan_ids) st (fun _ st' => extends st0 st').
Proof.
  intros Hext. unfold set_plan_statuses. step. step.
  eapply (returns_then _ _ st0).
  { apply (returns_for_each _ _ (extends st0)); [grown |].
    intros i st' _ Hext'. apply patch_plan_ok, Hext'. }
  intros _ st1 Hext1. step. step.
  eapply (returns_then _ _ st0).
  { apply (returns_for_each _ _ (extends st0)); [grown |].
    intros i st' _ Hext'. apply patch_plan_ok, Hext'. }
  intros _ st2 Hext2. step. grown.
Qed.

Lemma post_log_ok (counts : Z * Z) (log : production_log) (st0 st : state E) :
  extends st0 st ->
  returns (post_log TOKEN counts log) st (fun _ st' => extends st0 st').
Proof.
  intros Hext. destruct counts as [success_count fail_count]. unfold post_log.
  call j Hj. change (is_obj j = true) in Hj.
  apply returns_bind. destruct (obj_get j "success" JNull Hj) as [success Hsuccess].
  eapply returns_lift; [exact Hsuccess |].
  destruct (truthy success); step; grown.
Qed.

Lemma log_production_ok (logs : list production_log) (st0 st : state E) :
  extends st0 st ->
  returns (log_production TOKEN logs) st (fun _ st' => extends st0 st').
Proof.
  intros Hext. unfold log_production, post_logs. step. step.
  eapply (returns_then _ _ st0).
  { apply (returns_for_fold _ _ (fun _ st' => extends st0 st')); [grown |].
    intros counts log st' _ Hext'. apply post_log_ok, Hext'. }
  intros counts st1 Hext1. step. grown.
Qed.

(** *** Downtime events and the closing reports *)

Lemma read_downtime_events_ok (machine_map : gmap string json) (st0 st : state E) :
  extends st0 st ->
  returns (read_downtime_events machine_map) st (fun _ st' => extends st0 st').
Proof.
  intros Hext. unfold read_downtime_events. step. step.
  pose proof (clock_sane (world st)) as Hsane.
  set (t := fst (clock E (world st))) in *.
  do 7 (apply returns_bind;
        lazymatch goal with
        | |- returns (lift (minus t 0 ?h ?m)) _ _ =>
            let t' := fresh "t" in
            let Ht := fresh "Ht" in
            destruct (minus_hours t h m Hsane ltac:(lia)) as [t' Ht];
            eapply returns_lift; [exact Ht |]
        end).
  step. grown.
Qed.

Lemma post_downtime_ok (dt : downtime_event) (st0 st : state E) :
  extends st0 st ->
  returns (post_downtime TOKEN dt) st (fun _ st' => extends st0 st').
Proof.
  intros Hext. unfold post_downtime.
  call j Hj. change (is_obj j = true) in Hj.
  apply returns_bind. destruct (obj_get j "success" JNull Hj) as [success Hsuccess].
  eapply returns_lift; [exact Hsuccess |].
  destruct (truthy success).
  - step. grown.
  - apply returns_bind. destruct (obj_get j "error" j Hj) as [error Herror].
    eapply returns_lift; [exact Herror |].
    step. grown.
Qed.

Lemma log_downtime_ok (machine_map : gmap string json) (st0 st : state E) :
  extends st0 st ->
  returns (log_downtime TOKEN machine_map) st (fun _ st' => extends st0 st').
Proof.
  intros Hext. unfold log_downtime. step. step.
  eapply (returns_then _ _ st0).
  { apply read_downtime_events_ok. grown. }
  intros downtime_events st1 Hext1.
  apply (returns_for_each _ _ (extends st0)); [exact Hext1 |].
  intros dt st' _ Hext'. apply post_downtime_ok, Hext'.
Qed.

Lemma dashboard_row_ok (d : json) (row : string * string * string) (st0 st : state E) :
  is_obj d = true ->
  extends st0 st ->
  returns (dashboard_row d row) st (fun _ st' => extends st0 st').
Proof.
  intros Hd Hext. destruct row as [[label key] suffix]. unfold dashboard_row.
  apply returns_bind. destruct (obj_get d key (JStr "N/A") Hd) as [v Hv].
  eapply returns_lift; [exact Hv |].
  step. grown.
Qed.

Lemma verify_dashboard_ok (st0 st : state E) :
  extends st0 st ->
  returns (verify_dashboard TOKEN) st (fun _ st' => extends st0 st').
Proof.
  intros Hext. unfold verify_dashboard. step. step.
  call dash Hdash. change (field "dashboard" is_obj dash = true) in Hdash.
  read d Hd (field_get "dashboard" _ dash (JObj []) Hdash).
  assert (is_obj d = true) as Hobj by (destruct Hd as [H | ->]; auto).
  step. step.
  eapply (returns_then _ _ st0).
  { apply (returns_for_each _ _ (extends st0)); [grown |].
    intros row st' _ Hext'. apply dashboard_row_ok; assumption. }
  intros _ st1 Hext1. step. grown.
Qed.

Lemma sized_len (v : json) : sized v = true -> exists n, len v = Val n.
Proof. destruct v; try discriminate; intros _; eexists; reflexivity. Qed.

Lemma count_entries_ok (resp : json) (key label suffix : string) (st0 st : state E) :
  field key sized resp = true ->
  extends st0 st ->
  returns (count_entries resp key label suffix) st (fun _ st' => extends st0 st').
Proof.
  intros Hresp Hext. unfold count_entries.
  read entries Hentries (field_get key _ resp (JList []) Hresp).
  assert (sized entries = true) as Hsized by (destruct Hentries as [H | ->]; auto).
  apply returns_bind. destruct (sized_len entries Hsized) as [n Hn].
  eapply returns_lift; [exact Hn |].
  step. grown.
Qed.

Lemma field_obj (k : string) (shape : json -> bool) (j : json) :
  field k shape j = true -> is_obj j = true.
Proof. destruct j; try discriminate. reflexivity. Qed.

Lemma verify_reports_ok (st0 st : state E) :
  extends st0 st ->
  returns (verify_reports TOKEN) st (fun _ st' => extends st0 st').
Proof.
  intros Hext. unfold verify_reports. step. step.
  call reports_daily Hreports. change (field "report" sized reports_daily = true) in Hreports.
  pose proof (field_obj _ _ _ Hreports) as Hobj.
  apply returns_bind. destruct (obj_get reports_daily "success" JNull Hobj) as [success Hsuccess].
  eapply returns_lift; [exact Hsuccess |].
  eapply (returns_then _ _ st0).
  { destruct (truthy success).
    - step. grown.
    - destruct (obj_get reports_daily "report" JNull Hobj) as [report Hreport].
      eapply returns_lift; [exact Hreport |]. grown. }
  intros report st1 Hext1.
  eapply (returns_then _ _ st0).
  { destruct (truthy report).
    - apply count_entries_ok; assumption.
    - apply returns_bind.
      destruct (obj_get reports_daily "error" (JStr "N/A") Hobj) as [error Herror].
      eapply returns_lift; [exact Herror |].
      step. grown. }
  intros _ st2 Hext2.
  call downtime_resp Hdowntime. change (field "logs" sized downtime_resp = true) in Hdowntime.
  eapply (returns_then _ _ st0).
  { apply count_entries_ok; [assumption | grown]. }
  intros _ st3 Hext3.
  call users_resp Husers. change (field "users" sized users_resp = true) in Husers.
  apply count_entries_ok; [assumption | grown].
Qed.

Lemma feature_row_ok (f : json) (st0 st : state E) :
  feature_ok f = true ->
  extends st0 st ->
  returns (feature_row f) st (fun _ st' => extends st0 st').
Proof.
  intros Hf Hext. unfold feature_ok in Hf. unfold feature_row.
  destruct (subscript f "id") as [[| | | id | |] |]; try discriminate.
  destruct (get f "api" JNull) as [[| | | api_v | |] |] eqn:Hapi; try discriminate.
  destruct (get f "ui" JNull) as [[| | | ui_v | |] |] eqn:Hui; try discriminate.
  assert (is_obj f = true) as Hobj by (destruct f; try discriminate; reflexivity).
  destruct (obj_get f "label" (JStr "") Hobj) as [label Hlabel]. rewrite Hlabel.
  repeat (step; [eapply returns_lift; [reflexivity |]]).
  step. grown.
Qed.

Lemma feature_flags_ok (st0 st : state E) :
  extends st0 st ->
  returns (feature_flags TOKEN) st (fun _ st' => extends st0 st').
Proof.
  intros Hext. unfold feature_flags. step. step.
  call features_resp Hresp.
  change (field "features" (list_of feature_ok) features_resp = true) in Hresp.
  read features Hfeatures (field_get "features" _ features_resp (JList []) Hresp).
  assert (exists items, features = JList items /\ forallb feature_ok items = true)
    as (items & -> & Hitems).
  { destruct Hfeatures as [H | ->].
    - destruct features; try discriminate. eexists. split; [reflexivity | exact H].
    - exists []. split; reflexivity. }
  step. eapply returns_lift; [reflexivity |].
  apply (returns_for_each _ _ (extends st0)); [grown |].
  intros f st' Hin Hext'. apply feature_row_ok; [| exact Hext'].
  rewrite forallb_forall in Hitems. apply Hitems, Hin.
Qed.

Lemma farewell_ok (st0 st : state E) :
  extends st0 st ->
  returns farewell st (fun _ st' => extends st0 st').
Proof. intros Hext. unfold farewell. repeat step. grown. Qed.

(** *** Everything after the machines *)

Lemma rest_ok (st : state E) :
  returns
    (verify_shifts TOKEN ;;
     header [Lit "5. CREATE PRODUCTION PLANS"] ;;
     machine_map <- read_machine_map TOKEN ;;
     dates <- read_dates ;;
     plan_ids <- create_plans TOKEN (plans machine_map dates) ;;
     set_plan_statuses TOKEN plan_ids ;;
     log_production TOKEN (production_logs plan_ids machine_map) ;;
     log_downtime TOKEN machine_map ;;
     verify_dashboard TOKEN ;;
     verify_reports TOKEN ;;
     feature_flags TOKEN ;;
     farewell)
    st
    (fun _ st' => extends (after_line st (Header_line [Lit "4. VERIFY SHIFTS"])) st').
Proof.
  set (st0 := after_line st (Header_line [Lit "4. VERIFY SHIFTS"])).
  eapply (returns_then _ _ st0); [apply verify_shifts_ok |].
  intros _ st1 H1. step. step.
  eapply (returns_then _ _ st0); [apply read_machine_map_ok; grown |].
  intros machine_map st2 H2.
  eapply (returns_then _ _ st0); [apply read_dates_ok; grown |].
  intros dates st3 H3.
  eapply (returns_then _ _ st0); [apply create_plans_ok; grown |].
  intros plan_ids st4 H4.
  eapply (returns_then _ _ st0); [apply set_plan_statuses_ok; grown |].
  intros _ st5 H5.
  eapply (returns_then _ _ st0); [apply log_production_ok; grown |].
  intros _ st6 H6.
  eapply (returns_then _ _ st0); [apply log_downtime_ok; grown |].
  intros _ st7 H7.
  eapply (returns_then _ _ st0); [apply verify_dashboard_ok; grown |].
  intros _ st8 H8.
  eapply (returns_then _ _ st0); [apply verify_reports_ok; grown |].
  intros _ st9 H9.
  eapply (returns_then _ _ st0); [apply feature_flags_ok; grown |].
  intros _ st10 H10.
  apply farewell_ok. grown.
Qed.

(** Stages 2 to 11 return. *)
Lemma seed_ok (st : state E) :
  returns
    (create_users TOKEN ;;
     create_machines TOKEN ;;
     verify_shifts TOKEN ;;
     header [Lit "5. CREATE PRODUCTION PLANS"] ;;
     machine_map <- read_machine_map TOKEN ;;
     dates <- read_dates ;;
     plan_ids <- create_plans TOKEN (plans machine_map dates) ;;
     set_plan_statuses TOKEN plan_ids ;;
     log_production TOKEN (production_logs plan_ids machine_map) ;;
     log_downtime TOKEN machine_map ;;
     verify_dashboard TOKEN ;;
     verify_reports TOKEN ;;
     feature_flags TOKEN ;;
     farewell)
    st
    (fun _ st' => extends st st').
Proof.
  eapply (returns_then _ _ st); [apply create_users_ok |].
  intros _ st1 H1.
  eapply (returns_then _ _ st); [eapply returns_weaken; [apply create_machines_ok |] |].
  { intros u st2 H2. eapply extends_trans; eassumption. }
  intros _ st2 H2.
  eapply returns_weaken; [apply rest_ok |].
  intros u st3 H3. eapply extends_trans; [| exact H3]. grown.
Qed.

End Conforming.

(** ** The two fatal preconditions *)

Section Preconditions.

Context {E : environment}.

(** The health check hands exactly one request to [urlopen], however it
    ends. *)
Lemma health_check_sent (st : state E) :
  sent (snd (health_check st)) = sent st ++ [health_request].
Proof.
  unfold health_check, header, ok, fail. rewrite bind_emit.
  unfold try_except. rewrite bind_api. fold health_request.
  rewrite reply_after_line.
  destruct (reply st health_request) as [health | e]; [| reflexivity].
  rewrite bind_lift.
  destruct (get health "success" JNull) as [success | e]; [| reflexivity].
  destruct (truthy success); [| reflexivity].
  rewrite bind_lift.
  destruct (get health "service" (JStr "unknown")); reflexivity.
Qed.

Lemma get_true_subscript (j : json) (k : string) (v : json) :
  get j k JNull = Val v -> truthy v = true -> subscript j k = Val v.
Proof.
  unfold get, subscript. destruct j as [| | | | | members]; try discriminate.
  destruct (members_get members k) as [v' |]; simpl; intros [= <-]; [reflexivity |].
  discriminate.
Qed.

(** The login, case by case. *)
Lemma login_eq (st : state E) :
  let st1 := after_send (after_line st (Header_line [Lit "1. LOGIN AS ADMIN"])) login_request in
  login st =
    match reply st login_request with
    | Exn e => (Raise e, st1)
    | Val login_resp =>
        match get login_resp "token" JNull with
        | Exn e => (Raise e, st1)
        | Val token =>
            if truthy token then
              match len token with
              | Val n =>
                  (Ret token,
                   after_line st1
                     (Ok_line [Lit "Logged in as admin (token: "; Shown (JInt n); Lit " chars)"]))
              | Exn e => (Raise e, st1)
              end
            else
              (Exit 1, after_line st1 (Fail_line [Lit "Login failed: "; Shown login_resp]))
        end
    end.
Proof.
  cbv zeta. unfold login, header, ok, fail. rewrite bind_emit, bind_api.
  fold login_request. rewrite reply_after_line.
  destruct (reply st login_request) as [login_resp | e]; [| reflexivity].
  rewrite bind_lift.
  destruct (get login_resp "token" JNull) as [token | e] eqn:Htoken; [| reflexivity].
  destruct (truthy token) eqn:Htrue; cbn [negb].
  - rewrite bind_lift, (get_true_subscript _ _ _ Htoken Htrue), bind_lift.
    destruct (len token); reflexivity.
  - reflexivity.
Qed.

Lemma login_sent (st : state E) : sent (snd (login st)) = sent st ++ [login_request].
Proof.
  rewrite login_eq. cbv zeta.
  destruct (reply st login_request) as [login_resp | e]; [| reflexivity].
  destruct (get login_resp "token" JNull) as [token | e]; [| reflexivity].
  destruct (truthy token); [| reflexivity].
  destruct (len token); reflexivity.
Qed.

(** A login that returns, returns a token that is true. *)
Lemma login_token (st st' : state E) (TOKEN : json) :
  login st = (Ret TOKEN, st') -> truthy TOKEN = true.
Proof.
  rewrite login_eq. cbv zeta.
  destruct (reply st login_request) as [login_resp | e]; [| discriminate].
  destruct (get login_resp "token" JNull) as [token | e]; [| discriminate].
  destruct (truthy token) eqn:Htrue; [| discriminate].
  destruct (len token); [| discriminate].
  intros [= <- _]. exact Htrue.
Qed.

End Preconditions.

(** * Properties of the specification *)

(** C3. If the login response carries no token, the process ends with exit
    status 1 and the health check and the login are the only requests of the
    run: no user or machine is ever posted.  When the response is an object
    the end is the script's own [sys.exit(1)]. *)
Theorem no_token_stops_the_run {E : environment} (w : World E) (st1 : state E)
    (login_resp : json) :
  health_check (start w) = (Ret tt, st1) ->
  reply st1 login_request = Val login_resp ->
  token_in login_resp = false ->
  exit_status (fst (run (start w))) = 1 /\
  sent (snd (run (start w))) = [health_request; login_request] /\
  (is_obj login_resp = true -> fst (run (start w)) = Exit 1).
Proof.
  intros Hhealth Hreply Htoken.
  pose proof (health_check_sent (start w)) as Hsent. rewrite Hhealth in Hsent. simpl in Hsent.
  remember (run (start w)) as r eqn:Hr.
  unfold run in Hr. unfold bind at 1 in Hr. rewrite Hhealth in Hr.
  unfold bind at 1 in Hr. rewrite login_eq in Hr. cbv zeta in Hr. rewrite Hreply in Hr.
  unfold token_in in Htoken.
  destruct (get login_resp "token" JNull) as [token | e] eqn:Hget.
  - rewrite Htoken in Hr. subst r. simpl. rewrite Hsent. repeat split.
  - subst r. simpl. rewrite Hsent. repeat split.
    intros Hobj. destruct login_resp; discriminate.
Qed.

(** C3, on a gateway that rejects the credentials. *)
Lemma no_token_stops_the_run_witness :
  exit_status (fst (@run refused (@start refused boot))) = 1 /\
  sent (snd (@run refused (@start refused boot))) = [health_request; login_request] /\
  (is_obj (JObj [("success", JBool false); ("error", JStr "HTTP 401: Invalid credentials")]) = true ->
   fst (@run refused (@start refused boot)) = Exit 1).
Proof.
  apply (@no_token_stops_the_run refused boot
           (snd (@health_check refused (@start refused boot)))).
  - vm_compute. reflexivity.
  - vm_compute. reflexivity.
  - vm_compute. reflexivity.
Defined.



(** C2, as the code has it.  For a reply that is an object whose error
    message is a string or is absent: a user is counted as created exactly
    when the reply reports success or its error contains "already exists" as
    written; a machine exactly when the reply reports success or its error,
    in lower case, contains "already exists" or "duplicate".  Otherwise the
    item gets a failure line.  Either way the turn returns, so the loop goes
    on to the next item. *)
Theorem creation_counted_by_reply {E : environment} (TOKEN : json) (st : state E)
    (resp : json) (err : string) :
  error_text resp = Some err ->
  (forall u,
      reply st (user_request TOKEN u) = Val resp ->
      create_user TOKEN u st =
        (Ret tt,
         after_line (after_send st (user_request TOKEN u))
           (if success_of resp || contains "already exists" err
            then Ok_line [Lit ("Created " +:+ lower (role u) +:+ ": " +:+ full_name u)]
            else Fail_line [Lit (full_name u +:+ ": ");
                            Shown (error_or (JStr "unknown") resp)]))) /\
  (forall m,
      reply st (machine_request TOKEN m) = Val resp ->
      create_machine TOKEN m st =
        (Ret tt,
         after_line (after_send st (machine_request TOKEN m))
           (if success_of resp || contains "already exists" (lower err)
               || contains "duplicate" (lower err)
            then Ok_line [Lit ("Created: " +:+ machine_code m +:+ " ("
                               +:+ machine_name m +:+ ")")]
            else Fail_line [Lit (machine_code m +:+ ": ");
                            Shown (error_or resp resp)]))).
Proof.
  intros Htext. split.
  - intros u Hreply.
    apply (create_user_eq TOKEN u st resp _ Hreply (user_accepted_text _ _ Htext)).
    intros _. eexists. apply (get_error_or _ _ _ Htext).
  - intros m Hreply.
    apply (create_machine_eq TOKEN m st resp _ Hreply (machine_accepted_text _ _ Htext)).
    intros _. eexists. apply (get_error_or _ _ _ Htext).
Qed.

(** C2 on the server that is down: the first user gets a failure line and
    the turn returns. *)
Lemma creation_counted_by_reply_witness :
  @create_user down (JStr "secret")
     {| username := "rajesh.kumar"; password := "Pass@123";
        full_name := "Rajesh Kumar"; role := "SUPERVISOR" |}
     (@start down boot)
  = (Ret tt,
     after_line
       (after_send (@start down boot)
          (user_request (JStr "secret")
             {| username := "rajesh.kumar"; password := "Pass@123";
                full_name := "Rajesh Kumar"; role := "SUPERVISOR" |}))
       (Fail_line [Lit "Rajesh Kumar: "; Shown (JStr "HTTP 503: Service Unavailable")])).
Proof.
  exact (proj1 (@creation_counted_by_reply down (JStr "secret") (@start down boot)
                  (JObj [("success", JBool false);
                         ("error", JStr "HTTP 503: Service Unavailable")])
                  "HTTP 503: Service Unavailable" eq_refl)
           {| username := "rajesh.kumar"; password := "Pass@123";
              full_name := "Rajesh Kumar"; role := "SUPERVISOR" |}
           eq_refl).
Defined.

(** C2 as stated fails.  One and the same failed reply is counted as success
    for a machine and as failure for a user, so no single notion of an
    "already exists" style message fits both loops; and a failed reply whose
    error is not a string is not logged at all: the test raises. *)
Lemma creation_checks_differ :
  let conflict := JObj [("success", JBool false);
                        ("error", JStr "HTTP 409: Duplicate entry")] in
  let shouted := JObj [("success", JBool false);
                       ("error", JStr "User Already Exists")] in
  let bare := JObj [("success", JBool false); ("error", JNull)] in
  (user_accepted conflict = Val false /\ machine_accepted conflict = Val true) /\
  (user_accepted shouted = Val false /\ machine_accepted shouted = Val true) /\
  (user_accepted bare = Exn TypeError /\ machine_accepted bare = Exn AttributeError).
Proof. cbv zeta. repeat split; vm_compute; reflexivity. Qed.

(** ** Runs that reach the end *)

Section Completion.

Context {E : environment}.

(** An unreachable or unhealthy gateway ends the run with [sys.exit(1)]. *)
Lemma health_check_fatal (w : World E) :
  healthy w = false ->
  exists st, health_check (start w) = (Exit 1, st) /\ sent st = [health_request].
Proof.
  unfold healthy, success_of, health_check, header, ok, fail.
  rewrite bind_emit. unfold try_except. rewrite bind_api. fold health_request.
  rewrite reply_after_line.
  destruct (reply (start w) health_request) as [health | e].
  - rewrite bind_lift.
    destruct (get health "success" JNull) as [success | e].
    + intros ->. eexists. split; reflexivity.
    + intros _. eexists. split; reflexivity.
  - intros _. eexists. split; reflexivity.
Qed.

(** A run that passes the health check and the login reaches the end when
    every request that carries the token is answered as expected and the
    clock is sane. *)
Lemma run_completes (w : World E) (st1 st2 : state E) (TOKEN : json) :
  health_check (start w) = (Ret tt, st1) ->
  login st1 = (Ret TOKEN, st2) ->
  (forall req w', authorization req <> None ->
     exists j, answer (fst (urlopen E req w')) = Val j /\ expected req j = true) ->
  (forall w', sane (fst (clock E w'))) ->
  exists st', run (start w) = (Ret tt, st') /\ extends st2 st'.
Proof.
  intros Hhealth Hlogin Hserver Hclock.
  destruct (seed_ok TOKEN (login_token _ _ _ Hlogin) Hserver Hclock st2)
    as ([] & st' & Hseed & Hext).
  exists st'. split; [| exact Hext].
  unfold run. unfold bind at 1. rewrite Hhealth.
  unfold bind at 1. rewrite Hlogin. exact Hseed.
Qed.


End Completion.


Lemma noon_sane (n : nat) : sane (noon n).
Proof. unfold sane, noon, MAXORDINAL, day_usec. simpl. lia. Qed.



(** What the run prints when every request behind the login fails with
    status 500: a failure line for each user, machine, plan and downtime
    event and for the daily report (35 in all), the 28 production logs
    counted as failed, no status patch sent (no plan was created), and for
    the shift listing an ok line with no shift. *)
Lemma failing_run_report :
  length (List.filter is_fail (console (snd (@run failing (@start failing boot))))) = 35%nat /\
  length (sent (snd (@run failing (@start failing boot)))) = 71%nat /\
  omap patched (sent (snd (@run failing (@start failing boot)))) = [] /\
  List.filter (mentions "Production logs")
    (console (snd (@run failing (@start failing boot))))
    = [Ok_line [Lit "Production logs: "; Shown (JInt 0); Lit " created, ";
                Shown (JInt 28); Lit " failed"]] /\
  List.filter (mentions "Shifts available")
    (console (snd (@run failing (@start failing boot))))
    = [Ok_line [Lit "Shifts available: "; Shown (JInt 0); Lit " ()"]].
Proof. repeat split; vm_compute; reflexivity. Qed.

(** ** Machines that exist already *)

Section Machines.

Context {E : environment}.
Variable TOKEN : json.

Lemma machine_accepted_success (j : json) :
  success_of j = true -> machine_accepted j = Val true.
Proof.
  unfold success_of, machine_accepted.
  destruct (get j "success" JNull) as [success |]; [| discriminate].
  intros ->. reflexivity.
Qed.

Lemma machine_accepted_existing (j : json) (err : string) :
  error_text j = Some err ->
  contains "already exists" (lower err) = true ->
  machine_accepted j = Val true.
Proof.
  intros Htext Hmentions. rewrite (machine_accepted_text _ _ Htext), Hmentions.
  destruct (success_of j); reflexivity.
Qed.

(** When every machine is accepted, one "Created" line is printed for each,
    in order, and nothing else. *)
Lemma machines_all_created (items : list machine) (st : state E) :
  (forall m w', In m items ->
     exists j, answer (fst (urlopen E (machine_request TOKEN m) w')) = Val j /\
               machine_accepted j = Val true) ->
  returns (for_each items (create_machine TOKEN)) st
    (fun _ st' => console st' = console st ++ map created_line items).
Proof.
  revert st. induction items as [| m items IH]; intros st Haccepted; simpl.
  - apply returns_ret. symmetry. apply app_nil_r.
  - destruct (Haccepted m (world st) (or_introl eq_refl)) as (j & Hreply & Hj).
    apply returns_bind. eexists tt, _. split.
    + apply (create_machine_eq TOKEN m st j true Hreply Hj). discriminate.
    + eapply returns_weaken.
      * apply IH. intros m' w' Hin. apply Haccepted. right. exact Hin.
      * intros u st' ->. simpl. rewrite <- app_assoc. reflexivity.
Qed.

Lemma create_machines_all_created (st : state E) :
  (forall m w', In m machines ->
     exists j, answer (fst (urlopen E (machine_request TOKEN m) w')) = Val j /\
               machine_accepted j = Val true) ->
  returns (create_machines TOKEN) st
    (fun _ st' =>
       console st' =
         console st ++ Header_line [Lit "3. CREATE MACHINES"] :: map created_line machines).
Proof.
  intros Haccepted. unfold create_machines. step. step.
  eapply returns_weaken; [apply machines_all_created, Haccepted |].
  intros u st' ->. simpl. rewrite <- app_assoc. reflexivity.
Qed.

End Machines.

(** C6, as the code has it.  With a healthy gateway, a login that passed and
    a server that answers as expected, where some of the eight machines are
    answered by an already-exists error and the others by success: the run
    prints between the headers of stages 3 and 4 the same "Created" line for
    each of the eight machines and nothing else (a machine that existed is
    counted as success and is not told apart), and the run reaches its end. *)
Theorem existing_machines_reported_created {E : environment} (w : World E)
    (st1 st2 : state E) (TOKEN : json) (existing : machine -> bool) :
  health_check (start w) = (Ret tt, st1) ->
  login st1 = (Ret TOKEN, st2) ->
  (forall req w', authorization req <> None ->
     exists j, answer (fst (urlopen E req w')) = Val j /\ expected req j = true) ->
  (forall w', sane (fst (clock E w'))) ->
  (forall m w', In m machines -> existing m = true ->
     exists j err,
       answer (fst (urlopen E (machine_request TOKEN m) w')) = Val j /\
       success_of j = false /\ error_text j = Some err /\
       contains "already exists" (lower err) = true) ->
  (forall m w', In m machines -> existing m = false ->
     exists j,
       answer (fst (urlopen E (machine_request TOKEN m) w')) = Val j /\
       success_of j = true) ->
  exists st' before after,
    run (start w) = (Ret tt, st') /\
    console st' =
      before ++ Header_line [Lit "3. CREATE MACHINES"] :: map created_line machines
             ++ Header_line [Lit "4. VERIFY SHIFTS"] :: after.
Proof.
  intros Hhealth Hlogin Hserver Hclock Hexisting Hnew.
  pose proof (login_token _ _ _ Hlogin) as Htoken.
  destruct (create_users_ok TOKEN Htoken Hserver st2) as ([] & st3 & Husers & _).
  destruct (create_machines_all_created TOKEN st3) as ([] & st4 & Hmachines & Hconsole).
  { intros m w' Hin. destruct (existing m) eqn:Hm.
    - destruct (Hexisting m w' Hin Hm) as (j & err & Hj & _ & Htext & Hmentions).
      exists j. split; [exact Hj |]. eapply machine_accepted_existing; eassumption.
    - destruct (Hnew m w' Hin Hm) as (j & Hj & Hsuccess).
      exists j. split; [exact Hj |]. apply machine_accepted_success, Hsuccess. }
  destruct (rest_ok TOKEN Htoken Hserver Hclock st4) as ([] & st' & Hrest & after & Hafter).
  exists st', (console st3), after. split.
  - unfold run. unfold bind at 1. rewrite Hhealth.
    unfold bind at 1. rewrite Hlogin.
    unfold bind at 1. rewrite Husers.
    unfold bind at 1. rewrite Hmachines.
    exact Hrest.
  - rewrite Hafter. simpl. rewrite Hconsole. rewrite <- !app_assoc. reflexivity.
Qed.

(** ** A server with two machines already there *)

(** A table of handlers answers as expected when each handler does for its
    own endpoint, and the answer to anything else fits every endpoint. *)
Lemma handler_for_in (table : list (string * string * handler)) (m p : string) (h : handler) :
  handler_for table m p = Some h -> In (m, p, h) table.
Proof.
  induction table as [| [[m' p'] h'] table IH]; simpl; [discriminate |].
  destruct (String.eqb_spec m m') as [-> |]; simpl.
  - destruct (String.eqb_spec p p') as [-> |]; simpl.
    + intros [= ->]. left. reflexivity.
    + intros H. right. apply IH, H.
  - intros H. right. apply IH, H.
Qed.

Lemma served_expected (table : list (string * string * handler)) (other : http_result) :
  Forall (fun e => forall n req,
            exists j, answer (snd e n req) = Val j /\
                      shape_for endpoints (fst (fst e)) (snd (fst e)) j = true) table ->
  (exists j, answer other = Val j /\ forall req, expected req j = true) ->
  forall n req, exists j, answer (served table other n req) = Val j /\ expected req j = true.
Proof.
  intros Htable (jo & Hother & Hfits) n req.
  pose proof (Hfits req) as Hfit.
  unfold served, expected in *.
  destruct (url req) as [| [b | |] [| [p | |] [|]]]; try (exists jo; split; assumption).
  destruct (handler_for table (method req) p) as [h |] eqn:Hh;
    [| exists jo; split; assumption].
  apply handler_for_in in Hh. rewrite List.Forall_forall in Htable.
  apply (Htable _ Hh n req).
Qed.

Lemma yes_expected (req : request) : expected req yes = true.
Proof.
  unfold expected.
  destruct (url req) as [| [b | |] [| [p | |] [|]]]; try reflexivity.
  cbn [shape_for endpoints].
  repeat (destruct (_ && _)%bool; [reflexivity |]).
  reflexivity.
Qed.

Lemma factory_expected (req : request) (w : World factory) :
  authorization req <> None ->
  exists j, answer (fst (urlopen factory req w)) = Val j /\ expected req j = true.
Proof.
  intros Hauth. simpl. destruct (authorization req); [| contradiction].
  apply served_expected.
  - repeat constructor; intros n r; simpl.
    + destruct (_ || _)%bool; eexists; split; reflexivity.
    + eexists; split; reflexivity.
    + eexists; split; reflexivity.
    + eexists; split; reflexivity.
  - exists yes. split; [reflexivity | apply yes_expected].
Qed.

(** C6 on the factory server, where CNC-001 and INJ-001 exist already. *)
Lemma existing_machines_reported_created_witness :
  exists st' before after,
    @run factory (@start factory boot) = (Ret tt, st') /\
    console st' =
      before ++ Header_line [Lit "3. CREATE MACHINES"] :: map created_line machines
             ++ Header_line [Lit "4. VERIFY SHIFTS"] :: after.
Proof.
  apply (@existing_machines_reported_created factory boot
           (snd (@health_check factory (@start factory boot)))
           (snd (@login factory (snd (@health_check factory (@start factory boot)))))
           (JStr "secret") already_there).
  - vm_compute. reflexivity.
  - vm_compute. reflexivity.
  - apply factory_expected.
  - intros w'. apply noon_sane.
  - intros m w' Hin Hm.
    exists (JObj [("success", JBool false);
                  ("error", JStr "HTTP 409: Machine code already exists")]),
           "HTTP 409: Machine code already exists".
    simpl in Hin.
    repeat (destruct Hin as [<- | Hin]; [try discriminate Hm; repeat split; reflexivity |]).
    contradiction.
  - intros m w' Hin Hm.
    exists yes.
    simpl in Hin.
    repeat (destruct Hin as [<- | Hin]; [try discriminate Hm; repeat split; reflexivity |]).
    contradiction.
Defined.

(** C6 as stated fails.  On the factory server exactly two of the eight
    machines are answered by an already-exists error and the run reaches its
    end, yet the report has eight "Created" lines for machines, not six, and
    no line that says "already exists". *)
Lemma existing_machines_not_told_apart :
  length (List.filter already_there machines) = 2%nat /\
  fst (@run factory (@start factory boot)) = Ret tt /\
  length (List.filter (mentions "Created: ")
            (console (snd (@run factory (@start factory boot))))) = 8%nat /\
  length (List.filter (mentions "already exists")
            (console (snd (@run factory (@start factory boot))))) = 0%nat.
Proof. repeat split; vm_compute; reflexivity. Qed.

(** ** Plan statuses *)

Section Statuses.

Context {E : environment}.
Variable TOKEN : json.
Variable plan_ids : gmap nat json.
Hypothesis patch_answered :
  forall req w', method req = "PATCH" -> exists j, answer (fst (urlopen E req w')) = Val j.

Lemma patch_loop (new_status : string) (indices : list nat) (st : state E) :
  returns (for_each indices (patch_plan TOKEN plan_ids new_status)) st
    (fun _ st' =>
       sent st' = sent st ++ patches_for TOKEN plan_ids new_status indices /\
       console st' = console st).
Proof.
  revert st. induction indices as [| i indices IH]; intros st; simpl.
  - apply returns_ret. split; [symmetry; apply app_nil_r | reflexivity].
  - apply returns_bind. unfold patch_plan at 1. cbv zeta.
    destruct (truthy (plan_ids_get plan_ids i)).
    + destruct (patch_answered (patch_request TOKEN (plan_ids_get plan_ids i) new_status)
                  (world st) eq_refl) as [j Hj].
      apply returns_bind. eapply returns_api; [exact Hj |].
      apply returns_ret.
      eapply returns_weaken; [apply IH |].
      intros u st' [-> ->]. split; [| reflexivity].
      simpl. rewrite <- app_assoc. reflexivity.
    + apply returns_ret. apply IH.
Qed.

Lemma set_plan_statuses_sent (st : state E) :
  returns (set_plan_statuses TOKEN plan_ids) st
    (fun _ st' =>
       sent st' = sent st ++ patches_for TOKEN plan_ids "IN_PROGRESS" (seq 0 7)
                          ++ patches_for TOKEN plan_ids "COMPLETED" (seq 9 5)).
Proof.
  unfold set_plan_statuses. step. step. apply returns_bind.
  eapply returns_weaken; [apply patch_loop |].
  intros u st1 [Hsent1 _]. step. step. apply returns_bind.
  eapply returns_weaken; [apply patch_loop |].
  intros u' st2 [Hsent2 _]. step.
  simpl sent. rewrite Hsent2. simpl sent. rewrite Hsent1. simpl sent.
  rewrite <- app_assoc. reflexivity.
Qed.

End Statuses.

Lemma patches_by_status (TOKEN : json) (plan_ids : gmap nat json) :
  patches_by status_for TOKEN plan_ids =
    patches_for TOKEN plan_ids "IN_PROGRESS" (seq 0 7)
      ++ patches_for TOKEN plan_ids "COMPLETED" (seq 9 5).
Proof.
  unfold patches_by, patches_for. cbn.
  rewrite ?app_nil_r, <- ?app_assoc. reflexivity.
Qed.

Lemma true_collected (plan_ids : gmap nat json) (i : nat) :
  truthy (plan_ids_get plan_ids i) = true ->
  plan_ids !! i = Some (plan_ids_get plan_ids i).
Proof.
  unfold plan_ids_get. destruct (plan_ids !! i); [reflexivity | discriminate].
Qed.

(** C1, as the code has it.  Whatever plans failed to create, the status
    step sends, in the order of the plan list, an IN_PROGRESS patch for each
    plan written for today's morning shift (indices 0 to 6) and a COMPLETED
    patch for each plan written for yesterday or two days ago (indices 9 to
    13), and none for the two plans of today's afternoon shift; a patch goes
    to the identifier collected for the index, and an index without one is
    skipped. *)
Theorem status_patches_follow_the_plan_list {E : environment} (TOKEN : json)
    (plan_ids : gmap nat json) (st : state E) :
  (forall req w', method req = "PATCH" ->
     exists j, answer (fst (urlopen E req w')) = Val j) ->
  exists st',
    set_plan_statuses TOKEN plan_ids st = (Ret tt, st') /\
    sent st' = sent st ++ patches_by status_for TOKEN plan_ids /\
    (forall req, In req (patches_by status_for TOKEN plan_ids) ->
       exists i pid new_status,
         plan_ids !! i = Some pid /\ req = patch_request TOKEN pid new_status) /\
    (forall i new_status,
       plan_ids !! i = None -> patches_for TOKEN plan_ids new_status [i] = []).
Proof.
  intros Hpatch.
  destruct (set_plan_statuses_sent TOKEN plan_ids Hpatch st) as ([] & st' & Hrun & Hsent).
  exists st'. split; [exact Hrun |]. split; [| split].
  - rewrite patches_by_status. exact Hsent.
  - intros req Hin. unfold patches_by in Hin.
    apply in_flat_map in Hin as ([i e] & _ & Hin). simpl in Hin.
    destruct (status_for e) as [new_status |]; [| contradiction].
    unfold patches_for in Hin. simpl in Hin.
    destruct (truthy (plan_ids_get plan_ids i)) eqn:Htrue; [| contradiction].
    destruct Hin as [<- | []].
    exists i, (plan_ids_get plan_ids i), new_status.
    split; [apply true_collected, Htrue | reflexivity].
  - intros i new_status Hnone. unfold patches_for, plan_ids_get. simpl.
    rewrite Hnone. reflexivity.
Qed.

(** C1 on the server that is down, when only the plans at indices 0, 7 and 9
    were created: two patches, none for index 7. *)
Lemma status_patches_follow_the_plan_list_witness :
  exists st',
    @set_plan_statuses down (JStr "secret")
       (<[0%nat := JInt 101]> (<[7%nat := JInt 108]> (<[9%nat := JInt 110]> ∅)))
       (@start down boot) = (Ret tt, st') /\
    sent st' = [patch_request (JStr "secret") (JInt 101) "IN_PROGRESS";
                patch_request (JStr "secret") (JInt 110) "COMPLETED"].
Proof.
  destruct (@status_patches_follow_the_plan_list down (JStr "secret")
              (<[0%nat := JInt 101]> (<[7%nat := JInt 108]> (<[9%nat := JInt 110]> ∅)))
              (@start down boot)) as (st' & Hrun & Hsent & _).
  - intros req w' _. destruct req as [m u b [a |]]; eexists; reflexivity.
  - exists st'. split; [exact Hrun |]. rewrite Hsent. vm_compute. reflexivity.
Defined.

(** C1 as stated fails.  On the factory server all fourteen plans are
    created, with the identifiers 101 to 114; the plans at indices 7 and 8
    are written for today like the first seven, and collected (108, 109),
    yet no patch goes to them. *)
Lemma afternoon_plans_not_patched :
  fst (@run factory (@start factory boot)) = Ret tt /\
  omap plan_created (console (snd (@run factory (@start factory boot))))
    = map JInt [101; 102; 103; 104; 105; 106; 107; 108; 109; 110; 111; 112; 113; 114] /\
  map status_by_date plan_entries
    = ["IN_PROGRESS"; "IN_PROGRESS"; "IN_PROGRESS"; "IN_PROGRESS"; "IN_PROGRESS";
       "IN_PROGRESS"; "IN_PROGRESS"; "IN_PROGRESS"; "IN_PROGRESS";
       "COMPLETED"; "COMPLETED"; "COMPLETED"; "COMPLETED"; "COMPLETED"] /\
  omap patched (sent (snd (@run factory (@start factory boot))))
    = [(JInt 101, JStr "IN_PROGRESS"); (JInt 102, JStr "IN_PROGRESS");
       (JInt 103, JStr "IN_PROGRESS"); (JInt 104, JStr "IN_PROGRESS");
       (JInt 105, JStr "IN_PROGRESS"); (JInt 106, JStr "IN_PROGRESS");
       (JInt 107, JStr "IN_PROGRESS");
       (JInt 110, JStr "COMPLETED"); (JInt 111, JStr "COMPLETED");
       (JInt 112, JStr "COMPLETED"); (JInt 113, JStr "COMPLETED");
       (JInt 114, JStr "COMPLETED")].
Proof. repeat split; vm_compute; reflexivity. Qed.

(** ** Machine identifiers *)

Lemma machine_map_of_lookup (listing : list json) (machine_map machine_map' : gmap string json) :
  machine_map_of listing machine_map = Val machine_map' ->
  forall code,
    machine_map' !! code =
      match resolve listing code with
      | Some id => Some id
      | None => machine_map !! code
      end.
Proof.
  revert machine_map. induction listing as [| m rest IH]; intros machine_map; simpl.
  - intros [= ->] code. reflexivity.
  - unfold machine_map_set.
    destruct (subscript m "machine_id") as [id |]; [| discriminate].
    destruct (subscript m "machine_code") as [[| | | c | |] |]; try discriminate;
      intros Hrest code; rewrite (IH _ Hrest code);
      destruct (resolve rest code); try reflexivity.
    destruct (String.eqb_spec c code) as [-> | Hne].
    + apply lookup_insert_eq.
    + apply lookup_insert_ne. exact Hne.
Qed.

Lemma read_machine_map_eq {E : environment} (TOKEN : json) (st : state E) :
  read_machine_map TOKEN st =
    (match listed_machines (fst (urlopen E (listing_request TOKEN) (world st))) with
     | Val listing => outcome_of (machine_map_of listing ∅)
     | Exn e => Raise e
     end, after_send st (listing_request TOKEN)).
Proof.
  unfold read_machine_map, listed_machines. rewrite bind_api. fold (listing_request TOKEN).
  unfold reply.
  destruct (answer _) as [machines_resp | e]; [| reflexivity].
  rewrite bind_lift.
  destruct (get machines_resp "machines" (JList [])) as [listing | e]; [| reflexivity].
  rewrite bind_lift.
  destruct (iter listing) as [items | e]; [| reflexivity].
  apply lift_eq.
Qed.

(** C7. When the listing call is answered and its entries can be read, the
    machine map resolves each code to the identifier the listing gives it,
    and the [machine_id] of every plan payload is that identifier when the
    plan's machine code is listed and the fallback written in the plan list
    when it is not; a listing call that fails with an HTTP error status
    yields the empty listing, so every payload then has its fallback. *)
Theorem plan_machine_resolved {E : environment} (TOKEN : json) (st : state E)
    (listing : list json) :
  listed_machines (fst (urlopen E (listing_request TOKEN) (world st))) = Val listing ->
  forallb listable listing = true ->
  exists machine_map st',
    read_machine_map TOKEN st = (Ret machine_map, st') /\
    (forall code, machine_map !! code = resolve listing code) /\
    (forall dates,
       Forall2 (fun e p =>
                  subscript (plan_json p) "machine_id" =
                    Val (match resolve listing (entry_machine e) with
                         | Some id => id
                         | None => JInt (entry_fallback e)
                         end))
               plan_entries (plans machine_map dates)) /\
    (forall code fp,
       fst (urlopen E (listing_request TOKEN) (world st)) = HTTPError code fp ->
       listing = []).
Proof.
  intros Hlisting Hlistable.
  destruct (machine_map_of_listable listing ∅ Hlistable) as [machine_map Hmap].
  exists machine_map, (after_send st (listing_request TOKEN)).
  assert (forall code, machine_map !! code = resolve listing code) as Hlookup.
  { intros code. rewrite (machine_map_of_lookup _ _ _ Hmap code).
    destruct (resolve listing code); [reflexivity | apply lookup_empty]. }
  split; [| split; [exact Hlookup | split]].
  - rewrite read_machine_map_eq, Hlisting, Hmap. reflexivity.
  - intros dates. unfold plans.
    induction plan_entries as [| e entries IH]; [constructor |].
    change (map (plan_of machine_map dates) (e :: entries))
      with (plan_of machine_map dates e :: map (plan_of machine_map dates) entries).
    constructor; [| exact IH].
    change (Val (machine_map_get machine_map (entry_machine e) (entry_fallback e)) =
            Val (match resolve listing (entry_machine e) with
                 | Some id => id
                 | None => JInt (entry_fallback e)
                 end)).
    unfold machine_map_get. rewrite Hlookup.
    destruct (resolve listing (entry_machine e)); reflexivity.
  - intros code fp Hfail. rewrite Hfail in Hlisting.
    injection Hlisting as <-. reflexivity.
Qed.

(** C7 on the factory server: CNC-001 is listed with identifier 11. *)
Lemma plan_machine_resolved_witness :
  exists machine_map st',
    @read_machine_map factory (JStr "secret") (@start factory boot) = (Ret machine_map, st') /\
    machine_map !! "CNC-001" = Some (JInt 11) /\
    machine_map !! "LATHE-9" = None.
Proof.
  destruct (@plan_machine_resolved factory (JStr "secret") (@start factory boot)
              [listed "CNC-001" 11; listed "CNC-002" 12; listed "INJ-001" 13;
               listed "INJ-002" 14; listed "PRESS-001" 15; listed "WELD-001" 16;
               listed "PACK-001" 17; listed "GRIND-001" 18])
    as (machine_map & st' & Hrun & Hlookup & _).
  - vm_compute. reflexivity.
  - vm_compute. reflexivity.
  - exists machine_map, st'. split; [exact Hrun |].
    rewrite !Hlookup. split; reflexivity.
Defined.

(** ** Production logs *)

Section Logs.

Context {E : environment}.
Variable TOKEN : json.

(** One turn of the loop, case by case. *)
Lemma post_log_eq (counts : Z * Z) (log : production_log) (st : state E) :
  post_log TOKEN counts log st =
    (match reply st (log_request TOKEN log) with
     | Exn e => Raise e
     | Val resp =>
         match get resp "success" JNull with
         | Exn e => Raise e
         | Val success =>
             Ret (if truthy success then (fst counts + 1, snd counts)
                  else (fst counts, snd counts + 1))
         end
     end, after_send st (log_request TOKEN log)).
Proof.
  destruct counts as [success_count fail_count]. unfold post_log.
  rewrite bind_api. fold (log_request TOKEN log).
  destruct (reply st (log_request TOKEN log)) as [resp | e]; [| reflexivity].
  rewrite bind_lift.
  destruct (get resp "success" JNull) as [success | e]; [| reflexivity].
  destruct (truthy success); reflexivity.
Qed.

(** A turn that returns has added one to exactly one of the counters. *)
Lemma post_log_step (counts counts' : Z * Z) (log : production_log) (st st' : state E) :
  post_log TOKEN counts log st = (Ret counts', st') ->
  counts' = (fst counts + 1, snd counts) \/ counts' = (fst counts, snd counts + 1).
Proof.
  rewrite post_log_eq.
  destruct (reply st (log_request TOKEN log)) as [resp | e]; [| discriminate].
  destruct (get resp "success" JNull) as [success | e]; [| discriminate].
  destruct (truthy success); intros [= <- _]; [left | right]; reflexivity.
Qed.

(** Whenever the loop returns, the counters add up to the number of records
    it went through. *)
Lemma post_logs_count (logs : list production_log) (counts counts' : Z * Z)
    (st st' : state E) :
  for_fold logs counts (post_log TOKEN) st = (Ret counts', st') ->
  fst counts' + snd counts' = fst counts + snd counts + Z.of_nat (length logs).
Proof.
  revert counts st. induction logs as [| log logs IH]; intros counts st; simpl for_fold.
  - intros [= <- _]. simpl. lia.
  - unfold bind.
    destruct (post_log TOKEN counts log st) as [[counts1 | code | e] st1] eqn:Hturn;
      try discriminate.
    intros Hrest. apply IH in Hrest.
    destruct (post_log_step _ _ _ _ _ Hturn) as [-> | ->];
      simpl in Hrest |- *; lia.
Qed.

Hypothesis log_answered :
  forall log w',
    exists j, answer (fst (urlopen E (log_request TOKEN log) w')) = Val j /\ is_obj j = true.



End Logs.






(** ** The three dates *)

Section Dates.

Context {E : environment}.

(** The dates, from the three readings. *)
Lemma read_dates_eq (st : state E) :
  let t0 := fst (clock E (world st)) in
  let t1 := fst (clock E (world (after_clock st))) in
  let t2 := fst (clock E (world (after_clock (after_clock st)))) in
  read_dates st =
    (match minus t1 1 0 0 with
     | Exn e => Raise e
     | Val d1 =>
         match minus t2 2 0 0 with
         | Exn e => Raise e
         | Val d2 => Ret (strftime_ymd t0, strftime_ymd d1, strftime_ymd d2)
         end
     end,
     match minus t1 1 0 0 with
     | Exn _ => after_clock (after_clock st)
     | Val _ => after_clock (after_clock (after_clock st))
     end).
Proof.
  cbv zeta. unfold read_dates, bind, now, after_clock. simpl.
  destruct (clock E (world st)) as [t0 w0]. simpl.
  destruct (clock E w0) as [t1 w1]. simpl.
  destruct (minus t1 1 0 0) as [d1 |]; simpl; [| reflexivity].
  destruct (clock E w1) as [t2 w2]. simpl.
  destruct (minus t2 2 0 0) as [d2 |]; reflexivity.
Qed.

(** Taking whole days away from a sane reading. *)
Lemma minus_days_eq (t : datetime) (days : Z) :
  sane t -> 0 <= days <= 2 ->
  minus t days 0 0 = Val {| ordinal := ordinal t - days; usec := usec t |}.
Proof.
  unfold sane, minus, day_usec, MAXORDINAL. intros [Ho Hu] Hd.
  replace (usec t - (0 * 3600 + 0 * 60) * 1000000) with (usec t) by lia.
  rewrite (Z.div_small (usec t) 86400000000) by lia.
  rewrite (Z.mod_small (usec t) 86400000000) by lia.
  replace ((0 <? ordinal t - days + 0) && (ordinal t - days + 0 <=? 3652059))%bool
    with true.
  - rewrite Z.add_0_r. reflexivity.
  - symmetry. apply andb_true_intro. split; [apply Z.ltb_lt | apply Z.leb_le]; lia.
Qed.

(** When the three readings fall on the same day, [yesterday] and
    [two_days_ago] are the days one and two before [today]. *)
Lemma read_dates_same_day (st : state E) (day : Z) :
  (forall w, sane (fst (clock E w))) ->
  ordinal (fst (clock E (world st))) = day ->
  ordinal (fst (clock E (world (after_clock st)))) = day ->
  ordinal (fst (clock E (world (after_clock (after_clock st))))) = day ->
  exists u0 u1 u2,
    fst (read_dates st) =
      Ret (strftime_ymd {| ordinal := day; usec := u0 |},
           strftime_ymd {| ordinal := day - 1; usec := u1 |},
           strftime_ymd {| ordinal := day - 2; usec := u2 |}).
Proof.
  intros Hsane H0 H1 H2. rewrite read_dates_eq. cbv zeta.
  rewrite (minus_days_eq _ 1 (Hsane _)) by lia.
  rewrite (minus_days_eq _ 2 (Hsane _)) by lia.
  rewrite H1, H2. simpl.
  destruct (fst (clock E (world st))) as [o u] eqn:Ht. simpl in H0. subst o.
  eexists u, _, _. reflexivity.
Qed.

End Dates.

(** C5 where the code fails it.  The script reads the clock once for each
    of the three dates.  When midnight passes between the first reading and
    the second, [yesterday] is the same string as [today], not the day
    before, and the plans written for yesterday are posted with today's
    date. *)
Theorem dates_across_midnight :
  fst (@read_dates midnight (@start midnight boot))
    = Ret ("2024-03-10", "2024-03-10", "2024-03-09") /\
  omap posted_date (sent (snd (@run midnight (@start midnight boot))))
    = map JStr ["2024-03-10"; "2024-03-10"; "2024-03-10"; "2024-03-10"; "2024-03-10";
                "2024-03-10"; "2024-03-10"; "2024-03-10"; "2024-03-10";
                "2024-03-10"; "2024-03-10"; "2024-03-10";
                "2024-03-09"; "2024-03-09"].
Proof. split; vm_compute; reflexivity. Qed.

(** ** The shape of a date *)

Lemma in_range (lo count : Z) (P : Z -> bool) (x : Z) :
  forallb (fun k => P (lo + Z.of_nat k)) (seq 0 (Z.to_nat count)) = true ->
  lo <= x < lo + count ->
  P x = true.
Proof.
  intros Hall Hx. rewrite forallb_forall in Hall.
  replace x with (lo + Z.of_nat (Z.to_nat (x - lo))) by lia.
  apply Hall. apply in_seq. lia.
Qed.

Lemma zpad_year (y : Z) : 1000 <= y <= 9999 -> digits_only 4 (zpad 4 y) = true.
Proof.
  intros Hy. apply (in_range 1000 9000 (fun y => digits_only 4 (zpad 4 y))); [| lia].
  vm_compute. reflexivity.
Qed.

Lemma zpad_two (m : Z) : 0 <= m <= 99 -> digits_only 2 (zpad 2 m) = true.
Proof.
  intros Hm. apply (in_range 0 100 (fun m => digits_only 2 (zpad 2 m))); [| lia].
  vm_compute. reflexivity.
Qed.

Lemma month_day_bounds (n : Z) (leapyear : bool) :
  0 <= n < 365 -> month_day_ok (month_day n leapyear) = true.
Proof.
  intros Hn.
  apply (in_range 0 365 (fun n => month_day_ok (month_day n leapyear))); [| lia].
  destruct leapyear; vm_compute; reflexivity.
Qed.

Lemma ord2ymd_bounds (n : Z) :
  364878 <= n <= MAXORDINAL ->
  1000 <= fst (fst (ord2ymd n)) <= 9999 /\
  1 <= snd (fst (ord2ymd n)) <= 12 /\
  1 <= snd (ord2ymd n) <= 31.
Proof.
  unfold MAXORDINAL, ord2ymd. intros Hn. cbv zeta.
  set (q400 := (n - 1) / 146097). set (r400 := (n - 1) mod 146097).
  set (q100 := r400 / 36524). set (r100 := r400 mod 36524).
  set (q4 := r100 / 1461). set (r4 := r100 mod 1461).
  set (q1 := r4 / 365). set (r1 := r4 mod 365).
  assert (n - 1 = 146097 * q400 + r400 /\ 0 <= r400 < 146097) as [E400 B400].
  { subst q400 r400. split; [apply Z.div_mod; lia | apply Z.mod_pos_bound; lia]. }
  assert (r400 = 36524 * q100 + r100 /\ 0 <= r100 < 36524) as [E100 B100].
  { subst q100 r100. split; [apply Z.div_mod; lia | apply Z.mod_pos_bound; lia]. }
  assert (r100 = 1461 * q4 + r4 /\ 0 <= r4 < 1461) as [E4 B4].
  { subst q4 r4. split; [apply Z.div_mod; lia | apply Z.mod_pos_bound; lia]. }
  assert (r4 = 365 * q1 + r1 /\ 0 <= r1 < 365) as [E1 B1].
  { subst q1 r1. split; [apply Z.div_mod; lia | apply Z.mod_pos_bound; lia]. }
  clearbody q400 r400 q100 r100 q4 r4 q1 r1.
  destruct ((q1 =? 4) || (q100 =? 4))%bool eqn:Hlast.
  - simpl. apply orb_prop in Hlast. rewrite !Z.eqb_eq in Hlast. lia.
  - apply orb_false_elim in Hlast as [H1 H100]. rewrite Z.eqb_neq in H1, H100.
    pose proof (month_day_bounds r1 ((q1 =? 3) && (negb (q4 =? 24) || (q100 =? 3))) B1) as Hmd.
    destruct (month_day r1 _) as [month day]. simpl in *.
    unfold month_day_ok in Hmd. simpl in Hmd.
    apply andb_prop in Hmd as [Hmd Hd2]. apply andb_prop in Hmd as [Hmd Hd1].
    apply andb_prop in Hmd as [Hm1 Hm2].
    rewrite Z.leb_le in Hm1, Hm2, Hd1, Hd2. lia.
Qed.

Lemma digits_shape (a b c : string) :
  digits_only 4 a = true -> digits_only 2 b = true -> digits_only 2 c = true ->
  ymd_shape (a +:+ "-" +:+ b +:+ "-" +:+ c) = true.
Proof.
  unfold digits_only. intros Ha Hb Hc.
  apply andb_prop in Ha as [La Da]. apply andb_prop in Hb as [Lb Db].
  apply andb_prop in Hc as [Lc Dc].
  destruct a as [| a1 [| a2 [| a3 [| a4 [|]]]]]; try discriminate La.
  destruct b as [| b1 [| b2 [|]]]; try discriminate Lb.
  destruct c as [| c1 [| c2 [|]]]; try discriminate Lc.
  simpl in Da, Db, Dc.
  repeat match goal with
         | H : (_ && _)%bool = true |- _ => apply andb_prop in H as [? ?]
         end.
  change (forallb is_digit [a1; a2; a3; a4; b1; b2; c1; c2]
          && is_dash "-" && is_dash "-" = true)%bool.
  simpl forallb.
  repeat match goal with
         | H : is_digit ?x = true |- _ => rewrite H; clear H
         end.
  reflexivity.
Qed.

(** From the year 1000 on, [strftime("%Y-%m-%d")] has the shape
    YYYY-MM-DD. *)
Lemma strftime_shape (t : datetime) :
  364878 <= ordinal t <= MAXORDINAL -> ymd_shape (strftime_ymd t) = true.
Proof.
  intros Ht. pose proof (ord2ymd_bounds _ Ht) as (Hy & Hm & Hd).
  unfold strftime_ymd. destruct (ord2ymd (ordinal t)) as [[y m] d]. simpl in *.
  apply digits_shape; [apply zpad_year | apply zpad_two | apply zpad_two]; lia.
Qed.

(** The three dates of a run have the same shape, whenever they were read. *)
Lemma read_dates_shape {E : environment} (st : state E) :
  (forall w, 364880 <= ordinal (fst (clock E w)) <= MAXORDINAL /\
             0 <= usec (fst (clock E w)) < day_usec) ->
  exists today yesterday two_days_ago,
    fst (read_dates st) = Ret (today, yesterday, two_days_ago) /\
    ymd_shape today = true /\ ymd_shape yesterday = true /\
    ymd_shape two_days_ago = true.
Proof.
  intros Hclock.
  assert (forall w, sane (fst (clock E w))) as Hsane.
  { intros w. destruct (Hclock w). split; [lia | assumption]. }
  rewrite read_dates_eq. cbv zeta.
  rewrite (minus_days_eq _ 1 (Hsane _)) by lia.
  rewrite (minus_days_eq _ 2 (Hsane _)) by lia.
  eexists _, _, _. split; [reflexivity |].
  repeat split; apply strftime_shape; simpl;
    match goal with
    | |- context [clock E ?w] => destruct (Hclock w)
    end; lia.
Qed.

(** * Further properties of the script *)

(** ** The trace of requests, however the run ends *)

Section Traces.

Context {E : environment}.
Variable TOKEN : json.

Lemma ascending_snoc (l : list nat) (x : nat) :
  ascending l -> Forall (fun y => (y <= x)%nat) l -> ascending (l ++ [x]).
Proof.
  induction l as [| y l IH]; simpl.
  - intros _ _. split; [constructor | exact I].
  - intros [Hy Hl] Hx. inversion Hx as [| ? ? Hyx Hlx]; subst. split.
    + apply Forall_app. split; [exact Hy | constructor; [exact Hyx | constructor]].
    + apply IH; assumption.
Qed.

Lemma trace_ok_mono (k k' n n' : nat) (l : list request) :
  trace_ok TOKEN k n l -> (k <= k')%nat -> (n <= n')%nat -> trace_ok TOKEN k' n' l.
Proof.
  intros (Hok & Hasc & Hk & Hn) Hkk Hnn. repeat split; try assumption.
  - eapply List.Forall_impl; [| exact Hk]. intros req Hreq. simpl in *. lia.
  - lia.
Qed.

Lemma trace_ok_snoc (lo k n : nat) (l : list request) (req : request) :
  trace_ok TOKEN lo n l -> (lo <= k)%nat ->
  request_ok TOKEN req -> stage_of req = k ->
  trace_ok TOKEN k (n + 1) (l ++ [req]).
Proof.
  intros (Hok & Hasc & Hk & Hn) Hlo Hreq Hstage. repeat split.
  - apply Forall_app. split; [exact Hok | constructor; [exact Hreq | constructor]].
  - rewrite map_app. simpl. apply ascending_snoc; [exact Hasc |].
    apply Forall_map. eapply List.Forall_impl; [| exact Hk].
    intros r Hr. simpl in *. lia.
  - apply Forall_app. split.
    + eapply List.Forall_impl; [| exact Hk]. intros r Hr. simpl in *. lia.
    + constructor; [lia | constructor].
  - rewrite length_app. simpl. lia.
Qed.

(** Steps that send nothing. *)
Lemma sends_quiet {A} (m : M E A) (lo hi : nat) :
  (forall st, sent (snd (m st)) = sent st /\ exit_ok (fst (m st))) ->
  (lo <= hi)%nat -> sends TOKEN lo hi 0 m.
Proof.
  intros Hm Hlo st n Htrace. destruct (Hm st) as [Hsent Hexit]. rewrite Hsent.
  split; [eapply trace_ok_mono; [exact Htrace | exact Hlo | lia] |].
  split; [exact Hexit | exists []; symmetry; apply app_nil_r].
Qed.

Lemma sends_ret {A} (a : A) (k : nat) : sends TOKEN k k 0 (@ret E A a).
Proof. apply sends_quiet; [intros st; split; [reflexivity | exact I] | lia]. Qed.

Lemma sends_lift {A} (r : res A) (k : nat) : sends TOKEN k k 0 (@lift E A r).
Proof.
  apply sends_quiet; [| lia]. intros st. rewrite lift_eq.
  destruct r; split; try reflexivity; exact I.
Qed.

Lemma sends_emit (l : line) (k : nat) : sends TOKEN k k 0 (@emit E l).
Proof. apply sends_quiet; [intros st; split; [reflexivity | exact I] | lia]. Qed.

Lemma sends_exit {A} (k : nat) : sends TOKEN k k 0 (@exit E A 1).
Proof. apply sends_quiet; [intros st; split; reflexivity | lia]. Qed.

Lemma sends_now (k : nat) : sends TOKEN k k 0 (@now E).
Proof.
  apply sends_quiet; [| lia]. intros st. unfold now.
  destruct (clock E (world st)). split; [reflexivity | exact I].
Qed.

Lemma sends_api method path data token (lo k : nat) :
  (lo <= k)%nat ->
  request_ok TOKEN (request_of method path data token) ->
  stage_of (request_of method path data token) = k ->
  sends TOKEN lo k 1 (@api E method path data token).
Proof.
  intros Hlo Hreq Hstage st n Htrace. rewrite api_eq. cbv zeta.
  split; [apply (trace_ok_snoc lo k n); assumption |].
  split; [destruct (reply st _); exact I | eexists; reflexivity].
Qed.

Lemma sends_bind {A B} (m : M E A) (f : A -> M E B) (lo mid hi c1 c2 : nat) :
  sends TOKEN lo mid c1 m ->
  (forall a, sends TOKEN mid hi c2 (f a)) ->
  (mid <= hi)%nat ->
  sends TOKEN lo hi (c1 + c2) (bind m f).
Proof.
  intros Hm Hf Hmid st n Htrace.
  destruct (Hm st n Htrace) as (Htrace1 & Hexit1 & more1 & Hmore1).
  unfold bind. destruct (m st) as [[a | code | e] st1]; simpl in *.
  - destruct (Hf a st1 (n + c1)%nat Htrace1) as (Htrace2 & Hexit2 & more2 & Hmore2).
    split; [rewrite Nat.add_assoc; exact Htrace2 |]. split; [exact Hexit2 |].
    exists (more1 ++ more2). rewrite Hmore2, Hmore1, app_assoc. reflexivity.
  - split; [eapply trace_ok_mono; [exact Htrace1 | exact Hmid | lia] |].
    split; [exact Hexit1 | exists more1; exact Hmore1].
  - split; [eapply trace_ok_mono; [exact Htrace1 | exact Hmid | lia] |].
    split; [exact I | exists more1; exact Hmore1].
Qed.

(** Sequencing, when what follows depends on a property of the value. *)
Lemma sends_bind_where {A B} (P : A -> Prop) (m : M E A) (f : A -> M E B)
    (lo mid hi c1 c2 : nat) :
  (forall st a st', m st = (Ret a, st') -> P a) ->
  sends TOKEN lo mid c1 m ->
  (forall a, P a -> sends TOKEN mid hi c2 (f a)) ->
  (mid <= hi)%nat ->
  sends TOKEN lo hi (c1 + c2) (bind m f).
Proof.
  intros HP Hm Hf Hmid st n Htrace.
  destruct (Hm st n Htrace) as (Htrace1 & Hexit1 & more1 & Hmore1).
  unfold bind. specialize (HP st).
  destruct (m st) as [[a | code | e] st1]; simpl in *.
  - destruct (Hf a (HP a st1 eq_refl) st1 (n + c1)%nat Htrace1)
      as (Htrace2 & Hexit2 & more2 & Hmore2).
    split; [rewrite Nat.add_assoc; exact Htrace2 |]. split; [exact Hexit2 |].
    exists (more1 ++ more2). rewrite Hmore2, Hmore1, app_assoc. reflexivity.
  - split; [eapply trace_ok_mono; [exact Htrace1 | exact Hmid | lia] |].
    split; [exact Hexit1 | exists more1; exact Hmore1].
  - split; [eapply trace_ok_mono; [exact Htrace1 | exact Hmid | lia] |].
    split; [exact I | exists more1; exact Hmore1].
Qed.

Lemma sends_weaken {A} (m : M E A) (lo hi c c' : nat) :
  sends TOKEN lo hi c m -> (c <= c')%nat -> sends TOKEN lo hi c' m.
Proof.
  intros Hm Hc st n Htrace. destruct (Hm st n Htrace) as (Htrace' & Hrest).
  split; [| exact Hrest]. eapply trace_ok_mono; [exact Htrace' | lia | lia].
Qed.

Lemma sends_if {A} (b : bool) (m1 m2 : M E A) (lo hi c1 c2 : nat) :
  sends TOKEN lo hi c1 m1 -> sends TOKEN lo hi c2 m2 ->
  sends TOKEN lo hi (Nat.max c1 c2) (if b then m1 else m2).
Proof.
  intros H1 H2. destruct b; eapply sends_weaken; eauto; lia.
Qed.

Lemma sends_try {A} (body : M E A) (handler : exn -> M E A) (lo hi c1 c2 : nat) :
  sends TOKEN lo hi c1 body ->
  (forall e, sends TOKEN hi hi c2 (handler e)) ->
  sends TOKEN lo hi (c1 + c2) (try_except body handler).
Proof.
  intros Hbody Hhandler st n Htrace.
  destruct (Hbody st n Htrace) as (Htrace1 & Hexit1 & more1 & Hmore1).
  unfold try_except. destruct (body st) as [[a | code | e] st1]; simpl in *.
  - split; [eapply trace_ok_mono; [exact Htrace1 | lia | lia] |].
    split; [exact I | exists more1; exact Hmore1].
  - split; [eapply trace_ok_mono; [exact Htrace1 | lia | lia] |].
    split; [exact Hexit1 | exists more1; exact Hmore1].
  - destruct (Hhandler e st1 (n + c1)%nat Htrace1) as (Htrace2 & Hexit2 & more2 & Hmore2).
    split; [rewrite Nat.add_assoc; exact Htrace2 |]. split; [exact Hexit2 |].
    exists (more1 ++ more2). rewrite Hmore2, Hmore1, app_assoc. reflexivity.
Qed.

Lemma sends_for_each {A} (items : list A) (body : A -> M E unit) (k c : nat) :
  (forall x, sends TOKEN k k c (body x)) ->
  sends TOKEN k k (length items * c) (for_each items body).
Proof.
  intros Hbody. induction items as [| x items IH]; simpl for_each.
  - apply sends_ret.
  - change (length (x :: items) * c)%nat with (c + length items * c)%nat.
    apply sends_bind with (mid := k); [apply Hbody | intros _; exact IH | lia].
Qed.

Lemma sends_for_fold {A V} (items : list A) (body : V -> A -> M E V) (vars : V)
    (k c : nat) :
  (forall v x, sends TOKEN k k c (body v x)) ->
  sends TOKEN k k (length items * c) (for_fold items vars body).
Proof.
  intros Hbody. revert vars. induction items as [| x items IH]; intros vars; simpl for_fold.
  - apply sends_ret.
  - change (length (x :: items) * c)%nat with (c + length items * c)%nat.
    apply sends_bind with (mid := k); [apply Hbody | intros v; apply IH | lia].
Qed.

(** A loop over items the server gave, with a body that sends nothing. *)
Lemma sends_for_each_quiet {A} (items : list A) (body : A -> M E unit) (k : nat) :
  (forall x, sends TOKEN k k 0 (body x)) ->
  sends TOKEN k k 0 (for_each items body).
Proof.
  intros Hbody. eapply sends_weaken; [apply sends_for_each, Hbody | lia].
Qed.

End Traces.

(** Taking a computation of one stage apart. *)
Ltac sending :=
  lazymatch goal with
  | |- sends _ ?k ?k _ (bind _ _) =>
      eapply (sends_bind _ _ _ k k k); [sending | intros ?; sending | apply le_n]
  | |- sends _ _ _ _ (ret _) => apply sends_ret
  | |- sends _ _ _ _ (lift _) => apply sends_lift
  | |- sends _ _ _ _ (emit _) => apply sends_emit
  | |- sends _ _ _ _ (ok _) => apply sends_emit
  | |- sends _ _ _ _ (fail _) => apply sends_emit
  | |- sends _ _ _ _ (header _) => apply sends_emit
  | |- sends _ _ _ _ (print _) => apply sends_emit
  | |- sends _ _ _ _ (exit _) => apply sends_exit
  | |- sends _ _ _ _ now => apply sends_now
  | |- sends _ _ _ _ (if _ then _ else _) => apply sends_if; sending
  | |- sends _ _ _ _ (try_except _ _) => eapply sends_try; [sending | intros ?; sending]
  | |- sends _ _ _ _ (let '(_, _) := ?p in _) => destruct p; sending
  | |- _ => idtac
  end.

Section Stages.

Context {E : environment}.
Variable TOKEN : json.
Hypothesis token_true : truthy TOKEN = true.

Lemma sends_from {A} (m : M E A) (lo lo' hi c : nat) :
  sends TOKEN lo hi c m -> (lo' <= lo)%nat -> sends TOKEN lo' hi c m.
Proof.
  intros Hm Hlo st n Htrace. apply Hm.
  eapply trace_ok_mono; [exact Htrace | exact Hlo | lia].
Qed.

Lemma sends_get (path : string) (k : nat) :
  stage_for stage_table "GET" path = k -> (2 <= k <= 11)%nat ->
  sends TOKEN k k 1 (@api E "GET" [Lit path] None TOKEN).
Proof.
  intros Hstage Hk. apply sends_api; [lia | | exact Hstage].
  unfold request_ok, request_of, stage_of. cbn [url method body authorization].
  rewrite Hstage, token_true.
  destruct (Nat.leb_spec k 1) as [Hle | Hgt]; [lia |].
  split; [eexists; reflexivity |]. split; [lia |]. split; reflexivity.
Qed.

Lemma sends_post (path : string) (d : json) (k : nat) :
  stage_for stage_table "POST" path = k -> (2 <= k <= 11)%nat ->
  is_obj d = true -> truthy d = true ->
  sends TOKEN k k 1 (@api E "POST" [Lit path] (Some d) TOKEN).
Proof.
  intros Hstage Hk Hobj Hd. apply sends_api; [lia | | exact Hstage].
  unfold request_ok, request_of, stage_of. cbn [url method body authorization].
  rewrite Hstage, token_true, Hd.
  destruct (Nat.leb_spec k 1) as [Hle | Hgt]; [lia |].
  split; [eexists; reflexivity |]. split; [lia |]. split; [reflexivity |].
  split; [exact Hobj | left; reflexivity].
Qed.

Lemma sends_patch (pid : json) (new_status : string) :
  sends TOKEN 6 6 1
    (@api E "PATCH" [Lit "/api/v1/plans/"; Shown pid]
       (Some (JObj [("status", JStr new_status)])) TOKEN).
Proof.
  apply sends_api; [lia | | reflexivity].
  unfold request_ok, request_of, stage_of. cbn [url method body authorization].
  rewrite token_true.
  split; [eexists; reflexivity |]. split; [cbn; lia |]. split; [reflexivity |].
  split; [reflexivity | right; reflexivity].
Qed.

Ltac posting :=
  sending;
  try (apply sends_get; [reflexivity | lia]);
  try (apply sends_post; [reflexivity | lia | reflexivity | reflexivity]).

Ltac bounded := eapply sends_weaken; [posting | cbn; lia].
Ltac looping loop := eapply sends_weaken; [posting; loop | cbn; lia].

Lemma create_user_sends (u : user) : sends TOKEN 2 2 1 (create_user (E := E) TOKEN u).
Proof. unfold create_user. bounded. Qed.

Lemma create_users_sends : sends TOKEN 2 2 8 (create_users (E := E) TOKEN).
Proof.
  unfold create_users.
  looping ltac:(apply sends_for_each; exact create_user_sends).
Qed.

Lemma create_machine_sends (m : machine) :
  sends TOKEN 3 3 1 (create_machine (E := E) TOKEN m).
Proof. unfold create_machine. bounded. Qed.

Lemma create_machines_sends : sends TOKEN 3 3 8 (create_machines (E := E) TOKEN).
Proof.
  unfold create_machines.
  looping ltac:(apply sends_for_each; exact create_machine_sends).
Qed.

Lemma verify_shifts_sends : sends TOKEN 4 4 1 (verify_shifts (E := E) TOKEN).
Proof. unfold verify_shifts. bounded. Qed.

Lemma read_machine_map_sends : sends TOKEN 5 5 1 (read_machine_map (E := E) TOKEN).
Proof. unfold read_machine_map. bounded. Qed.

Lemma read_dates_sends : sends TOKEN 5 5 0 (read_dates (E := E)).
Proof. unfold read_dates. bounded. Qed.

Lemma create_plan_sends (plan_ids : gmap nat json) (ip : nat * plan) :
  sends TOKEN 5 5 1 (create_plan (E := E) TOKEN plan_ids ip).
Proof. destruct ip as [i p]. unfold create_plan. bounded. Qed.

Lemma create_plans_sends (l : list plan) :
  sends TOKEN 5 5 (length l) (create_plans (E := E) TOKEN l).
Proof.
  unfold create_plans. eapply sends_weaken.
  - apply sends_for_fold. exact create_plan_sends.
  - unfold enumerate. rewrite length_zip, length_seq. lia.
Qed.

Lemma patch_plan_sends (plan_ids : gmap nat json) (new_status : string) (i : nat) :
  sends TOKEN 6 6 1 (patch_plan (E := E) TOKEN plan_ids new_status i).
Proof.
  unfold patch_plan. cbv zeta. eapply sends_weaken.
  - apply sends_if; [| apply sends_ret].
    eapply (sends_bind _ _ _ 6 6 6); [apply sends_patch | intros _; apply sends_ret | lia].
  - cbn. lia.
Qed.

Lemma set_plan_statuses_sends (plan_ids : gmap nat json) :
  sends TOKEN 6 6 12 (set_plan_statuses (E := E) TOKEN plan_ids).
Proof.
  unfold set_plan_statuses.
  looping ltac:(apply sends_for_each; intros i; apply patch_plan_sends).
Qed.

Lemma post_log_sends (counts : Z * Z) (log : production_log) :
  sends TOKEN 7 7 1 (post_log (E := E) TOKEN counts log).
Proof. destruct counts as [s f]. unfold post_log. bounded. Qed.

Lemma log_production_sends (logs : list production_log) :
  sends TOKEN 7 7 (length logs) (log_production (E := E) TOKEN logs).
Proof.
  unfold log_production, post_logs.
  looping ltac:(apply sends_for_fold; exact post_log_sends).
Qed.

Lemma read_downtime_events_length (machine_map : gmap string json)
    (st : state E) (events : list downtime_event) (st' : state E) :
  read_downtime_events machine_map st = (Ret events, st') -> length events = 4%nat.
Proof.
  unfold read_downtime_events. unfold bind at 1. unfold now.
  destruct (clock E (world st)) as [t w].
  repeat (rewrite bind_lift; destruct (minus _ _ _ _); [| discriminate]).
  intros [= <- _]. reflexivity.
Qed.

Lemma read_downtime_events_sends (machine_map : gmap string json) :
  sends TOKEN 8 8 0 (read_downtime_events (E := E) machine_map).
Proof. unfold read_downtime_events. bounded. Qed.

Lemma post_downtime_sends (dt : downtime_event) :
  sends TOKEN 8 8 1 (post_downtime (E := E) TOKEN dt).
Proof.
  unfold post_downtime. bounded.
Qed.

Lemma log_downtime_sends (machine_map : gmap string json) :
  sends TOKEN 8 8 4 (log_downtime (E := E) TOKEN machine_map).
Proof.
  unfold log_downtime.
  apply (sends_bind _ _ _ 8 8 8 0 4); [apply sends_emit | intros _ | lia].
  apply (sends_bind_where _ (fun events => length events = 4%nat) _ _ 8 8 8 0 4);
    [apply read_downtime_events_length | apply read_downtime_events_sends | | lia].
  intros events Hlen. eapply sends_weaken.
  - apply sends_for_each. exact post_downtime_sends.
  - rewrite Hlen. lia.
Qed.

Lemma dashboard_row_sends (d : json) (row : string * string * string) :
  sends TOKEN 9 9 0 (dashboard_row (E := E) d row).
Proof. destruct row as [[label key] suffix]. unfold dashboard_row. bounded. Qed.

Lemma verify_dashboard_sends : sends TOKEN 9 9 1 (verify_dashboard (E := E) TOKEN).
Proof.
  unfold verify_dashboard.
  looping ltac:(apply sends_for_each_quiet; intros row; apply dashboard_row_sends).
Qed.

Lemma verify_reports_sends : sends TOKEN 10 10 3 (verify_reports (E := E) TOKEN).
Proof. unfold verify_reports, count_entries. bounded. Qed.

Lemma feature_row_sends (f : json) : sends TOKEN 11 11 0 (feature_row (E := E) f).
Proof. unfold feature_row. bounded. Qed.

Lemma feature_flags_sends : sends TOKEN 11 11 1 (feature_flags (E := E) TOKEN).
Proof.
  unfold feature_flags.
  looping ltac:(apply sends_for_each_quiet; exact feature_row_sends).
Qed.

Lemma farewell_sends : sends TOKEN 11 11 0 (farewell (E := E)).
Proof. unfold farewell. bounded. Qed.

(** Everything after the login: at most 81 requests, stage after stage. *)
Lemma seed_sends :
  sends TOKEN 1 11 81
    (create_users (E := E) TOKEN ;;
     create_machines TOKEN ;;
     verify_shifts TOKEN ;;
     header [Lit "5. CREATE PRODUCTION PLANS"] ;;
     machine_map <- read_machine_map TOKEN ;;
     dates <- read_dates ;;
     plan_ids <- create_plans TOKEN (plans machine_map dates) ;;
     set_plan_statuses TOKEN plan_ids ;;
     log_production TOKEN (production_logs plan_ids machine_map) ;;
     log_downtime TOKEN machine_map ;;
     verify_dashboard TOKEN ;;
     verify_reports TOKEN ;;
     feature_flags TOKEN ;;
     farewell).
Proof.
  apply (sends_bind _ _ _ 1 2 11 8 73);
    [apply (sends_from _ 2); [apply create_users_sends | lia] | intros _ | lia].
  apply (sends_bind _ _ _ 2 3 11 8 65);
    [apply (sends_from _ 3); [apply create_machines_sends | lia] | intros _ | lia].
  apply (sends_bind _ _ _ 3 4 11 1 64);
    [apply (sends_from _ 4); [apply verify_shifts_sends | lia] | intros _ | lia].
  apply (sends_bind _ _ _ 4 5 11 0 64);
    [apply (sends_from _ 5); [apply sends_emit | lia] | intros _ | lia].
  apply (sends_bind _ _ _ 5 5 11 1 63); [apply read_machine_map_sends | intros machine_map | lia].
  apply (sends_bind _ _ _ 5 5 11 0 63); [apply read_dates_sends | intros dates | lia].
  apply (sends_bind _ _ _ 5 5 11 14 49);
    [apply (create_plans_sends (plans machine_map dates)) | intros plan_ids | lia].
  apply (sends_bind _ _ _ 5 6 11 12 37);
    [apply (sends_from _ 6); [apply set_plan_statuses_sends | lia] | intros _ | lia].
  apply (sends_bind _ _ _ 6 7 11 28 9);
    [apply (sends_from _ 7);
       [apply (log_production_sends (production_logs plan_ids machine_map)) | lia]
    | intros _ | lia].
  apply (sends_bind _ _ _ 7 8 11 4 5);
    [apply (sends_from _ 8); [apply log_downtime_sends | lia] | intros _ | lia].
  apply (sends_bind _ _ _ 8 9 11 1 4);
    [apply (sends_from _ 9); [apply verify_dashboard_sends | lia] | intros _ | lia].
  apply (sends_bind _ _ _ 9 10 11 3 1);
    [apply (sends_from _ 10); [apply verify_reports_sends | lia] | intros _ | lia].
  apply (sends_bind _ _ _ 10 11 11 1 0);
    [apply (sends_from _ 11); [apply feature_flags_sends | lia] | intros _ | lia].
  apply farewell_sends.
Qed.

End Stages.

Section Runs.

Context {E : environment}.

Lemma health_check_sends (TOKEN : json) : sends TOKEN 0 0 1 (health_check (E := E)).
Proof.
  unfold health_check. eapply sends_weaken.
  - sending. apply sends_api; [lia | | reflexivity].
    split; [eexists; reflexivity |]. split; [cbn; lia |]. split; reflexivity.
  - cbn. lia.
Qed.

Lemma login_sends (TOKEN : json) : sends TOKEN 0 1 1 (login (E := E)).
Proof.
  apply (sends_from _ _ 1); [| lia]. unfold login. eapply sends_weaken.
  - sending. apply sends_api; [lia | | reflexivity].
    split; [eexists; reflexivity |]. split; [cbn; lia |]. split; [reflexivity |].
    split; [reflexivity | left; reflexivity].
  - cbn. lia.
Qed.

(** A login that returns, returns the token of the reply. *)
Lemma login_returns (st st' : state E) (TOKEN : json) :
  login st = (Ret TOKEN, st') ->
  exists login_resp,
    reply st login_request = Val login_resp /\
    get login_resp "token" JNull = Val TOKEN /\ truthy TOKEN = true.
Proof.
  rewrite login_eq. cbv zeta.
  destruct (reply st login_request) as [login_resp | e]; [| discriminate].
  destruct (get login_resp "token" JNull) as [token | e] eqn:Hget; [| discriminate].
  destruct (truthy token) eqn:Htrue; [| discriminate].
  destruct (len token); [| discriminate].
  intros [= <- _]. exists login_resp. repeat split; assumption.
Qed.

(** The trace of a whole run, however it ends.  The token is the one the
    login returned: without it nothing follows the login. *)
Lemma run_trace (w : World E) :
  exists TOKEN,
    trace_ok TOKEN 11 83 (sent (snd (run (start w)))) /\
    exit_ok (fst (run (start w))) /\
    ((2 < length (sent (snd (run (start w)))))%nat ->
     exists login_resp,
       reply (snd (health_check (start w))) login_request = Val login_resp /\
       get login_resp "token" JNull = Val TOKEN /\ truthy TOKEN = true).
Proof.
  assert (Hnil : forall TOKEN, trace_ok TOKEN 0 0 (sent (start w))).
  { intros TOKEN. repeat split; try constructor. }
  assert (Hhealth : forall TOKEN,
            trace_ok TOKEN 0 1 (sent (snd (health_check (start w)))) /\
            exit_ok (fst (health_check (start w)))).
  { intros TOKEN.
    destruct (health_check_sends TOKEN (start w) 0%nat (Hnil TOKEN)) as (H1 & Hexit & _).
    split; assumption. }
  remember (run (start w)) as r eqn:Hr. unfold run in Hr. unfold bind at 1 in Hr.
  destruct (health_check (start w)) as [[[] | code | e] st1].
  - assert (Hlogin : forall TOKEN,
              trace_ok TOKEN 1 2 (sent (snd (login st1))) /\ exit_ok (fst (login st1))).
    { intros TOKEN.
      destruct (login_sends TOKEN st1 1%nat (proj1 (Hhealth TOKEN))) as (H2 & Hexit & _).
      split; assumption. }
    unfold bind at 1 in Hr.
    destruct (login st1) as [[tok | code | e] st2] eqn:Htok.
    + exists tok. subst r.
      destruct (seed_sends tok (login_token _ _ _ Htok) st2 2%nat (proj1 (Hlogin tok)))
        as (Htrace & Hexit & _).
      split; [exact Htrace |]. split; [exact Hexit |].
      intros _. exact (login_returns _ _ _ Htok).
    + exists JNull. subst r. destruct (Hlogin JNull) as [H2 Hexit].
      split; [eapply trace_ok_mono; [exact H2 | lia | lia] |]. split; [exact Hexit |].
      destruct H2 as (_ & _ & _ & Hlen). simpl in *. lia.
    + exists JNull. subst r. destruct (Hlogin JNull) as [H2 _].
      split; [eapply trace_ok_mono; [exact H2 | lia | lia] |]. split; [exact I |].
      destruct H2 as (_ & _ & _ & Hlen). simpl in *. lia.
  - exists JNull. subst r. destruct (Hhealth JNull) as [H1 Hexit].
    split; [eapply trace_ok_mono; [exact H1 | lia | lia] |]. split; [exact Hexit |].
    destruct H1 as (_ & _ & _ & Hlen). simpl in *. lia.
  - exists JNull. subst r. destruct (Hhealth JNull) as [H1 _].
    split; [eapply trace_ok_mono; [exact H1 | lia | lia] |]. split; [exact I |].
    destruct H1 as (_ & _ & _ & Hlen). simpl in *. lia.
Qed.

End Runs.

(** X1. The requests of a run go out in the order of the stages, whatever
    the server answers and however the run ends: no request of an earlier
    stage follows one of a later stage, and every request is to one of the
    endpoints of the stages 0 to 11. *)
Theorem requests_in_stage_order {E : environment} (w : World E) :
  let trace := sent (snd (@run E (start w))) in
  ascending (map stage_of trace) /\
  Forall (fun req => (stage_of req <= 11)%nat) trace.
Proof.
  cbv zeta. destruct (run_trace w) as (TOKEN & (_ & Hasc & Hk & _) & _ & _).
  split; assumption.
Qed.

(** X2. One token for the whole run: the health check and the login go out
    without Authorization header, and every later request carries the same
    header, made of one token; when a request follows the login, that token
    is the value of ["token"] in the reply to the login, and it is true.
    Every request is addressed to [BASE]; a request without body is a GET,
    and a body is a JSON object sent by POST or PATCH. *)
Theorem one_token_for_all_requests {E : environment} (w : World E) :
  let trace := sent (snd (@run E (start w))) in
  exists TOKEN,
    Forall (request_ok TOKEN) trace /\
    ((2 < length trace)%nat ->
     exists login_resp,
       reply (snd (@health_check E (start w))) login_request = Val login_resp /\
       get login_resp "token" JNull = Val TOKEN /\ truthy TOKEN = true).
Proof.
  cbv zeta. destruct (run_trace w) as (TOKEN & (Hok & _) & _ & Htoken).
  exists TOKEN. split; assumption.
Qed.

(** X3. A run hands at most 83 requests to the server, whatever the server
    answers. *)
Theorem at_most_83_requests {E : environment} (w : World E) :
  (length (sent (snd (@run E (start w)))) <= 83)%nat.
Proof.
  destruct (run_trace w) as (TOKEN & (_ & _ & _ & Hlen) & _ & _). exact Hlen.
Qed.

(** X4. The exit status of the process is 0 or 1, and it is 0 only for a
    run that reached its last line. *)
Theorem exit_status_0_or_1 {E : environment} (w : World E) :
  (exit_status (fst (@run E (start w))) = 0 /\
   exists st, @run E (start w) = (Ret tt, st)) \/
  exit_status (fst (@run E (start w))) = 1.
Proof.
  destruct (run_trace w) as (TOKEN & _ & Hexit & _).
  destruct (run (start w)) as [[[] | code | e] st]; simpl in *.
  - left. split; [reflexivity | exists st; reflexivity].
  - right. exact Hexit.
  - right. reflexivity.
Qed.

(** ** The requests of a run that reaches the end *)

Section Posts.

Context {E : environment}.

Lemma quiet_ret {A} (a : A) : quiet (@ret E A a).
Proof. intros st. reflexivity. Qed.

Lemma quiet_lift {A} (r : res A) : quiet (@lift E A r).
Proof. intros st. rewrite lift_eq. reflexivity. Qed.

Lemma quiet_emit (l : line) : quiet (@emit E l).
Proof. intros st. reflexivity. Qed.

Lemma quiet_exit {A} (code : Z) : quiet (@exit E A code).
Proof. intros st. reflexivity. Qed.

Lemma quiet_now : quiet (@now E).
Proof. intros st. unfold now. destruct (clock E (world st)). reflexivity. Qed.

Lemma quiet_bind {A B} (m : M E A) (f : A -> M E B) :
  quiet m -> (forall a, quiet (f a)) -> quiet (bind m f).
Proof.
  intros Hm Hf st. specialize (Hm st). unfold bind.
  destruct (m st) as [[a | code | e] st1]; simpl in *; [| exact Hm | exact Hm].
  rewrite Hf. exact Hm.
Qed.

Lemma quiet_if {A} (b : bool) (m1 m2 : M E A) :
  quiet m1 -> quiet m2 -> quiet (if b then m1 else m2).
Proof. destruct b; intros; assumption. Qed.

Lemma quiet_for_each {A} (items : list A) (body : A -> M E unit) :
  (forall x, quiet (body x)) -> quiet (for_each items body).
Proof.
  intros Hbody. induction items as [| x items IH]; simpl for_each.
  - apply quiet_ret.
  - apply quiet_bind; [apply Hbody | intros _; exact IH].
Qed.

Lemma posts_quiet {A} (m : M E A) : quiet m -> posts m [].
Proof.
  intros Hm st a st' Hrun. specialize (Hm st). rewrite Hrun in Hm.
  rewrite app_nil_r. exact Hm.
Qed.

Lemma posts_api method path data token :
  posts (@api E method path data token) [request_of method path data token].
Proof.
  intros st a st'. rewrite api_eq. cbv zeta. intros [= _ <-]. reflexivity.
Qed.

(** What returned came from a step that returned. *)
Lemma bind_returned {A B} (m : M E A) (f : A -> M E B) (st st' : state E) (b : B) :
  bind m f st = (Ret b, st') ->
  exists a st1, m st = (Ret a, st1) /\ f a st1 = (Ret b, st').
Proof.
  unfold bind. destruct (m st) as [[a | code | e] st1]; try discriminate.
  intros Hf. exists a, st1. split; [reflexivity | exact Hf].
Qed.

Lemma posts_bind {A B} (m : M E A) (f : A -> M E B) (l1 l2 : list request) :
  posts m l1 -> (forall a, posts (f a) l2) -> posts (bind m f) (l1 ++ l2).
Proof.
  intros Hm Hf st b st' Hrun.
  destruct (bind_returned _ _ _ _ _ Hrun) as (a & st1 & Hm1 & Hf1).
  rewrite (Hf a _ _ _ Hf1), (Hm _ _ _ Hm1), app_assoc. reflexivity.
Qed.

Lemma posts_eq {A} (m : M E A) (l l' : list request) :
  posts m l -> l = l' -> posts m l'.
Proof. intros Hm <-. exact Hm. Qed.

Lemma posts_for_each {A} (items : list A) (body : A -> M E unit)
    (requests : A -> list request) :
  (forall x, posts (body x) (requests x)) ->
  posts (for_each items body) (flat_map requests items).
Proof.
  intros Hbody. induction items as [| x items IH]; simpl for_each.
  - apply posts_quiet, quiet_ret.
  - apply posts_bind; [apply Hbody | intros _; exact IH].
Qed.

Lemma posts_for_fold {A V} (items : list A) (body : V -> A -> M E V) (vars : V)
    (requests : A -> list request) :
  (forall v x, posts (body v x) (requests x)) ->
  posts (for_fold items vars body) (flat_map requests items).
Proof.
  intros Hbody. revert vars. induction items as [| x items IH]; intros vars; simpl for_fold.
  - apply posts_quiet, quiet_ret.
  - apply posts_bind; [apply Hbody | intros v; apply IH].
Qed.

Lemma flat_map_one {A B} (f : A -> B) (items : list A) :
  flat_map (fun x => [f x]) items = map f items.
Proof. induction items as [| x items IH]; simpl; [reflexivity | now rewrite IH]. Qed.

End Posts.

Ltac hush :=
  lazymatch goal with
  | |- quiet (bind _ _) => apply quiet_bind; [hush | intros ?; hush]
  | |- quiet (ret _) => apply quiet_ret
  | |- quiet (lift _) => apply quiet_lift
  | |- quiet (emit _) => apply quiet_emit
  | |- quiet (ok _) => apply quiet_emit
  | |- quiet (fail _) => apply quiet_emit
  | |- quiet (header _) => apply quiet_emit
  | |- quiet (print _) => apply quiet_emit
  | |- quiet (exit _) => apply quiet_exit
  | |- quiet now => apply quiet_now
  | |- quiet (if _ then _ else _) => apply quiet_if; hush
  | |- _ => idtac
  end.

Ltac posted :=
  lazymatch goal with
  | |- posts (api _ _ _ _) _ => apply posts_api
  | |- posts (bind _ _) _ => eapply posts_bind; [posted | intros ?; posted]
  | |- posts (for_each _ _) _ => idtac
  | |- posts (for_fold _ _ _) _ => idtac
  | |- posts _ _ => apply posts_quiet; hush
  end.

Section Seeding.

Context {E : environment}.
Variable TOKEN : json.

Ltac listed_as := eapply posts_eq; [posted | reflexivity].

Lemma create_user_posts (u : user) :
  posts (create_user (E := E) TOKEN u) [user_request TOKEN u].
Proof. unfold create_user. listed_as. Qed.

Lemma create_users_posts :
  posts (create_users (E := E) TOKEN) (map (user_request TOKEN) users).
Proof.
  unfold create_users. eapply posts_eq.
  - posted. apply posts_for_each. exact create_user_posts.
  - reflexivity.
Qed.

Lemma create_machine_posts (m : machine) :
  posts (create_machine (E := E) TOKEN m) [machine_request TOKEN m].
Proof. unfold create_machine. listed_as. Qed.

Lemma create_machines_posts :
  posts (create_machines (E := E) TOKEN) (map (machine_request TOKEN) machines).
Proof.
  unfold create_machines. eapply posts_eq.
  - posted. apply posts_for_each. exact create_machine_posts.
  - reflexivity.
Qed.

Lemma verify_shifts_posts :
  posts (verify_shifts (E := E) TOKEN) [fetch_request TOKEN "/api/v1/shifts"].
Proof. unfold verify_shifts. listed_as. Qed.

Lemma read_machine_map_posts :
  posts (read_machine_map (E := E) TOKEN) [listing_request TOKEN].
Proof. unfold read_machine_map. listed_as. Qed.

Lemma read_dates_quiet : quiet (read_dates (E := E)).
Proof. unfold read_dates. hush. Qed.

Lemma create_plan_posts (plan_ids : gmap nat json) (ip : nat * plan) :
  posts (create_plan (E := E) TOKEN plan_ids ip) [plan_request TOKEN (snd ip)].
Proof. destruct ip as [i p]. unfold create_plan. listed_as. Qed.

Lemma create_plans_posts (l : list plan) :
  posts (create_plans (E := E) TOKEN l) (map (plan_request TOKEN) l).
Proof.
  unfold create_plans. eapply posts_eq.
  - apply posts_for_fold. exact create_plan_posts.
  - rewrite (flat_map_one (fun ip => plan_request TOKEN (snd ip))).
    rewrite <- (map_map snd (plan_request TOKEN)). unfold enumerate.
    rewrite snd_zip; [reflexivity |]. rewrite length_seq. lia.
Qed.

Lemma patch_plan_posts (plan_ids : gmap nat json) (new_status : string) (i : nat) :
  posts (patch_plan (E := E) TOKEN plan_ids new_status i)
    (patches_for TOKEN plan_ids new_status [i]).
Proof.
  unfold patch_plan, patches_for. cbv zeta. simpl flat_map. rewrite app_nil_r.
  destruct (truthy (plan_ids_get plan_ids i)).
  - listed_as.
  - apply posts_quiet, quiet_ret.
Qed.

Lemma patch_loop_posts (plan_ids : gmap nat json) (new_status : string)
    (indices : list nat) :
  posts (for_each indices (patch_plan (E := E) TOKEN plan_ids new_status))
    (patches_for TOKEN plan_ids new_status indices).
Proof.
  eapply posts_eq.
  - apply posts_for_each. apply patch_plan_posts.
  - unfold patches_for. apply flat_map_ext. intros i. simpl. apply app_nil_r.
Qed.

Lemma set_plan_statuses_posts (plan_ids : gmap nat json) :
  posts (set_plan_statuses (E := E) TOKEN plan_ids)
    (patches_for TOKEN plan_ids "IN_PROGRESS" (seq 0 7)
     ++ patches_for TOKEN plan_ids "COMPLETED" (seq 9 5)).
Proof.
  unfold set_plan_statuses. eapply posts_eq.
  - posted; apply patch_loop_posts.
  - cbn [app]. rewrite app_nil_r. reflexivity.
Qed.

Lemma post_log_posts (counts : Z * Z) (log : production_log) :
  posts (post_log (E := E) TOKEN counts log) [log_request TOKEN log].
Proof. destruct counts as [s f]. unfold post_log. listed_as. Qed.

Lemma log_production_posts (logs : list production_log) :
  posts (log_production (E := E) TOKEN logs) (map (log_request TOKEN) logs).
Proof.
  unfold log_production, post_logs. eapply posts_eq.
  - posted. apply posts_for_fold. exact post_log_posts.
  - simpl. rewrite app_nil_r. apply flat_map_one.
Qed.

Lemma post_downtime_posts (dt : downtime_event) :
  posts (post_downtime (E := E) TOKEN dt) [downtime_request TOKEN dt].
Proof. unfold post_downtime. listed_as. Qed.

Lemma read_downtime_events_quiet (machine_map : gmap string json) :
  quiet (read_downtime_events (E := E) machine_map).
Proof. unfold read_downtime_events. hush. Qed.

Lemma log_downtime_posts (machine_map : gmap string json) (st st' : state E) :
  log_downtime TOKEN machine_map st = (Ret tt, st') ->
  exists events,
    length events = 4%nat /\
    sent st' = sent st ++ map (downtime_request TOKEN) events.
Proof.
  unfold log_downtime. intros Hrun.
  apply bind_returned in Hrun as ([] & st1 & Hheader & Hrun).
  apply bind_returned in Hrun as (events & st2 & Hevents & Hrun).
  exists events. split; [exact (read_downtime_events_length _ _ _ _ Hevents) |].
  rewrite (posts_for_each _ _ _ post_downtime_posts _ _ _ Hrun), flat_map_one.
  pose proof (read_downtime_events_quiet machine_map st1) as Hquiet.
  rewrite Hevents in Hquiet. simpl in Hquiet. rewrite Hquiet.
  injection Hheader as <-. reflexivity.
Qed.

Lemma dashboard_row_quiet (d : json) (row : string * string * string) :
  quiet (dashboard_row (E := E) d row).
Proof. destruct row as [[label key] suffix]. unfold dashboard_row. hush. Qed.

Lemma verify_dashboard_posts :
  posts (verify_dashboard (E := E) TOKEN) [fetch_request TOKEN "/api/v1/dashboard"].
Proof.
  unfold verify_dashboard. eapply posts_eq.
  - posted. apply posts_quiet, quiet_for_each, dashboard_row_quiet.
  - reflexivity.
Qed.

Lemma verify_reports_posts :
  posts (verify_reports (E := E) TOKEN)
    (map (fetch_request TOKEN)
       ["/api/v1/reports/daily"; "/api/v1/downtime"; "/api/v1/auth/users"]).
Proof. unfold verify_reports, count_entries. listed_as. Qed.

Lemma feature_row_quiet (f : json) : quiet (feature_row (E := E) f).
Proof. unfold feature_row. hush. Qed.

Lemma feature_flags_posts :
  posts (feature_flags (E := E) TOKEN) [fetch_request TOKEN "/api/v1/admin/features"].
Proof.
  unfold feature_flags. eapply posts_eq.
  - posted. apply posts_quiet, quiet_for_each, feature_row_quiet.
  - reflexivity.
Qed.

Lemma farewell_quiet : quiet (farewell (E := E)).
Proof. unfold farewell. hush. Qed.

End Seeding.


(** ** The health check *)

Section Health.

Context {E : environment}.

Lemma health_check_unhealthy (w : World E) :
  healthy w = false ->
  exists st msg,
    health_check (start w) = (Exit 1, st) /\
    sent st = [health_request] /\
    last (console st) = Some (Fail_line msg).
Proof.
  unfold healthy, success_of, health_check, header, ok, fail.
  rewrite bind_emit. unfold try_except. rewrite bind_api. fold health_request.
  rewrite reply_after_line.
  destruct (reply (start w) health_request) as [health | e].
  - rewrite bind_lift.
    destruct (get health "success" JNull) as [success | e].
    + intros ->. eexists _, _. repeat split; reflexivity.
    + intros _. eexists _, _. repeat split; reflexivity.
  - intros _. eexists _, _. repeat split; reflexivity.
Qed.

Lemma health_check_healthy (w : World E) :
  healthy w = true ->
  exists st, health_check (start w) = (Ret tt, st) /\ sent st = [health_request].
Proof.
  unfold healthy, success_of, health_check, header, ok, fail.
  rewrite bind_emit. unfold try_except. rewrite bind_api. fold health_request.
  rewrite reply_after_line.
  destruct (reply (start w) health_request) as [health | e]; [| discriminate].
  rewrite bind_lift.
  destruct (get health "success" JNull) as [success | e] eqn:Hget; [| discriminate].
  intros ->. rewrite bind_lift.
  destruct health as [| | | | | members]; try discriminate Hget.
  eexists. split; reflexivity.
Qed.

(** What follows a health check that passed. *)
Lemma run_after_health (w : World E) (st1 : state E) :
  health_check (start w) = (Ret tt, st1) ->
  sent st1 = [health_request] ->
  exists rest, sent (snd (run (start w))) = health_request :: login_request :: rest.
Proof.
  intros Hhealth Hsent. unfold run. unfold bind at 1. rewrite Hhealth.
  assert (Htrace : forall TOKEN, trace_ok TOKEN 1 2 (sent (snd (login st1)))).
  { intros TOKEN. apply (login_sends TOKEN st1 1%nat). rewrite Hsent.
    apply (trace_ok_snoc TOKEN 0 0 0 [] health_request);
      [repeat split; constructor | lia | | reflexivity].
    split; [eexists; reflexivity |]. split; [cbn; lia |]. split; reflexivity. }
  pose proof (login_sent st1) as Hlogin. rewrite Hsent in Hlogin.
  unfold bind at 1. destruct (login st1) as [[tok | code | e] st2] eqn:Htok.
  - destruct (seed_sends tok (login_token _ _ _ Htok) st2 2%nat (Htrace tok))
      as (_ & _ & more & ->).
    exists more. simpl in Hlogin. rewrite Hlogin. reflexivity.
  - exists []. exact Hlogin.
  - exists []. exact Hlogin.
Qed.

End Health.

(** X6. The health check decides whether anything else is sent.  When the
    gateway cannot be reached, or its reply does not report success, the
    run ends with [sys.exit(1)] after the one health request, below a
    failure line; otherwise the next request is the login. *)
Theorem health_check_decides {E : environment} (w : World E) :
  (healthy w = false /\
   exists st msg,
     @run E (start w) = (Exit 1, st) /\
     sent st = [health_request] /\
     last (console st) = Some (Fail_line msg)) \/
  (healthy w = true /\
   exists rest, sent (snd (@run E (start w))) = health_request :: login_request :: rest).
Proof.
  destruct (healthy w) eqn:Hhealthy.
  - right. split; [reflexivity |].
    destruct (health_check_healthy w Hhealthy) as (st1 & Hhealth & Hsent).
    exact (run_after_health w st1 Hhealth Hsent).
  - left. split; [reflexivity |].
    destruct (health_check_unhealthy w Hhealthy) as (st & msg & Hhealth & Hsent & Hlast).
    exists st, msg. split; [| split; assumption].
    unfold run. unfold bind at 1. rewrite Hhealth. reflexivity.
Qed.

(** ** What a step needs of a reply to return *)

(** X7. The login returns a token exactly when the reply to the login
    request is an object whose ["token"] is true and has a length: a string
    that is not empty, or a list or an object that is not empty.  A token
    that is a number makes [len(TOKEN)] raise, and the run ends before any
    record is created. *)
Theorem login_needs_a_sized_token {E : environment} (st : state E) (TOKEN : json) :
  (exists st', @login E st = (Ret TOKEN, st')) <->
  (exists login_resp,
     reply st login_request = Val login_resp /\
     get login_resp "token" JNull = Val TOKEN /\
     truthy TOKEN = true /\ sized TOKEN = true).
Proof.
  rewrite login_eq. cbv zeta. split.
  - intros [st' Hrun].
    destruct (reply st login_request) as [login_resp | e]; [| discriminate].
    destruct (get login_resp "token" JNull) as [token | e] eqn:Hget; [| discriminate].
    destruct (truthy token) eqn:Htrue; [| discriminate].
    destruct (len token) as [n | e] eqn:Hlen; [| discriminate].
    injection Hrun as <- _. exists login_resp. repeat split; try assumption.
    destruct token; try discriminate Hlen; reflexivity.
  - intros (login_resp & -> & -> & -> & Hsized).
    destruct (sized_len TOKEN Hsized) as [n ->]. eexists. reflexivity.
Qed.

(** X8. The machine map is built exactly when every entry of the listing
    can be read: it has a ["machine_id"] and a ["machine_code"] that can be
    a dictionary key.  Any other entry raises, and nothing catches it. *)
Theorem machine_map_needs_listable (listing : list json) (machine_map : gmap string json) :
  (exists machine_map', machine_map_of listing machine_map = Val machine_map') <->
  forallb listable listing = true.
Proof.
  revert machine_map. induction listing as [| m rest IH]; intros machine_map; simpl.
  - split; [reflexivity | intros _; eexists; reflexivity].
  - unfold machine_map_set, listable.
    destruct (subscript m "machine_id") as [id | e].
    + destruct (subscript m "machine_code") as [[| | | code | |] | e]; simpl;
        try apply IH; split; try discriminate; intros [? ?]; discriminate.
    + simpl. split; [intros [? ?] |]; discriminate.
Qed.

(** X9. A row of the feature table is printed exactly when the feature has
    an ["id"], an ["api"] and a ["ui"] that are strings: the format
    specifications [:12s] and [:8s] reject a missing value, a number and a
    boolean, and the exception ends the run. *)
Theorem feature_row_needs_strings {E : environment} (f : json) (st : state E) :
  (exists st', @feature_row E f st = (Ret tt, st')) <-> feature_ok f = true.
Proof.
  unfold feature_row, feature_ok, print, format_s.
  destruct f as [| | | | | members];
    try (rewrite bind_lift; split; [intros [? ?] |]; discriminate).
  unfold get, subscript.
  destruct (members_get members "api") as [[| | | api_v | |] |];
    destruct (members_get members "id") as [[| | | id | |] |];
    destruct (members_get members "ui") as [[| | | ui_v | |] |];
    cbn [from_option];
    repeat (rewrite bind_lift; cbv beta iota);
    (split; [first [reflexivity | intros [? ?]; discriminate]
            | first [intros _; eexists; reflexivity | discriminate]]).
Qed.

(** ** What the steps report *)

Section Reports.

Context {E : environment}.
Variable TOKEN : json.

Lemma patch_plan_console (plan_ids : gmap nat json) (new_status : string) (i : nat)
    (st : state E) :
  console (snd (patch_plan TOKEN plan_ids new_status i st)) = console st.
Proof.
  unfold patch_plan. cbv zeta.
  destruct (truthy (plan_ids_get plan_ids i)); [| reflexivity].
  rewrite bind_api. destruct (reply st _); reflexivity.
Qed.

Lemma patch_loop_console (plan_ids : gmap nat json) (new_status : string)
    (indices : list nat) (st : state E) :
  console (snd (for_each indices (patch_plan TOKEN plan_ids new_status) st)) = console st.
Proof.
  revert st. induction indices as [| i indices IH]; intros st; simpl for_each.
  - reflexivity.
  - unfold bind. pose proof (patch_plan_console plan_ids new_status i st) as Hi.
    destruct (patch_plan TOKEN plan_ids new_status i st) as [[[] | code | e] st1];
      simpl in *; [rewrite IH | |]; exact Hi.
Qed.



Lemma bind_assoc {A B C} (m : M E A) (f : A -> M E B) (g : B -> M E C) (st : state E) :
  bind (bind m f) g st = bind m (fun a => bind (f a) g) st.
Proof. unfold bind. destruct (m st) as [[a | code | e] st1]; reflexivity. Qed.

End Reports.



(** X10. The status step never reports a failure: when it returns it has
    printed its header and the same two success lines, whatever the server
    answered to the patches and even when no patch was sent. *)
Theorem status_step_reports_success {E : environment} (TOKEN : json)
    (plan_ids : gmap nat json) (st st' : state E) :
  @set_plan_statuses E TOKEN plan_ids st = (Ret tt, st') ->
  console st' =
    console st ++
      [Header_line [Lit "6. SET PLAN STATUSES"];
       Ok_line [Lit "Plans 1-7 (today morning) → IN_PROGRESS"];
       Ok_line [Lit "Plans 10-14 (yesterday + 2 days ago) → COMPLETED"]].
Proof.
  unfold set_plan_statuses, header, ok. rewrite bind_emit. intros Hrun.
  apply bind_returned in Hrun as ([] & st1 & H1 & Hrun). rewrite bind_emit in Hrun.
  apply bind_returned in Hrun as ([] & st2 & H2 & Hrun). injection Hrun as <-.
  pose proof (patch_loop_console TOKEN plan_ids "COMPLETED" (seq 9 5)
                (after_line st1 (Ok_line [Lit "Plans 1-7 (today morning) → IN_PROGRESS"])))
    as Hsecond.
  rewrite H2 in Hsecond.
  pose proof (patch_loop_console TOKEN plan_ids "IN_PROGRESS" (seq 0 7)
                (after_line st (Header_line [Lit "6. SET PLAN STATUSES"]))) as Hfirst.
  rewrite H1 in Hfirst. simpl in *. rewrite Hsecond, Hfirst, <- !app_assoc. reflexivity.
Qed.

(** X10 on the server that answers 503 to everything, with one plan
    collected: the patch fails and both ranges are reported as set. *)
Lemma status_step_reports_success_witness :
  console (snd (@set_plan_statuses down (JStr "secret") (<[0%nat := JInt 101]> ∅)
                  (@start down boot))) =
    console (@start down boot) ++
      [Header_line [Lit "6. SET PLAN STATUSES"];
       Ok_line [Lit "Plans 1-7 (today morning) → IN_PROGRESS"];
       Ok_line [Lit "Plans 10-14 (yesterday + 2 days ago) → COMPLETED"]].
Proof.
  apply (@status_step_reports_success down (JStr "secret") (<[0%nat := JInt 101]> ∅)
           (@start down boot)).
  vm_compute. reflexivity.
Defined.







(** ** The plan identifiers and the plan lines *)

Section Plans.

Context {E : environment}.
Variable TOKEN : json.

(** One turn of the loop prints one line, and collects the identifier the
    line shows when it is an ok line. *)
Lemma create_plan_line (plan_ids plan_ids' : gmap nat json) (i : nat) (p : plan)
    (st st' : state E) :
  create_plan TOKEN plan_ids (i, p) st = (Ret plan_ids', st') ->
  exists line,
    console st' = console st ++ [line] /\
    plan_ids' = match plan_created line with
                | Some pid => <[i := pid]> plan_ids
                | None => plan_ids
                end.
Proof.
  unfold create_plan, ok, fail. rewrite bind_api.
  destruct (reply st _) as [resp | e]; [| discriminate].
  rewrite bind_lift. destruct (get resp "success" JNull) as [success | e]; [| discriminate].
  destruct (truthy success).
  - rewrite bind_lift. destruct (get resp "plan" (JObj [])) as [plan_obj | e]; [| discriminate].
    rewrite bind_lift.
    destruct (get plan_obj "plan_id" (JInt (Z.of_nat i + 1))) as [pid | e]; [| discriminate].
    rewrite bind_emit. intros [= <- <-]. eexists. split; reflexivity.
  - rewrite bind_lift. destruct (get resp "error" resp) as [error | e]; [| discriminate].
    rewrite bind_emit. intros [= <- <-]. eexists. split; reflexivity.
Qed.

Lemma create_plans_lines (l : list plan) (k : nat) (plan_ids plan_ids' : gmap nat json)
    (st st' : state E) :
  (forall i, (k <= i)%nat -> plan_ids !! i = None) ->
  for_fold (zip (seq k (length l)) l) plan_ids (create_plan TOKEN) st = (Ret plan_ids', st') ->
  exists lines,
    console st' = console st ++ lines /\
    length lines = length l /\
    (forall i, (i < k)%nat -> plan_ids' !! i = plan_ids !! i) /\
    (forall j, plan_ids' !! (k + j)%nat = lines !! j ≫= plan_created).
Proof.
  revert k plan_ids st. induction l as [| p l IH]; intros k plan_ids st Hnone.
  - intros [= <- <-]. exists []. rewrite app_nil_r.
    repeat split; try reflexivity. intros j. apply Hnone. lia.
  - change (zip (seq k (length (p :: l))) (p :: l))
      with ((k, p) :: zip (seq (S k) (length l)) l).
    simpl for_fold. intros Hrun.
    apply bind_returned in Hrun as (plan_ids1 & st1 & Hstep & Hrun).
    apply create_plan_line in Hstep as (line & Hline & Hids).
    assert (Hk : plan_ids1 !! k = plan_created line).
    { rewrite Hids. destruct (plan_created line) as [pid |];
        [apply lookup_insert_eq | apply Hnone; lia]. }
    assert (Hother : forall i, i <> k -> plan_ids1 !! i = plan_ids !! i).
    { intros i Hi. rewrite Hids. destruct (plan_created line) as [pid |];
        [apply lookup_insert_ne; congruence | reflexivity]. }
    apply IH in Hrun as (lines & Hlines & Hlen & Hbelow & Hfrom).
    + exists (line :: lines). split; [| split; [| split]].
      * rewrite Hlines, Hline, <- app_assoc. reflexivity.
      * simpl. rewrite Hlen. reflexivity.
      * intros i Hi. rewrite Hbelow by lia. apply Hother. lia.
      * intros [| j].
        -- rewrite Nat.add_0_r, Hbelow by lia. exact Hk.
        -- replace (k + S j)%nat with (S k + j)%nat by lia. apply Hfrom.
    + intros i Hi. rewrite Hother by lia. apply Hnone. lia.
Qed.

End Plans.

(** X14. The plan loop prints one line for each plan of the list, in order,
    and the identifiers it collects are the ones its ok lines show: index
    [i] has the identifier of line [i] when that is an ok line, and none
    when it is a failure line; no other index has one. *)
Theorem plan_ids_match_the_report {E : environment} (TOKEN : json) (l : list plan)
    (st st' : state E) (plan_ids : gmap nat json) :
  @create_plans E TOKEN l st = (Ret plan_ids, st') ->
  exists lines,
    console st' = console st ++ lines /\
    length lines = length l /\
    forall i, plan_ids !! i = lines !! i ≫= plan_created.
Proof.
  unfold create_plans, enumerate. intros Hrun.
  apply (create_plans_lines TOKEN l 0) in Hrun as (lines & Hlines & Hlen & _ & Hfrom).
  - exists lines. split; [exact Hlines |]. split; [exact Hlen |]. exact Hfrom.
  - intros i _. apply lookup_empty.
Qed.

(** X14 on the server that is down: 14 failure lines, no identifier. *)
Lemma plan_ids_match_the_report_witness :
  exists lines,
    console (snd (@create_plans down (JStr "secret") (plans ∅ ("c", "b", "a"))
                    (@start down boot)))
      = console (@start down boot) ++ lines /\
    length lines = length (plans ∅ ("c", "b", "a")) /\
    forall i, (∅ : gmap nat json) !! i = lines !! i ≫= plan_created.
Proof.
  apply (@plan_ids_match_the_report down (JStr "secret") (plans ∅ ("c", "b", "a"))
           (@start down boot)).
  vm_compute. reflexivity.
Defined.

(** X15. Whatever the machine listing gave and whatever identifiers were
    collected, every production log is written against a plan of the list,
    for the machine that plan was created with, and with the identifier
    collected for that plan; its accepted and rejected quantities add up to
    the quantity produced. *)
Theorem logs_agree_with_their_plans (plan_ids : gmap nat json)
    (machine_map : gmap string json) (dates : string * string * string) :
  Forall2 (fun e log =>
             exists p,
               plans machine_map dates !! entry_plan e = Some p /\
               log_machine_id log = machine_id p /\
               plan_id log = plan_ids_get plan_ids (entry_plan e) /\
               quantity_ok log + quantity_rejected log = quantity_produced log)
          log_entries (production_logs plan_ids machine_map).
Proof.
  unfold production_logs, plans, log_entries, plan_entries. simpl map.
  repeat (constructor; [eexists; repeat split; reflexivity |]).
  constructor.
Qed.

(** ** The identifiers the later steps use *)

Section Speaking.

Context {E : environment}.

Lemma speaks_ret {A} (a : A) : speaks (@ret E A a).
Proof. intros st. apply extends_refl. Qed.

Lemma speaks_lift {A} (r : res A) : speaks (@lift E A r).
Proof. intros st. rewrite lift_eq. apply extends_refl. Qed.

Lemma speaks_emit (l : line) : speaks (@emit E l).
Proof. intros st. apply extends_line. Qed.

Lemma speaks_now : speaks (@now E).
Proof.
  intros st. unfold now. destruct (clock E (world st)). exists []. simpl.
  symmetry. apply app_nil_r.
Qed.

Lemma speaks_api method path data token : speaks (@api E method path data token).
Proof. intros st. rewrite api_eq. apply extends_send. Qed.

Lemma speaks_bind {A B} (m : M E A) (f : A -> M E B) :
  speaks m -> (forall a, speaks (f a)) -> speaks (bind m f).
Proof.
  intros Hm Hf st. specialize (Hm st). unfold bind.
  destruct (m st) as [[a | code | e] st1]; simpl in *; [| exact Hm | exact Hm].
  eapply extends_trans; [exact Hm | apply Hf].
Qed.

Lemma speaks_if {A} (b : bool) (m1 m2 : M E A) :
  speaks m1 -> speaks m2 -> speaks (if b then m1 else m2).
Proof. destruct b; intros; assumption. Qed.

Lemma speaks_for_each {A} (items : list A) (body : A -> M E unit) :
  (forall x, speaks (body x)) -> speaks (for_each items body).
Proof.
  intros Hbody. induction items as [| x items IH]; simpl for_each.
  - apply speaks_ret.
  - apply speaks_bind; [apply Hbody | intros _; exact IH].
Qed.

Lemma speaks_for_fold {A V} (items : list A) (body : V -> A -> M E V) (vars : V) :
  (forall v x, speaks (body v x)) -> speaks (for_fold items vars body).
Proof.
  intros Hbody. revert vars. induction items as [| x items IH]; intros vars; simpl for_fold.
  - apply speaks_ret.
  - apply speaks_bind; [apply Hbody | intros v; apply IH].
Qed.

Lemma reported_extends (pid : json) (st st' : state E) :
  extends st st' -> reported pid st -> reported pid st'.
Proof.
  unfold reported. intros [more ->] Hin. rewrite map_app. apply in_or_app. left. exact Hin.
Qed.

End Speaking.

Ltac spoken :=
  lazymatch goal with
  | |- speaks (bind _ _) => apply speaks_bind; [spoken | intros ?; spoken]
  | |- speaks (ret _) => apply speaks_ret
  | |- speaks (lift _) => apply speaks_lift
  | |- speaks (emit _) => apply speaks_emit
  | |- speaks (ok _) => apply speaks_emit
  | |- speaks (fail _) => apply speaks_emit
  | |- speaks (header _) => apply speaks_emit
  | |- speaks (print _) => apply speaks_emit
  | |- speaks now => apply speaks_now
  | |- speaks (api _ _ _ _) => apply speaks_api
  | |- speaks (if _ then _ else _) => apply speaks_if; spoken
  | |- speaks (for_each _ _) => apply speaks_for_each; intros ?; spoken
  | |- speaks (let '(_, _) := ?p in _) => destruct p; spoken
  | |- _ => idtac
  end.

Section Identifiers.

Context {E : environment}.
Variable TOKEN : json.

(** What follows the plan step only adds lines. *)
Lemma after_plans_speaks (plan_ids : gmap nat json) (machine_map : gmap string json) :
  speaks (set_plan_statuses (E := E) TOKEN plan_ids ;;
          log_production TOKEN (production_logs plan_ids machine_map) ;;
          log_downtime TOKEN machine_map ;;
          verify_dashboard TOKEN ;;
          verify_reports TOKEN ;;
          feature_flags TOKEN ;;
          farewell).
Proof.
  unfold set_plan_statuses, patch_plan, log_production, post_logs, log_downtime,
    read_downtime_events, post_downtime, verify_dashboard, dashboard_row, verify_reports,
    count_entries, feature_flags, feature_row, farewell.
  spoken. apply speaks_for_fold. intros [s f] log. unfold post_log. spoken.
Qed.

(** An identifier of the map was shown by a line of the plan step. *)
Lemma collected_reported (l : list plan) (st st' : state E) (plan_ids : gmap nat json)
    (i : nat) (pid : json) :
  create_plans TOKEN l st = (Ret plan_ids, st') ->
  plan_ids !! i = Some pid ->
  reported pid st'.
Proof.
  unfold create_plans, enumerate. intros Hrun Hi.
  apply (create_plans_lines TOKEN l 0) in Hrun as (lines & Hlines & _ & _ & Hfrom);
    [| intros j _; apply lookup_empty].
  specialize (Hfrom i). simpl in Hfrom. rewrite Hi in Hfrom.
  destruct (lines !! i) as [line |] eqn:Hline; [| discriminate].
  simpl in Hfrom. unfold reported. rewrite Hlines, map_app. apply in_or_app. right.
  apply in_map_iff. exists line. split; [symmetry; exact Hfrom |].
  apply list_elem_of_In. eapply list_elem_of_lookup_2. exact Hline.
Qed.

End Identifiers.

(** ** A run that reaches the end *)

(** A run that returned, stage by stage: what it sent, and the call of the
    plan step with what came after it. *)
Lemma run_returned {E : environment} (w : World E) (st' : state E) :
  @run E (start w) = (Ret tt, st') ->
  exists TOKEN machine_map dates plan_ids events st8 st9,
    truthy TOKEN = true /\
    length events = 4%nat /\
    sent st' = seeded TOKEN machine_map dates plan_ids events /\
    create_plans TOKEN (plans machine_map dates) st8 = (Ret plan_ids, st9) /\
    extends st9 st'.
Proof.
  unfold run. intros Hrun.
  apply bind_returned in Hrun as ([] & st1 & Hhealth & Hrun).
  apply bind_returned in Hrun as (TOKEN & st2 & Hlogin & Hrun).
  apply bind_returned in Hrun as ([] & st3 & Husers & Hrun).
  apply bind_returned in Hrun as ([] & st4 & Hmachines & Hrun).
  apply bind_returned in Hrun as ([] & st5 & Hshifts & Hrun).
  apply bind_returned in Hrun as ([] & st6 & Hheader & Hrun).
  apply bind_returned in Hrun as (machine_map & st7 & Hmap & Hrun).
  apply bind_returned in Hrun as (dates & st8 & Hdates & Hrun).
  apply bind_returned in Hrun as (plan_ids & st9 & Hplans & Hrun).
  pose proof (after_plans_speaks TOKEN plan_ids machine_map st9) as Hspeaks.
  rewrite Hrun in Hspeaks. simpl in Hspeaks.
  apply bind_returned in Hrun as ([] & st10 & Hstatuses & Hrun).
  apply bind_returned in Hrun as ([] & st11 & Hlogs & Hrun).
  apply bind_returned in Hrun as ([] & st12 & Hdowntime & Hrun).
  apply bind_returned in Hrun as ([] & st13 & Hdashboard & Hrun).
  apply bind_returned in Hrun as ([] & st14 & Hreports & Hrun).
  apply bind_returned in Hrun as ([] & st15 & Hfeatures & Hrun).
  apply log_downtime_posts in Hdowntime as (events & Hlen & Hdowntime).
  exists TOKEN, machine_map, dates, plan_ids, events, st8, st9.
  split; [exact (login_token _ _ _ Hlogin) |]. split; [exact Hlen |].
  split; [| split; [exact Hplans | exact Hspeaks]].
  pose proof (farewell_quiet st15) as H16. rewrite Hrun in H16. simpl in H16.
  rewrite H16, (feature_flags_posts TOKEN _ _ _ Hfeatures),
    (verify_reports_posts TOKEN _ _ _ Hreports),
    (verify_dashboard_posts TOKEN _ _ _ Hdashboard), Hdowntime,
    (log_production_posts TOKEN _ _ _ _ Hlogs),
    (set_plan_statuses_posts TOKEN _ _ _ _ Hstatuses),
    (create_plans_posts TOKEN _ _ _ _ Hplans).
  pose proof (read_dates_quiet st7) as H8. rewrite Hdates in H8. simpl in H8.
  rewrite H8, (read_machine_map_posts TOKEN _ _ _ Hmap).
  injection Hheader as <-. change (sent (after_line st5 _)) with (sent st5).
  rewrite (verify_shifts_posts TOKEN _ _ _ Hshifts),
    (create_machines_posts TOKEN _ _ _ Hmachines),
    (create_users_posts TOKEN _ _ _ Husers).
  pose proof (login_sent st1) as H2. rewrite Hlogin in H2. simpl in H2.
  pose proof (health_check_sent (start w)) as H1. rewrite Hhealth in H1. simpl in H1.
  rewrite H2, H1. unfold seeded. repeat rewrite <- app_assoc. reflexivity.
Qed.



(** X16. In a run that reaches its last line, the later steps use only the
    identifiers the plan step reported: every status patch goes to an
    identifier shown by an ok line of a plan, and every production log is
    posted with such an identifier or with null. *)
Theorem later_steps_use_reported_identifiers {E : environment} (w : World E)
    (st' : state E) :
  @run E (start w) = (Ret tt, st') ->
  forall req, In req (sent st') ->
    (forall pid new_status, patched req = Some (pid, new_status) -> reported pid st') /\
    (forall pid, logged req = Some pid -> pid = JNull \/ reported pid st').
Proof.
  intros Hrun req Hin.
  destruct (run_returned w st' Hrun)
    as (TOKEN & machine_map & dates & plan_ids & events & st8 & st9
        & _ & _ & Hsent & Hplans & Hext).
  assert (Hpatch : forall new_status indices,
            In req (patches_for TOKEN plan_ids new_status indices) ->
            (forall pid s, patched req = Some (pid, s) -> reported pid st') /\
            (forall pid, logged req = Some pid -> pid = JNull \/ reported pid st')).
  { intros new_status indices Hreq. unfold patches_for in Hreq.
    apply in_flat_map in Hreq as (i & _ & Hreq).
    destruct (truthy (plan_ids_get plan_ids i)) eqn:Htrue; [| contradiction].
    destruct Hreq as [<- | []]. split.
    - intros pid s [= <- _]. apply (reported_extends _ st9); [exact Hext |].
      exact (collected_reported TOKEN _ _ _ _ i _ Hplans (true_collected _ _ Htrue)).
    - intros pid. discriminate. }
  rewrite Hsent in Hin. unfold seeded in Hin.
  apply in_app_or in Hin as [[<- | [<- | []]] | Hin];
    [split; intros; discriminate | split; intros; discriminate |].
  apply in_app_or in Hin as [Hin | Hin].
  { apply in_map_iff in Hin as (u & <- & _). split; intros; discriminate. }
  apply in_app_or in Hin as [Hin | Hin].
  { apply in_map_iff in Hin as (m & <- & _). split; intros; discriminate. }
  apply in_app_or in Hin as [[<- | [<- | []]] | Hin];
    [split; intros; discriminate | split; intros; discriminate |].
  apply in_app_or in Hin as [Hin | Hin].
  { apply in_map_iff in Hin as (p & <- & _). split; intros; discriminate. }
  apply in_app_or in Hin as [Hin | Hin]; [exact (Hpatch _ _ Hin) |].
  apply in_app_or in Hin as [Hin | Hin]; [exact (Hpatch _ _ Hin) |].
  apply in_app_or in Hin as [Hin | Hin].
  { apply in_map_iff in Hin as (log & <- & Hlog). split; [intros; discriminate |].
    unfold production_logs in Hlog. apply in_map_iff in Hlog as (e & <- & _).
    intros pid [= <-]. unfold log_of, plan_ids_get. cbn [plan_id].
    destruct (plan_ids !! entry_plan e) as [pid |] eqn:Hpid; [right | left; reflexivity].
    apply (reported_extends _ st9); [exact Hext |].
    exact (collected_reported TOKEN _ _ _ _ _ _ Hplans Hpid). }
  apply in_app_or in Hin as [Hin | Hin].
  { apply in_map_iff in Hin as (dt & <- & _). split; intros; discriminate. }
  simpl in Hin.
  destruct Hin as [<- | [<- | [<- | [<- | [<- | []]]]]]; split; intros; discriminate.
Qed.

(** X16 on the server of the factory: the first status patch goes to the
    identifier 101, which the first plan line showed. *)
Lemma later_steps_use_reported_identifiers_witness :
  reported (JInt 101) (snd (@run factory (@start factory boot))).
Proof.
  refine (proj1 (@later_steps_use_reported_identifiers factory boot
                   (snd (@run factory (@start factory boot))) _
                   (patch_request (JStr "secret") (JInt 101) "IN_PROGRESS") _)
            (JInt 101) (JStr "IN_PROGRESS") _).
  - vm_compute. reflexivity.
  - vm_compute. repeat (first [left; reflexivity | right]).
  - reflexivity.
Defined.

(** ** The downtime events *)

Section Downtime.

Context {E : environment}.
Variable TOKEN : json.

(** A timestamp is never the empty string. *)
Lemma isoformat_true (t : datetime) : truthy (JStr (isoformat t)) = true.
Proof.
  unfold truthy, isoformat. cbv zeta.
  destruct (strftime_ymd t) as [| c s]; reflexivity.
Qed.

Lemma post_downtime_eq (dt : downtime_event) (st : state E) (j : json) :
  reply st (downtime_request TOKEN dt) = Val j ->
  success_of j = true ->
  post_downtime TOKEN dt st =
    (Ret tt,
     after_line (after_send st (downtime_request TOKEN dt))
       (Ok_line [Lit ("Downtime: " +:+ slice_to 40 (reason dt) +:+ "... (" +:+
                      match ended_at dt with
                      | Some t => if negb (truthy (JStr t)) then "ongoing" else "resolved"
                      | None => "ongoing"
                      end +:+ ")")])).
Proof.
  intros Hreply Hsuccess. unfold post_downtime, ok. rewrite bind_api.
  fold (downtime_request TOKEN dt). rewrite Hreply, bind_lift.
  unfold success_of in Hsuccess.
  destruct (get j "success" JNull) as [success | e]; [| discriminate].
  rewrite Hsuccess. reflexivity.
Qed.

End Downtime.

(** X17. When the clock is sane and the server accepts the downtime events,
    the downtime step returns having printed one ok line for each of the
    four events, with the first 40 characters of its reason: the first event,
    which has no end, as ongoing, the other three as resolved. *)
Theorem downtime_events_reported {E : environment} (TOKEN : json)
    (machine_map : gmap string json) (st : state E) :
  sane (fst (clock E (world st))) ->
  (forall dt (st0 : state E),
     exists j, reply st0 (downtime_request TOKEN dt) = Val j /\ success_of j = true) ->
  exists st',
    @log_downtime E TOKEN machine_map st = (Ret tt, st') /\
    console st' =
      console st ++
        [Header_line [Lit "8. LOG DOWNTIME EVENTS"];
         Ok_line [Lit "Downtime: Scheduled preventive maintenance - beari... (ongoing)"];
         Ok_line [Lit "Downtime: Tool breakage - carbide insert shattered... (resolved)"];
         Ok_line [Lit "Downtime: Material feed jam - hopper blockage... (resolved)"];
         Ok_line [Lit "Downtime: Calibration drift detected - recalibrati... (resolved)"]].
Proof.
  intros Hsane Hserver. unfold log_downtime, header. rewrite bind_emit.
  unfold read_downtime_events. rewrite bind_assoc. unfold bind at 1. unfold now.
  cbn [world after_line]. destruct (clock E (world st)) as [t w] eqn:Hclock.
  cbn [fst] in Hsane.
  repeat (rewrite bind_assoc, bind_lift;
          match goal with
          | |- context [minus t 0 ?h ?m] =>
              let t' := fresh "t" in
              let Ht := fresh "Ht" in
              destruct (minus_hours t h m Hsane ltac:(lia)) as [t' Ht];
              rewrite Ht
          end).
  unfold bind at 1. unfold ret at 1. cbv beta iota. simpl for_each.
  repeat match goal with
         | |- context [bind (post_downtime TOKEN ?dt) ?k ?s] =>
             let j := fresh "j" in
             let Hr := fresh "Hr" in
             let Hs := fresh "Hs" in
             destruct (Hserver dt s) as (j & Hr & Hs);
             unfold bind at 1; rewrite (post_downtime_eq TOKEN dt s j Hr Hs)
         end.
  eexists. split; [reflexivity |].
  cbn [console after_line after_send ended_at reason]. rewrite !isoformat_true.
  rewrite <- !app_assoc. reflexivity.
Qed.

(** X17 on the server of the factory, at noon. *)
Lemma downtime_events_reported_witness :
  exists st',
    @log_downtime factory (JStr "secret") ∅ (@start factory boot) = (Ret tt, st') /\
    console st' =
      console (@start factory boot) ++
        [Header_line [Lit "8. LOG DOWNTIME EVENTS"];
         Ok_line [Lit "Downtime: Scheduled preventive maintenance - beari... (ongoing)"];
         Ok_line [Lit "Downtime: Tool breakage - carbide insert shattered... (resolved)"];
         Ok_line [Lit "Downtime: Material feed jam - hopper blockage... (resolved)"];
         Ok_line [Lit "Downtime: Calibration drift detected - recalibrati... (resolved)"]].
Proof.
  apply (@downtime_events_reported factory (JStr "secret") ∅ (@start factory boot)).
  - apply noon_sane.
  - intros dt st0. exists yes. split; reflexivity.
Defined.

(** ** A plan created without identifier *)

(** X18. When the reply to a plan creation reports success and carries no
    plan identifier, the loop collects the substitute [i + 1] for the plan at
    index [i] and reports it in the ok line; the substitute is true, so the
    status step sends its patch to that identifier. *)
Theorem plan_without_identifier_gets_substitute {E : environment} (TOKEN : json)
    (plan_ids : gmap nat json) (i : nat) (p : plan) (st : state E)
    (members plan_members : list (string * json)) (success : json) :
  reply st (plan_request TOKEN p) = Val (JObj members) ->
  members_get members "success" = Some success ->
  truthy success = true ->
  get (JObj members) "plan" (JObj []) = Val (JObj plan_members) ->
  members_get plan_members "plan_id" = None ->
  exists st',
    @create_plan E TOKEN plan_ids (i, p) st
      = (Ret (<[i := JInt (Z.of_nat i + 1)]> plan_ids), st') /\
    (last (console st') ≫= plan_created) = Some (JInt (Z.of_nat i + 1)) /\
    forall new_status,
      patches_for TOKEN (<[i := JInt (Z.of_nat i + 1)]> plan_ids) new_status [i]
        = [patch_request TOKEN (JInt (Z.of_nat i + 1)) new_status].
Proof.
  intros Hreply Hsuccess Htrue Hplan Hid. unfold create_plan, ok.
  rewrite bind_api. fold (plan_request TOKEN p). rewrite Hreply, bind_lift.
  unfold get at 1. rewrite Hsuccess. cbn [from_option id]. rewrite Htrue.
  rewrite bind_lift, Hplan, bind_lift. unfold get at 1. rewrite Hid. cbn [from_option].
  rewrite bind_emit. eexists. split; [reflexivity |]. split.
  - cbn [console after_line]. rewrite last_snoc. reflexivity.
  - intros new_status. unfold patches_for, plan_ids_get. cbn [flat_map].
    rewrite lookup_insert_eq. cbn [from_option id truthy].
    destruct (Z.eqb_spec (Z.of_nat i + 1) 0) as [Hzero | _]; [lia | reflexivity].
Qed.

(** X18 on a server that answers a bare success to everything behind the
    login: the first plan gets the identifier 1. *)
Lemma plan_without_identifier_gets_substitute_witness :
  exists st',
    @create_plan refused (JStr "secret") ∅
       (0%nat, plan_of ∅ ("c", "b", "a")
                 {| entry_machine := "CNC-001"; entry_fallback := 1; entry_shift := 1;
                    entry_product_name := "Shaft Bearing Housing";
                    entry_product_code := "SBH-1001"; entry_target := 500;
                    entry_day := Today |})
       (@start refused boot)
      = (Ret (<[0%nat := JInt 1]> ∅), st') /\
    (last (console st') ≫= plan_created) = Some (JInt 1) /\
    forall new_status,
      patches_for (JStr "secret") (<[0%nat := JInt 1]> ∅) new_status [0%nat]
        = [patch_request (JStr "secret") (JInt 1) new_status].
Proof.
  apply (@plan_without_identifier_gets_substitute refused (JStr "secret") ∅ 0%nat
           _ (@start refused boot) [("success", JBool true)] [] (JBool true));
    reflexivity.
Defined.

(** ** What the script needs of the server *)

(** X19. The script reaches its last line, with exit status 0, against every
    server that reports itself healthy, answers the login with a token that
    is true and has a length, and answers each later request with a reply of
    the shape expected of its endpoint, as long as the clock allows the
    subtractions. *)
Theorem conforming_run_completes {E : environment} (w : World E) :
  healthy w = true ->
  (forall st : state E,
     exists login_resp TOKEN,
       reply st login_request = Val login_resp /\
       get login_resp "token" JNull = Val TOKEN /\
       truthy TOKEN = true /\ sized TOKEN = true) ->
  (forall req w', authorization req <> None ->
     exists j, answer (fst (urlopen E req w')) = Val j /\ expected req j = true) ->
  (forall w', sane (fst (clock E w'))) ->
  exists st',
    @run E (start w) = (Ret tt, st') /\
    exit_status (fst (@run E (start w))) = 0.
Proof.
  intros Hhealthy Hlogin Hserver Hclock.
  destruct (health_check_healthy w Hhealthy) as (st1 & Hhealth & _).
  destruct (Hlogin st1) as (login_resp & TOKEN & Hreply & Htoken & Htrue & Hsized).
  destruct (sized_len TOKEN Hsized) as [n Hlen].
  pose proof (login_eq st1) as Heq. cbv zeta in Heq.
  rewrite Hreply, Htoken, Htrue, Hlen in Heq.
  destruct (run_completes w st1 _ TOKEN Hhealth Heq Hserver Hclock) as (st' & Hrun & _).
  exists st'. split; [exact Hrun | rewrite Hrun; reflexivity].
Qed.

(** X19 on the server of the factory. *)
Lemma conforming_run_completes_witness :
  exists st',
    @run factory (@start factory boot) = (Ret tt, st') /\
    exit_status (fst (@run factory (@start factory boot))) = 0.
Proof.
  apply (@conforming_run_completes factory boot).
  - reflexivity.
  - intros st. eexists _, _. repeat split; reflexivity.
  - intros req w'. apply factory_expected.
  - intros w'. apply noon_sane.
Defined.
